(** * The out-of-process worker pool manager (PROCESS_MANAGER)

    A shallow embedding of
    [src/Servers/IIS/AspNetCoreModuleV2/OutOfProcessRequestHandler/processmanager.cpp]
    and [processmanager.h], followed by the properties of the pool manager
    that its specification states.

    Conventions of the embedding.
    - Machine integers are [Z] with their wrap-around written out
      ([to_int], [to_LONG], [to_DWORD], [to_uint64]).
    - The object [*this] is the record [PROCESS_MANAGER]; every member
      function takes it and returns the updated record.
    - What the code asks of its collaborators (Winsock, the file system, the
      clock, the SERVER_PROCESS objects, the event log) is supplied per call
      by an [Environment], and every call the manager makes on a collaborator
      is appended to the ghost field [calls].
    - A result [None] stands for undefined behaviour of the C++ program
      (remainder by zero, an array access out of bounds, a call through a
      null pointer).
    - The SRW lock serialises the member functions; the embedding is the
      sequential behaviour of one member function at a time.
    - [RETURN_HR], [RETURN_IF_FAILED] and [RETURN_LAST_ERROR_IF] are macros of
      exceptions.h, which is not among the sources at hand; they are read as
      early returns: of their argument, of their argument when it is a
      failure code, and of [HRESULT_FROM_WIN32(GetLastError())] when their
      condition holds. *)

From Stdlib Require Import ZArith Lia Bool.
From stdpp Require Import base option list.

Local Open Scope Z_scope.

(** ** Machine integers *)

Module Int.

(** [unsigned w z]: the value of [z] converted to an unsigned integer of
    [w] bits. *)
Definition unsigned (w : Z) (z : Z) : Z := z mod 2 ^ w.

(** [signed w z]: the value of [z] converted to a two's complement integer
    of [w] bits. *)
Definition signed (w : Z) (z : Z) : Z :=
  let u := unsigned w z in
  if u <? 2 ^ (w - 1) then u else u - 2 ^ w.

Definition to_int : Z -> Z := signed 32.       (* int *)
Definition to_LONG : Z -> Z := signed 32.      (* long, LONG, HRESULT *)
Definition to_DWORD : Z -> Z := unsigned 32.   (* unsigned long, DWORD *)
Definition to_uint64 : Z -> Z := unsigned 64.  (* uint64_t *)

Definition is_int (z : Z) : Prop := - 2 ^ 31 <= z < 2 ^ 31.
Definition is_DWORD (z : Z) : Prop := 0 <= z < 2 ^ 32.

(** [a % b] on unsigned operands; the remainder by zero is undefined. *)
Definition urem (a b : Z) : option Z :=
  if b =? 0 then None else Some (a mod b).

End Int.
Import Int.

(** ** HRESULT and the error macros *)

Definition HRESULT := Z.

Definition S_OK : HRESULT := 0.

(** [FAILED(hr)] of winerror.h: [hr < 0]. *)
Definition FAILED (hr : HRESULT) : bool := hr <? 0.

(** [HRESULT_FROM_WIN32(x)] of winerror.h:
    [(HRESULT)(x) <= 0 ? (HRESULT)(x)
                       : (HRESULT)((x & 0xFFFF) | (FACILITY_WIN32 << 16) | 0x80000000)]. *)
Definition HRESULT_FROM_WIN32 (x : Z) : HRESULT :=
  if to_LONG x <=? 0 then to_LONG x
  else to_LONG (Z.lor (Z.land x 0xFFFF) (Z.lor (Z.shiftl 7 16) 0x80000000)).

(** Win32 error codes of winerror.h. *)
Definition ERROR_SERVER_SHUTDOWN_IN_PROGRESS : Z := 1255.
Definition ERROR_SERVER_DISABLED : Z := 1341.
Definition ERROR_CREATE_FAILED : Z := 1631.

(** Modelled from the spec: [E_APPLICATION_EXITING] is declared in
    exceptions.h, which is not among the sources at hand.  The spec calls it
    the "application exiting" error outcome of [GetProcess]; it is taken as
    the failure code [HRESULT_FROM_WIN32(ERROR_SERVER_SHUTDOWN_IN_PROGRESS)]. *)
Definition E_APPLICATION_EXITING : HRESULT :=
  HRESULT_FROM_WIN32 ERROR_SERVER_SHUTDOWN_IN_PROGRESS.

Definition ONE_MINUTE_IN_MILLISECONDS : Z := 60000.

(** ** Collaborators *)

(** A SERVER_PROCESS as the manager sees it: the two observers the manager
    calls on it. *)
Record SERVER_PROCESS := mkSERVER_PROCESS {
  GetPort : Z;
  IsReady : bool
}.

(** A slot of [m_ppServerProcessList]: [nullptr] or a worker. *)
Abbreviation Slot := (option SERVER_PROCESS).

(** The accessors of REQUESTHANDLER_CONFIG that the manager reads. *)
Record REQUESTHANDLER_CONFIG := mkREQUESTHANDLER_CONFIG {
  QueryProcessesPerApplication : Z;
  QueryRapidFailsPerMinute : Z
}.

Inductive HANDLE :=
| nullptr
| INVALID_HANDLE_VALUE
| OpenHandle (h : positive).

(** The result of [CreateFileW]: a handle to the opened file, or
    INVALID_HANDLE_VALUE with the thread's last error set. *)
Inductive CreateFileW_result :=
| Opened (h : positive)
| OpenFailed (lastError : Z).

(** What the collaborators answer during one call of a member function. *)
Record Environment := mkEnvironment {
  GetTickCount64 : Z;               (* the clock, in milliseconds *)
  WSAStartup : Z;                   (* int returned by WSAStartup *)
  CreateFileW : CreateFileW_result;
  Initialize_result : HRESULT;      (* SERVER_PROCESS::Initialize *)
  StartProcess_result : HRESULT;    (* SERVER_PROCESS::StartProcess *)
  started : SERVER_PROCESS          (* the new worker after StartProcess *)
}.

(** The calls the manager makes on its collaborators, in program order. *)
Inductive Call :=
| CallWSAStartup
| CallCreateFileW
| CallNewArray (n : Z)                              (* new SERVER_PROCESS*[n] *)
| CallSendSignal (p : SERVER_PROCESS)               (* p->SendSignal() *)
| CallStopProcess (p : SERVER_PROCESS)              (* p->StopProcess() *)
| CallDereferenceServerProcess (p : SERVER_PROCESS) (* p->DereferenceServerProcess() *)
| CallMakeServerProcess                             (* std::make_unique<SERVER_PROCESS>() *)
| CallInitialize                                    (* pSelectedServerProcess->Initialize(...) *)
| CallStartProcess                                  (* pSelectedServerProcess->StartProcess() *)
| CallEventLogInfo (rapidFailsPerMinute : Z).       (* EventLog::Info(...) *)

(** ** The manager *)

Record PROCESS_MANAGER := mkPROCESS_MANAGER {
  m_cRapidFailCount : Z;                        (* std::atomic_long *)
  m_rapidFailTickStart : Z;                     (* uint64_t *)
  m_dwProcessesPerApplication : Z;              (* DWORD *)
  m_dwRouteToProcessIndex : Z;                  (* std::atomic<int> *)
  m_ppServerProcessList : option (list Slot);   (* nullptr or the array *)
  m_hNULHandle : HANDLE;
  m_cRefs : Z;                                  (* std::atomic_long *)
  isWSAStartupDone : bool;                      (* static member *)
  serverProcessListReady : bool;
  isStopping : bool;
  calls : list Call                             (* ghost: calls made so far *)
}.

(** Field updates. *)
Definition set_m_cRapidFailCount (v : Z) (this : PROCESS_MANAGER) : PROCESS_MANAGER :=
  {| m_cRapidFailCount := v;
     m_rapidFailTickStart := m_rapidFailTickStart this;
     m_dwProcessesPerApplication := m_dwProcessesPerApplication this;
     m_dwRouteToProcessIndex := m_dwRouteToProcessIndex this;
     m_ppServerProcessList := m_ppServerProcessList this;
     m_hNULHandle := m_hNULHandle this;
     m_cRefs := m_cRefs this;
     isWSAStartupDone := isWSAStartupDone this;
     serverProcessListReady := serverProcessListReady this;
     isStopping := isStopping this;
     calls := calls this |}.

Definition set_m_rapidFailTickStart (v : Z) (this : PROCESS_MANAGER) : PROCESS_MANAGER :=
  {| m_cRapidFailCount := m_cRapidFailCount this;
     m_rapidFailTickStart := v;
     m_dwProcessesPerApplication := m_dwProcessesPerApplication this;
     m_dwRouteToProcessIndex := m_dwRouteToProcessIndex this;
     m_ppServerProcessList := m_ppServerProcessList this;
     m_hNULHandle := m_hNULHandle this;
     m_cRefs := m_cRefs this;
     isWSAStartupDone := isWSAStartupDone this;
     serverProcessListReady := serverProcessListReady this;
     isStopping := isStopping this;
     calls := calls this |}.

Definition set_m_dwProcessesPerApplication (v : Z) (this : PROCESS_MANAGER) : PROCESS_MANAGER :=
  {| m_cRapidFailCount := m_cRapidFailCount this;
     m_rapidFailTickStart := m_rapidFailTickStart this;
     m_dwProcessesPerApplication := v;
     m_dwRouteToProcessIndex := m_dwRouteToProcessIndex this;
     m_ppServerProcessList := m_ppServerProcessList this;
     m_hNULHandle := m_hNULHandle this;
     m_cRefs := m_cRefs this;
     isWSAStartupDone := isWSAStartupDone this;
     serverProcessListReady := serverProcessListReady this;
     isStopping := isStopping this;
     calls := calls this |}.

Definition set_m_dwRouteToProcessIndex (v : Z) (this : PROCESS_MANAGER) : PROCESS_MANAGER :=
  {| m_cRapidFailCount := m_cRapidFailCount this;
     m_rapidFailTickStart := m_rapidFailTickStart this;
     m_dwProcessesPerApplication := m_dwProcessesPerApplication this;
     m_dwRouteToProcessIndex := v;
     m_ppServerProcessList := m_ppServerProcessList this;
     m_hNULHandle := m_hNULHandle this;
     m_cRefs := m_cRefs this;
     isWSAStartupDone := isWSAStartupDone this;
     serverProcessListReady := serverProcessListReady this;
     isStopping := isStopping this;
     calls := calls this |}.

Definition set_m_ppServerProcessList (v : option (list Slot)) (this : PROCESS_MANAGER) : PROCESS_MANAGER :=
  {| m_cRapidFailCount := m_cRapidFailCount this;
     m_rapidFailTickStart := m_rapidFailTickStart this;
     m_dwProcessesPerApplication := m_dwProcessesPerApplication this;
     m_dwRouteToProcessIndex := m_dwRouteToProcessIndex this;
     m_ppServerProcessList := v;
     m_hNULHandle := m_hNULHandle this;
     m_cRefs := m_cRefs this;
     isWSAStartupDone := isWSAStartupDone this;
     serverProcessListReady := serverProcessListReady this;
     isStopping := isStopping this;
     calls := calls this |}.

Definition set_m_hNULHandle (v : HANDLE) (this : PROCESS_MANAGER) : PROCESS_MANAGER :=
  {| m_cRapidFailCount := m_cRapidFailCount this;
     m_rapidFailTickStart := m_rapidFailTickStart this;
     m_dwProcessesPerApplication := m_dwProcessesPerApplication this;
     m_dwRouteToProcessIndex := m_dwRouteToProcessIndex this;
     m_ppServerProcessList := m_ppServerProcessList this;
     m_hNULHandle := v;
     m_cRefs := m_cRefs this;
     isWSAStartupDone := isWSAStartupDone this;
     serverProcessListReady := serverProcessListReady this;
     isStopping := isStopping this;
     calls := calls this |}.

Definition set_m_cRefs (v : Z) (this : PROCESS_MANAGER) : PROCESS_MANAGER :=
  {| m_cRapidFailCount := m_cRapidFailCount this;
     m_rapidFailTickStart := m_rapidFailTickStart this;
     m_dwProcessesPerApplication := m_dwProcessesPerApplication this;
     m_dwRouteToProcessIndex := m_dwRouteToProcessIndex this;
     m_ppServerProcessList := m_ppServerProcessList this;
     m_hNULHandle := m_hNULHandle this;
     m_cRefs := v;
     isWSAStartupDone := isWSAStartupDone this;
     serverProcessListReady := serverProcessListReady this;
     isStopping := isStopping this;
     calls := calls this |}.

Definition set_isWSAStartupDone (v : bool) (this : PROCESS_MANAGER) : PROCESS_MANAGER :=
  {| m_cRapidFailCount := m_cRapidFailCount this;
     m_rapidFailTickStart := m_rapidFailTickStart this;
     m_dwProcessesPerApplication := m_dwProcessesPerApplication this;
     m_dwRouteToProcessIndex := m_dwRouteToProcessIndex this;
     m_ppServerProcessList := m_ppServerProcessList this;
     m_hNULHandle := m_hNULHandle this;
     m_cRefs := m_cRefs this;
     isWSAStartupDone := v;
     serverProcessListReady := serverProcessListReady this;
     isStopping := isStopping this;
     calls := calls this |}.

Definition set_serverProcessListReady (v : bool) (this : PROCESS_MANAGER) : PROCESS_MANAGER :=
  {| m_cRapidFailCount := m_cRapidFailCount this;
     m_rapidFailTickStart := m_rapidFailTickStart this;
     m_dwProcessesPerApplication := m_dwProcessesPerApplication this;
     m_dwRouteToProcessIndex := m_dwRouteToProcessIndex this;
     m_ppServerProcessList := m_ppServerProcessList this;
     m_hNULHandle := m_hNULHandle this;
     m_cRefs := m_cRefs this;
     isWSAStartupDone := isWSAStartupDone this;
     serverProcessListReady := v;
     isStopping := isStopping this;
     calls := calls this |}.

Definition set_isStopping (v : bool) (this : PROCESS_MANAGER) : PROCESS_MANAGER :=
  {| m_cRapidFailCount := m_cRapidFailCount this;
     m_rapidFailTickStart := m_rapidFailTickStart this;
     m_dwProcessesPerApplication := m_dwProcessesPerApplication this;
     m_dwRouteToProcessIndex := m_dwRouteToProcessIndex this;
     m_ppServerProcessList := m_ppServerProcessList this;
     m_hNULHandle := m_hNULHandle this;
     m_cRefs := m_cRefs this;
     isWSAStartupDone := isWSAStartupDone this;
     serverProcessListReady := serverProcessListReady this;
     isStopping := v;
     calls := calls this |}.

(** The manager calls collaborators [cs], in that order. *)
Definition call (cs : list Call) (this : PROCESS_MANAGER) : PROCESS_MANAGER :=
  {| m_cRapidFailCount := m_cRapidFailCount this;
     m_rapidFailTickStart := m_rapidFailTickStart this;
     m_dwProcessesPerApplication := m_dwProcessesPerApplication this;
     m_dwRouteToProcessIndex := m_dwRouteToProcessIndex this;
     m_ppServerProcessList := m_ppServerProcessList this;
     m_hNULHandle := m_hNULHandle this;
     m_cRefs := m_cRefs this;
     isWSAStartupDone := isWSAStartupDone this;
     serverProcessListReady := serverProcessListReady this;
     isStopping := isStopping this;
     calls := calls this ++ cs |}.

(** The constructor together with the member initialisers of the header.
    [m_rapidFailTickStart] has no initialiser: its first value is whatever
    the memory holds, [garbage].  [isWSAStartupDone] is static: a new manager
    sees the value the process has reached, [wsaStartupDone]. *)
Definition PROCESS_MANAGER_ctor (garbage : Z) (wsaStartupDone : bool) : PROCESS_MANAGER :=
  {| m_cRapidFailCount := 0;
     m_rapidFailTickStart := garbage;
     m_dwProcessesPerApplication := 1;
     m_dwRouteToProcessIndex := 0;
     m_ppServerProcessList := None;
     m_hNULHandle := nullptr;
     m_cRefs := 1;
     isWSAStartupDone := wsaStartupDone;
     serverProcessListReady := false;
     isStopping := false;
     calls := [] |}.

(** ** Member functions *)

Definition handle_of (r : CreateFileW_result) : HANDLE :=
  match r with
  | Opened h => OpenHandle h
  | OpenFailed _ => INVALID_HANDLE_VALUE
  end.

(** [GetLastError()] right after [CreateFileW] returned [r]. *)
Definition GetLastError (r : CreateFileW_result) : Z :=
  match r with
  | Opened _ => 0
  | OpenFailed lastError => lastError
  end.

Definition is_nullptr (h : HANDLE) : bool :=
  match h with nullptr => true | _ => false end.

Definition is_INVALID_HANDLE_VALUE (h : HANDLE) : bool :=
  match h with INVALID_HANDLE_VALUE => true | _ => false end.

(** [PROCESS_MANAGER::Initialize], lines 21-61.  [RETURN_HR(hr)] returns
    [hr]; [RETURN_LAST_ERROR_IF(c)] returns
    [HRESULT_FROM_WIN32(GetLastError())] when [c] holds. *)
Definition Initialize (env : Environment) (this : PROCESS_MANAGER)
  : HRESULT * PROCESS_MANAGER :=
  (* 26-38 *)
  let startup : HRESULT * PROCESS_MANAGER + PROCESS_MANAGER :=
    if negb (isWSAStartupDone this) then
      if negb (isWSAStartupDone this) then
        let this := call [CallWSAStartup] this in
        let result := WSAStartup env in
        if negb (result =? 0) then inl (HRESULT_FROM_WIN32 result, this)
        else inr (set_isWSAStartupDone true this)
      else inr this
    else inr this in
  match startup with
  | inl returned => returned
  | inr this =>
      (* 40 *)
      let this := set_m_rapidFailTickStart (GetTickCount64 env) this in
      (* 42-58 *)
      if is_nullptr (m_hNULHandle this) then
        let this := call [CallCreateFileW] this in
        let this := set_m_hNULHandle (handle_of (CreateFileW env)) this in
        if is_INVALID_HANDLE_VALUE (m_hNULHandle this) then
          (HRESULT_FROM_WIN32 (GetLastError (CreateFileW env)), this)
        else
          (* 60 *)
          (S_OK, this)
      else
        (S_OK, this)
  end.

(** [ReferenceProcessManager], lines 63-66. *)
Definition ReferenceProcessManager (this : PROCESS_MANAGER) : PROCESS_MANAGER :=
  set_m_cRefs (to_LONG (m_cRefs this + 1)) this.

(** [DereferenceProcessManager], lines 68-74: the updated manager and
    whether it was deleted. *)
Definition DereferenceProcessManager (this : PROCESS_MANAGER) : PROCESS_MANAGER * bool :=
  let this := set_m_cRefs (to_LONG (m_cRefs this - 1)) this in
  (this, m_cRefs this =? 0).

(** [IncrementRapidFailCount], lines 239-242. *)
Definition IncrementRapidFailCount (this : PROCESS_MANAGER) : PROCESS_MANAGER :=
  set_m_cRapidFailCount (to_LONG (m_cRapidFailCount this + 1)) this.

(** [RapidFailsPerMinuteExceeded], lines 245-257.  The subtraction is on
    uint64_t; the comparison of the count with the limit is on long. *)
Definition RapidFailsPerMinuteExceeded (dwRapidFailsPerMinute : Z)
    (env : Environment) (this : PROCESS_MANAGER) : bool * PROCESS_MANAGER :=
  let currentTickCount := GetTickCount64 env in
  let this :=
    if ONE_MINUTE_IN_MILLISECONDS <=? to_uint64 (currentTickCount - m_rapidFailTickStart this)
    then set_m_rapidFailTickStart currentTickCount (set_m_cRapidFailCount 0 this)
    else this in
  (dwRapidFailsPerMinute <? m_cRapidFailCount this, this).

(** [for (DWORD i = first; i < first + n; ++i) body(i)]. *)
Fixpoint for_DWORD (n : nat) (i : nat)
    (body : nat -> PROCESS_MANAGER -> option PROCESS_MANAGER)
    (this : PROCESS_MANAGER) : option PROCESS_MANAGER :=
  match n with
  | O => Some this
  | S n' => this' ← body i this; for_DWORD n' (S i) body this'
  end.

(** [SendShutdownSignal], lines 199-215. *)
Definition SendShutdownSignal_body (i : nat) (this : PROCESS_MANAGER)
  : option PROCESS_MANAGER :=
  match m_ppServerProcessList this with
  | None => Some this
  | Some list =>
      slot ← list !! i;
      match slot with
      | None => Some this
      | Some p =>
          let this := call [CallSendSignal p] this in
          let this := call [CallDereferenceServerProcess p] this in
          Some (set_m_ppServerProcessList (Some (<[i := None]> list)) this)
      end
  end.

Definition SendShutdownSignal (this : PROCESS_MANAGER) : option PROCESS_MANAGER :=
  for_DWORD (Z.to_nat (m_dwProcessesPerApplication this)) 0
    SendShutdownSignal_body this.

(** [ShutdownProcessNoLock], lines 259-273. *)
Definition ShutdownProcessNoLock_body (pServerProcess : SERVER_PROCESS)
    (i : nat) (this : PROCESS_MANAGER) : option PROCESS_MANAGER :=
  match m_ppServerProcessList this with
  | None => Some this
  | Some list =>
      slot ← list !! i;
      match slot with
      | None => Some this
      | Some p =>
          if GetPort p =? GetPort pServerProcess then
            let this := call [CallStopProcess p] this in
            let this := call [CallDereferenceServerProcess p] this in
            Some (set_m_ppServerProcessList (Some (<[i := None]> list)) this)
          else Some this
      end
  end.

Definition ShutdownProcessNoLock (pServerProcess : SERVER_PROCESS)
    (this : PROCESS_MANAGER) : option PROCESS_MANAGER :=
  for_DWORD (Z.to_nat (m_dwProcessesPerApplication this)) 0
    (ShutdownProcessNoLock_body pServerProcess) this.

(** [ShutdownAllProcessesNoLock], lines 275-288. *)
Definition ShutdownAllProcessesNoLock_body (i : nat) (this : PROCESS_MANAGER)
  : option PROCESS_MANAGER :=
  match m_ppServerProcessList this with
  | None => Some this
  | Some list =>
      slot ← list !! i;
      match slot with
      | None => Some this
      | Some p =>
          let this := call [CallSendSignal p] this in
          let this := call [CallDereferenceServerProcess p] this in
          Some (set_m_ppServerProcessList (Some (<[i := None]> list)) this)
      end
  end.

Definition ShutdownAllProcessesNoLock (this : PROCESS_MANAGER) : option PROCESS_MANAGER :=
  for_DWORD (Z.to_nat (m_dwProcessesPerApplication this)) 0
    ShutdownAllProcessesNoLock_body this.

(** [ShutdownProcess], lines 217-222. *)
Definition ShutdownProcess (pServerProcess : SERVER_PROCESS)
    (this : PROCESS_MANAGER) : option PROCESS_MANAGER :=
  ShutdownProcessNoLock pServerProcess this.

(** [ShutdownAllProcesses], lines 224-229. *)
Definition ShutdownAllProcesses (this : PROCESS_MANAGER) : option PROCESS_MANAGER :=
  ShutdownAllProcessesNoLock this.

(** [Shutdown], lines 231-237: [isStopping.exchange(true)] stores [true] and
    yields the previous value. *)
Definition Shutdown (this : PROCESS_MANAGER) : option PROCESS_MANAGER :=
  let previous := isStopping this in
  let this := set_isStopping true this in
  if negb previous then ShutdownAllProcesses this else Some this.

(** [m_ppServerProcessList[index]] with an [int] index: reading through a
    null array pointer or outside the array is undefined. *)
Definition slot_at (this : PROCESS_MANAGER) (index : Z) : option Slot :=
  list ← m_ppServerProcessList this;
  if index <? 0 then None else list !! Z.to_nat index.

(** [m_ppServerProcessList[index] = slot]. *)
Definition store_slot (index : Z) (slot : Slot) (this : PROCESS_MANAGER)
  : option PROCESS_MANAGER :=
  list ← m_ppServerProcessList this;
  if (index <? 0) || (Z.of_nat (length list) <=? index) then None
  else Some (set_m_ppServerProcessList (Some (<[Z.to_nat index := slot]> list)) this).

(** [slot != nullptr && slot->IsReady()]. *)
Definition occupied_and_ready (slot : Slot) : bool :=
  match slot with
  | Some p => IsReady p
  | None => false
  end.

(** Lines 90-106 of [GetProcess]: the lazy allocation of the slot table. *)
Definition AllocateServerProcessList (pConfig : REQUESTHANDLER_CONFIG)
    (this : PROCESS_MANAGER) : PROCESS_MANAGER :=
  if negb (serverProcessListReady this) then
    let this :=
      if negb (serverProcessListReady this) then
        let this :=
          set_m_dwProcessesPerApplication
            (to_DWORD (QueryProcessesPerApplication pConfig)) this in
        let this := call [CallNewArray (m_dwProcessesPerApplication this)] this in
        set_m_ppServerProcessList
          (Some (replicate (Z.to_nat (m_dwProcessesPerApplication this)) None)) this
      else this in
    set_serverProcessListReady true this
  else this.

(** Line 114 of [GetProcess]:
    [m_dwRouteToProcessIndex.fetch_add(1) % m_dwProcessesPerApplication],
    stored into [int processIndex].  [fetch_add] yields the value before the
    increment; the remainder of an [int] by a DWORD is taken after converting
    the [int] to DWORD. *)
Definition RouteToProcessIndex (this : PROCESS_MANAGER) : option Z :=
  remainder ← urem (to_DWORD (m_dwRouteToProcessIndex this))
                   (m_dwProcessesPerApplication this);
  Some (to_int remainder).

Definition fetch_add_m_dwRouteToProcessIndex (this : PROCESS_MANAGER) : PROCESS_MANAGER :=
  set_m_dwRouteToProcessIndex (to_int (m_dwRouteToProcessIndex this + 1)) this.

(** What a call of [GetProcess] returns: the HRESULT and the pointer written
    to [*ppServerProcess] ([None] when nothing, or a null pointer, is
    written), with the manager after the call. *)
Definition GetProcess_result : Type := HRESULT * option SERVER_PROCESS * PROCESS_MANAGER.

(** Lines 149-196 of [GetProcess]: the rapid-fail gate, the creation of the
    worker and its installation in slot [dwProcessIndex]. *)
Definition GetProcess_create (pConfig : REQUESTHANDLER_CONFIG) (env : Environment)
    (dwProcessIndex : Z) (this : PROCESS_MANAGER) : option GetProcess_result :=
  (* 149-160 *)
  let '(exceeded, this) :=
    RapidFailsPerMinuteExceeded (to_LONG (QueryRapidFailsPerMinute pConfig)) env this in
  if exceeded then
    let this := call [CallEventLogInfo (QueryRapidFailsPerMinute pConfig)] this in
    Some (HRESULT_FROM_WIN32 ERROR_SERVER_DISABLED, None, this)
  else
  (* 162-185 *)
  slot ← slot_at this dwProcessIndex;
  created ←
    match slot with
    | None =>
        let this := call [CallMakeServerProcess; CallInitialize] this in
        if FAILED (Initialize_result env) then
          Some (inl (Initialize_result env, None, this))
        else
          let this := call [CallStartProcess] this in
          if FAILED (StartProcess_result env) then
            Some (inl (StartProcess_result env, None, this))
          else Some (inr (Some (started env), this))
    | Some _ => Some (inr (None, this))
    end;
  match created with
  | inl returned => Some returned
  | inr (pSelectedServerProcess, this) =>
      (* 187-190 *)
      p ← pSelectedServerProcess;
      if negb (IsReady p) then
        Some (HRESULT_FROM_WIN32 ERROR_CREATE_FAILED, None, this)
      else
      (* 192 *)
      this ← store_slot dwProcessIndex (Some p) this;
      (* 195-196 *)
      slot ← slot_at this dwProcessIndex;
      Some (S_OK, slot, this)
  end.

(** [PROCESS_MANAGER::GetProcess], lines 76-197.  [RETURN_IF_FAILED(hr)]
    returns [hr] when [FAILED(hr)].  From line 132 on the source spells the
    slot index [dwProcessIndex]; no other index is declared, and it is the
    index [processIndex] computed on line 114. *)
Definition GetProcess (pConfig : REQUESTHANDLER_CONFIG) (env : Environment)
    (this : PROCESS_MANAGER) : option GetProcess_result :=
  (* 85-88 *)
  if isStopping this && FAILED E_APPLICATION_EXITING then
    Some (E_APPLICATION_EXITING, None, this)
  else
  (* 90-106 *)
  let this := AllocateServerProcessList pConfig this in
  (* 114 *)
  processIndex ← RouteToProcessIndex this;
  let this := fetch_add_m_dwRouteToProcessIndex this in
  let dwProcessIndex := processIndex in
  (* 116-121 *)
  slot ← slot_at this processIndex;
  if occupied_and_ready slot then Some (S_OK, slot, this) else
  (* 125-126 *)
  slot ← slot_at this processIndex;
  if negb (occupied_and_ready slot) then
    (* 130-147 *)
    slot ← slot_at this processIndex;
    rechecked ←
      match slot with
      | Some _ =>
          slot ← slot_at this dwProcessIndex;
          p ← slot;
          if negb (IsReady p) then
            this ← ShutdownProcessNoLock p this; Some (inr this)
          else
            Some (inl (S_OK, Some p, this))
      | None => Some (inr this)
      end;
    match rechecked with
    | inl returned => Some returned
    | inr this =>
        (* 149-196 *)
        GetProcess_create pConfig env dwProcessIndex this
    end
  else
    (* 195-196 *)
    slot ← slot_at this dwProcessIndex;
    Some (S_OK, slot, this).

(** ** Runs of a manager *)

(** A worker is a process of its own: between two calls of the manager the
    worker held by slot [i] may change its readiness (it comes up, or dies). *)
Definition worker_changes (i : nat) (ready : bool) (this : PROCESS_MANAGER)
  : PROCESS_MANAGER :=
  match m_ppServerProcessList this with
  | Some list =>
      match list !! i with
      | Some (Some p) =>
          set_m_ppServerProcessList
            (Some (<[i := Some (mkSERVER_PROCESS (GetPort p) ready)]> list)) this
      | _ => this
      end
  | None => this
  end.

(** The public member functions, and the one move of the outside world.
    [DereferenceProcessManager], which may end the life of the manager, is
    not among the operations of a run. *)
Inductive Operation :=
| OpInitialize (env : Environment)
| OpGetProcess (pConfig : REQUESTHANDLER_CONFIG) (env : Environment)
| OpSendShutdownSignal
| OpShutdownProcess (pServerProcess : SERVER_PROCESS)
| OpShutdownAllProcesses
| OpShutdown
| OpIncrementRapidFailCount
| OpReferenceProcessManager
| OpWorkerChanges (i : nat) (ready : bool).

Definition step (op : Operation) (this : PROCESS_MANAGER) : option PROCESS_MANAGER :=
  match op with
  | OpInitialize env => Some (Initialize env this).2
  | OpGetProcess pConfig env => result ← GetProcess pConfig env this; Some result.2
  | OpSendShutdownSignal => SendShutdownSignal this
  | OpShutdownProcess p => ShutdownProcess p this
  | OpShutdownAllProcesses => ShutdownAllProcesses this
  | OpShutdown => Shutdown this
  | OpIncrementRapidFailCount => Some (IncrementRapidFailCount this)
  | OpReferenceProcessManager => Some (ReferenceProcessManager this)
  | OpWorkerChanges i ready => Some (worker_changes i ready this)
  end.

Fixpoint run (ops : list Operation) (this : PROCESS_MANAGER) : option PROCESS_MANAGER :=
  match ops with
  | [] => Some this
  | op :: ops' => this' ← step op this; run ops' this'
  end.

(** The states a manager reaches from its construction. *)
Definition reachable (this : PROCESS_MANAGER) : Prop :=
  exists garbage wsaStartupDone ops,
    run ops (PROCESS_MANAGER_ctor garbage wsaStartupDone) = Some this.

(** [n] calls of [GetProcess] one after the other, call number [k] (from 0)
    with the configuration and the environment [inputs k]. *)
Definition GetProcess_seq (inputs : N -> REQUESTHANDLER_CONFIG * Environment)
    (this : PROCESS_MANAGER) (n : N) : option PROCESS_MANAGER :=
  N.peano_rect (fun _ => option PROCESS_MANAGER) (Some this)
    (fun k before =>
       this' ← before;
       result ← GetProcess (inputs k).1 (inputs k).2 this';
       Some result.2)
    n.

(** The slot that call number [n] of such a sequence visits. *)
Definition visited (inputs : N -> REQUESTHANDLER_CONFIG * Environment)
    (this : PROCESS_MANAGER) (n : N) : option Z :=
  this' ← GetProcess_seq inputs this n;
  RouteToProcessIndex (AllocateServerProcessList (inputs n).1 this').

(** ** Vocabulary of the statements *)

(** The array, when allocated, has [m_dwProcessesPerApplication] slots, a
    DWORD; it is allocated when [serverProcessListReady] is set. *)
Definition table_ok (this : PROCESS_MANAGER) : Prop :=
  is_DWORD (m_dwProcessesPerApplication this) /\
  match m_ppServerProcessList this with
  | Some list => Z.of_nat (length list) = m_dwProcessesPerApplication this
  | None => serverProcessListReady this = false
  end.

(** The slots of the table; none before the allocation. *)
Definition slots (this : PROCESS_MANAGER) : list Slot :=
  default [] (m_ppServerProcessList this).

Definition all_empty (this : PROCESS_MANAGER) : Prop :=
  Forall (fun slot : Slot => slot = None) (slots this).

(** What a walk that applies [operation] to the workers [selected] accepts
    leaves in a slot, and the calls it makes for a slot. *)
Definition cleared (selected : SERVER_PROCESS -> bool) (slot : Slot) : Slot :=
  match slot with
  | Some p => if selected p then None else Some p
  | None => None
  end.

Definition calls_for (selected : SERVER_PROCESS -> bool)
    (operation : SERVER_PROCESS -> Call) (slot : Slot) : list Call :=
  match slot with
  | Some p => if selected p then [operation p; CallDereferenceServerProcess p] else []
  | None => []
  end.

(** The state after such a walk over a table [list]. *)
Definition walked (selected : SERVER_PROCESS -> bool)
    (operation : SERVER_PROCESS -> Call) (list : list Slot)
    (this : PROCESS_MANAGER) : PROCESS_MANAGER :=
  set_m_ppServerProcessList (Some (cleared selected <$> list))
    (call (list ≫= calls_for selected operation) this).

(** The generic loop body of which the three walks are instances. *)
Definition walk_body (selected : SERVER_PROCESS -> bool)
    (operation : SERVER_PROCESS -> Call) (i : nat) (this : PROCESS_MANAGER)
  : option PROCESS_MANAGER :=
  match m_ppServerProcessList this with
  | None => Some this
  | Some list =>
      slot ← list !! i;
      match slot with
      | None => Some this
      | Some p =>
          if selected p then
            let this := call [operation p] this in
            let this := call [CallDereferenceServerProcess p] this in
            Some (set_m_ppServerProcessList (Some (<[i := None]> list)) this)
          else Some this
      end
  end.

Definition same_port (pServerProcess p : SERVER_PROCESS) : bool :=
  GetPort p =? GetPort pServerProcess.

Definition any_worker (p : SERVER_PROCESS) : bool := true.

Definition is_CallNewArray (c : Call) : bool :=
  match c with CallNewArray _ => true | _ => false end.

Definition is_CallCreateFileW (c : Call) : bool :=
  match c with CallCreateFileW => true | _ => false end.

Definition is_CallMakeServerProcess (c : Call) : bool :=
  match c with CallMakeServerProcess => true | _ => false end.

Definition is_CallStopProcess (c : Call) : bool :=
  match c with CallStopProcess _ => true | _ => false end.

(** How many of the calls [cs] satisfy [which]. *)
Definition count (which : Call -> bool) (cs : list Call) : nat :=
  length (filter (fun c => which c = true) cs).

Arguments count : simpl never.

(** Invariants of the reachable states. *)

(** Once [isStopping] is set no slot holds a worker. *)
Definition stopped_empty (this : PROCESS_MANAGER) : Prop :=
  isStopping this = true -> all_empty this.

(** [new SERVER_PROCESS*[...]] has run once if [serverProcessListReady] is
    set, and not at all before. *)
Definition allocated_once (this : PROCESS_MANAGER) : Prop :=
  count is_CallNewArray (calls this)
  = if serverProcessListReady this then 1%nat else 0%nat.

(** [CreateFileW] has run once if [m_hNULHandle] is no longer null, and not
    at all before. *)
Definition sink_opened_once (this : PROCESS_MANAGER) : Prop :=
  count is_CallCreateFileW (calls this)
  = if is_nullptr (m_hNULHandle this) then 0%nat else 1%nat.

(** Lines 149-196 of [GetProcess] when slot [dwProcessIndex] is empty, with
    the branches that cannot be taken then removed. *)
Definition create_in_empty_slot (pConfig : REQUESTHANDLER_CONFIG) (env : Environment)
    (dwProcessIndex : Z) (this : PROCESS_MANAGER) : GetProcess_result :=
  let '(exceeded, this) :=
    RapidFailsPerMinuteExceeded (to_LONG (QueryRapidFailsPerMinute pConfig)) env this in
  if exceeded then
    (HRESULT_FROM_WIN32 ERROR_SERVER_DISABLED, None,
     call [CallEventLogInfo (QueryRapidFailsPerMinute pConfig)] this)
  else
  let this := call [CallMakeServerProcess; CallInitialize] this in
  if FAILED (Initialize_result env) then (Initialize_result env, None, this) else
  let this := call [CallStartProcess] this in
  if FAILED (StartProcess_result env) then (StartProcess_result env, None, this) else
  if negb (IsReady (started env)) then
    (HRESULT_FROM_WIN32 ERROR_CREATE_FAILED, None, this)
  else
    (S_OK, Some (started env),
     set_m_ppServerProcessList
       (Some (<[Z.to_nat dwProcessIndex := Some (started env)]> (slots this))) this).

(** The manager when [GetProcess] has stopped the worker [p] that is not
    ready: every slot that holds a worker with the port of [p] is stopped,
    released and cleared. *)
Definition stop_not_ready (p : SERVER_PROCESS) (this : PROCESS_MANAGER) : PROCESS_MANAGER :=
  walked (same_port p) CallStopProcess (slots this) this.

(** [GetProcess] on a manager that is not stopping and whose table is
    [table_ok], with the branches that cannot be taken removed. *)
Definition GetProcess_running (pConfig : REQUESTHANDLER_CONFIG) (env : Environment)
    (this : PROCESS_MANAGER) : option GetProcess_result :=
  let this := AllocateServerProcessList pConfig this in
  processIndex ← RouteToProcessIndex this;
  let this := fetch_add_m_dwRouteToProcessIndex this in
  slot ← slot_at this processIndex;
  if occupied_and_ready slot then Some (S_OK, slot, this) else
  match slot with
  | Some p => Some (create_in_empty_slot pConfig env processIndex (stop_not_ready p this))
  | None => Some (create_in_empty_slot pConfig env processIndex this)
  end.

(** [this'] is [this] after further calls [cs] on the collaborators, with at
    most the contents of the slots, the rapid-fail window and the cursor
    changed: the table keeps its place and its length. *)
Definition evolves (cs : list Call) (this this' : PROCESS_MANAGER) : Prop :=
  m_dwProcessesPerApplication this' = m_dwProcessesPerApplication this /\
  serverProcessListReady this' = serverProcessListReady this /\
  isStopping this' = isStopping this /\
  m_hNULHandle this' = m_hNULHandle this /\
  isWSAStartupDone this' = isWSAStartupDone this /\
  calls this' = calls this ++ cs /\
  length <$> m_ppServerProcessList this' = length <$> m_ppServerProcessList this.

(** Calls that neither allocate the table nor open the discard sink. *)
Definition no_setup (cs : list Call) : Prop :=
  count is_CallNewArray cs = 0%nat /\ count is_CallCreateFileW cs = 0%nat.

(** The invariant of the reachable states. *)
Definition invariant (this : PROCESS_MANAGER) : Prop :=
  table_ok this /\ stopped_empty this /\ allocated_once this /\ sink_opened_once this.

(** What an operation keeps of an allocated table. *)
Definition keeps_table (this this' : PROCESS_MANAGER) : Prop :=
  serverProcessListReady this' = true /\
  m_dwProcessesPerApplication this' = m_dwProcessesPerApplication this /\
  length (slots this') = length (slots this) /\
  count is_CallNewArray (calls this') = count is_CallNewArray (calls this).

(** ** Example managers *)

Module Examples.

Definition worker (port : Z) (ready : bool) : SERVER_PROCESS :=
  mkSERVER_PROCESS port ready.

(** Three processes per application, ten rapid fails per minute. *)
Definition config : REQUESTHANDLER_CONFIG := mkREQUESTHANDLER_CONFIG 3 10.

(** At tick [now] everything succeeds and the new worker listens on
    [port]. *)
Definition all_well (now port : Z) : Environment :=
  mkEnvironment now 0 (Opened 1) S_OK S_OK (worker port true).

Definition fresh : PROCESS_MANAGER := PROCESS_MANAGER_ctor 0 false.

(** A table of three ready workers and a cursor at 0. *)
Definition three_ready : PROCESS_MANAGER :=
  {| m_cRapidFailCount := 0;
     m_rapidFailTickStart := 0;
     m_dwProcessesPerApplication := 3;
     m_dwRouteToProcessIndex := 0;
     m_ppServerProcessList :=
       Some [Some (worker 5000 true); Some (worker 5001 true); Some (worker 5002 true)];
     m_hNULHandle := OpenHandle 1;
     m_cRefs := 1;
     isWSAStartupDone := true;
     serverProcessListReady := true;
     isStopping := false;
     calls := [] |}.

Definition same_inputs (n : N) : REQUESTHANDLER_CONFIG * Environment :=
  (config, all_well 5 6000).

(** [Initialize()], then a first [GetProcess]. *)
Definition history_one_ready : list Operation :=
  [OpInitialize (all_well 0 5000); OpGetProcess config (all_well 5 5000)].

Definition one_ready : PROCESS_MANAGER :=
  {| m_cRapidFailCount := 0;
     m_rapidFailTickStart := 0;
     m_dwProcessesPerApplication := 3;
     m_dwRouteToProcessIndex := 1;
     m_ppServerProcessList := Some [Some (worker 5000 true); None; None];
     m_hNULHandle := OpenHandle 1;
     m_cRefs := 1;
     isWSAStartupDone := true;
     serverProcessListReady := true;
     isStopping := false;
     calls :=
       [CallWSAStartup; CallCreateFileW; CallNewArray 3;
        CallMakeServerProcess; CallInitialize; CallStartProcess] |}.

(** [one_ready] after [Shutdown()]. *)
Definition one_stopped : PROCESS_MANAGER :=
  {| m_cRapidFailCount := 0;
     m_rapidFailTickStart := 0;
     m_dwProcessesPerApplication := 3;
     m_dwRouteToProcessIndex := 1;
     m_ppServerProcessList := Some [None; None; None];
     m_hNULHandle := OpenHandle 1;
     m_cRefs := 1;
     isWSAStartupDone := true;
     serverProcessListReady := true;
     isStopping := true;
     calls :=
       [CallWSAStartup; CallCreateFileW; CallNewArray 3;
        CallMakeServerProcess; CallInitialize; CallStartProcess;
        CallSendSignal (worker 5000 true);
        CallDereferenceServerProcess (worker 5000 true)] |}.

(** [Initialize()], three calls of [GetProcess] that fill the table, and
    then the worker of slot 0 dies: the cursor, at 3, routes the next call
    to slot 0. *)
Definition history_first_dead : list Operation :=
  [OpInitialize (all_well 0 5000);
   OpGetProcess config (all_well 5 5000);
   OpGetProcess config (all_well 6 5001);
   OpGetProcess config (all_well 7 5002);
   OpWorkerChanges 0 false].

Definition first_dead_with (failures : Z) : PROCESS_MANAGER :=
  {| m_cRapidFailCount := failures;
     m_rapidFailTickStart := 0;
     m_dwProcessesPerApplication := 3;
     m_dwRouteToProcessIndex := 3;
     m_ppServerProcessList :=
       Some [Some (worker 5000 false); Some (worker 5001 true); Some (worker 5002 true)];
     m_hNULHandle := OpenHandle 1;
     m_cRefs := 1;
     isWSAStartupDone := true;
     serverProcessListReady := true;
     isStopping := false;
     calls :=
       [CallWSAStartup; CallCreateFileW; CallNewArray 3;
        CallMakeServerProcess; CallInitialize; CallStartProcess;
        CallMakeServerProcess; CallInitialize; CallStartProcess;
        CallMakeServerProcess; CallInitialize; CallStartProcess] |}.

Definition first_dead : PROCESS_MANAGER := first_dead_with 0.

(** [first_dead] after eleven recorded failures, one more than the ten
    that [config] allows per minute. *)
Definition first_dead_failing : PROCESS_MANAGER := first_dead_with 11.

Definition history_first_dead_failing : list Operation :=
  history_first_dead ++ replicate 11 OpIncrementRapidFailCount.

(** [first_dead_failing] after the [GetProcess] that the rapid-fail gate
    refuses. *)
Definition first_dead_refused : PROCESS_MANAGER :=
  {| m_cRapidFailCount := 11;
     m_rapidFailTickStart := 0;
     m_dwProcessesPerApplication := 3;
     m_dwRouteToProcessIndex := 4;
     m_ppServerProcessList :=
       Some [None; Some (worker 5001 true); Some (worker 5002 true)];
     m_hNULHandle := OpenHandle 1;
     m_cRefs := 1;
     isWSAStartupDone := true;
     serverProcessListReady := true;
     isStopping := false;
     calls :=
       [CallWSAStartup; CallCreateFileW; CallNewArray 3;
        CallMakeServerProcess; CallInitialize; CallStartProcess;
        CallMakeServerProcess; CallInitialize; CallStartProcess;
        CallMakeServerProcess; CallInitialize; CallStartProcess;
        CallStopProcess (worker 5000 false);
        CallDereferenceServerProcess (worker 5000 false);
        CallEventLogInfo 10] |}.

(** [three_ready] after either walk over all slots. *)
Definition three_signalled : PROCESS_MANAGER :=
  {| m_cRapidFailCount := 0;
     m_rapidFailTickStart := 0;
     m_dwProcessesPerApplication := 3;
     m_dwRouteToProcessIndex := 0;
     m_ppServerProcessList := Some [None; None; None];
     m_hNULHandle := OpenHandle 1;
     m_cRefs := 1;
     isWSAStartupDone := true;
     serverProcessListReady := true;
     isStopping := false;
     calls :=
       [CallSendSignal (worker 5000 true); CallDereferenceServerProcess (worker 5000 true);
        CallSendSignal (worker 5001 true); CallDereferenceServerProcess (worker 5001 true);
        CallSendSignal (worker 5002 true); CallDereferenceServerProcess (worker 5002 true)] |}.

(** Winsock fails to start, with WSASYSNOTREADY. *)
Definition no_winsock : Environment :=
  mkEnvironment 0 10091 (Opened 1) S_OK S_OK (worker 5000 true).

(** The discard sink cannot be opened, with ERROR_ACCESS_DENIED. *)
Definition no_sink : Environment :=
  mkEnvironment 0 0 (OpenFailed 5) S_OK S_OK (worker 5000 true).

End Examples.

Definition is_CallEventLogInfo (c : Call) : bool :=
  match c with CallEventLogInfo _ => true | _ => false end.

(** The manager at the rapid-fail gate of [GetProcess], when the slot that
    the call visits holds [slot]: the cursor has moved and the worker of the
    slot, if any (it is not ready), has been stopped. *)
Definition at_gate (this : PROCESS_MANAGER) (slot : Slot) : PROCESS_MANAGER :=
  match slot with
  | Some p => stop_not_ready p (fetch_add_m_dwRouteToProcessIndex this)
  | None => fetch_add_m_dwRouteToProcessIndex this
  end.

(** ** Further member functions and vocabulary *)

(** [QueryNULHandle], processmanager.h lines 22-25. *)
Definition QueryNULHandle (this : PROCESS_MANAGER) : HANDLE := m_hNULHandle this.

(** What an owner of the manager does with its reference:
    [ReferenceProcessManager] or [DereferenceProcessManager]. *)
Inductive Ownership :=
| Acquire
| Release.

(** A manager in the hands of its owners: alive, or deleted by a
    [DereferenceProcessManager] with the operations [pending] still to be
    made on the deleted object. *)
Inductive Lifetime :=
| Alive (this : PROCESS_MANAGER)
| Deleted (pending : list Ownership).

Fixpoint owners (ops : list Ownership) (this : PROCESS_MANAGER) : Lifetime :=
  match ops with
  | [] => Alive this
  | Acquire :: ops' => owners ops' (ReferenceProcessManager this)
  | Release :: ops' =>
      let result := DereferenceProcessManager this in
      if result.2 then Deleted ops' else owners ops' result.1
  end.

(** The number of references held after [ops], from [held] references. *)
Fixpoint references (ops : list Ownership) (held : Z) : Z :=
  match ops with
  | [] => held
  | Acquire :: ops' => references ops' (held + 1)
  | Release :: ops' => references ops' (held - 1)
  end.

(** Every operation of [ops] is made while a reference is held. *)
Fixpoint all_held (ops : list Ownership) (held : Z) : bool :=
  match ops with
  | [] => true
  | Acquire :: ops' => (0 <? held) && all_held ops' (held + 1)
  | Release :: ops' => (0 <? held) && all_held ops' (held - 1)
  end.

Definition is_CallWSAStartup (c : Call) : bool :=
  match c with CallWSAStartup => true | _ => false end.

Definition is_CallSendSignal (c : Call) : bool :=
  match c with CallSendSignal _ => true | _ => false end.

Definition is_CallDereferenceServerProcess (c : Call) : bool :=
  match c with CallDereferenceServerProcess _ => true | _ => false end.

(** The calls by which the manager parts with a worker. *)
Definition parts_with_worker (c : Call) : bool :=
  is_CallSendSignal c || is_CallStopProcess c || is_CallDereferenceServerProcess c.

(** A trace in which every [SendSignal] and every [StopProcess] on a worker
    is followed at once by the [DereferenceServerProcess] of that worker,
    and no [DereferenceServerProcess] occurs otherwise. *)
Inductive released_in_pairs : list Call -> Prop :=
| released_nil : released_in_pairs []
| released_stopped p cs :
    released_in_pairs cs ->
    released_in_pairs (CallStopProcess p :: CallDereferenceServerProcess p :: cs)
| released_signalled p cs :
    released_in_pairs cs ->
    released_in_pairs (CallSendSignal p :: CallDereferenceServerProcess p :: cs)
| released_other c cs :
    parts_with_worker c = false ->
    released_in_pairs cs ->
    released_in_pairs (c :: cs).

(** The number of slots that hold a worker. *)
Definition held_in (array : list Slot) : nat :=
  length (filter (fun slot : Slot => is_Some slot) array).

Arguments held_in : simpl never.

Definition occupied (this : PROCESS_MANAGER) : nat := held_in (slots this).

(** The workers held and the workers released are not more than the workers
    created. *)
Definition accounted (this : PROCESS_MANAGER) : Prop :=
  (occupied this + count is_CallDereferenceServerProcess (calls this)
   <= count is_CallMakeServerProcess (calls this))%nat.

(** * Properties *)

(** ** Machine integers *)

Section Integers.

Lemma unsigned_range w z : 0 <= w -> 0 <= unsigned w z < 2 ^ w.
Proof. intros Hw. unfold unsigned. apply Z.mod_pos_bound. lia. Qed.

Lemma unsigned_small w z : 0 <= z < 2 ^ w -> unsigned w z = z.
Proof. intros Hz. unfold unsigned. apply Z.mod_small, Hz. Qed.

Lemma to_DWORD_range z : is_DWORD (to_DWORD z).
Proof. apply (unsigned_range 32). lia. Qed.

Lemma to_DWORD_small z : is_DWORD z -> to_DWORD z = z.
Proof. apply (unsigned_small 32). Qed.

Lemma to_int_range z : is_int (to_int z).
Proof.
  unfold is_int, to_int, signed.
  pose proof (unsigned_range 32 z ltac:(lia)) as Hu.
  change (32 - 1) with 31. destruct (Z.ltb_spec (unsigned 32 z) (2 ^ 31)); lia.
Qed.

Lemma to_int_small z : is_int z -> to_int z = z.
Proof.
  unfold is_int, to_int, signed, unsigned. intros Hz. change (32 - 1) with 31.
  destruct (Z.ltb_spec (z mod 2 ^ 32) (2 ^ 31)) as [Hlt | Hge].
  - destruct (Z.lt_ge_cases z 0) as [Hneg | Hpos].
    + rewrite <- (Z.mod_add z 1 (2 ^ 32)) in Hlt by lia.
      rewrite Z.mod_small in Hlt; lia.
    + apply Z.mod_small. lia.
  - destruct (Z.lt_ge_cases z 0) as [Hneg | Hpos].
    + rewrite <- (Z.mod_add z 1 (2 ^ 32)) by lia.
      rewrite Z.mod_small; lia.
    + rewrite Z.mod_small in Hge; lia.
Qed.

Lemma to_LONG_small z : is_int z -> to_LONG z = z.
Proof. apply to_int_small. Qed.

(** Converting an [int] to DWORD and back is the identity. *)
Lemma to_DWORD_to_int z : to_DWORD (to_int z) = to_DWORD z.
Proof.
  unfold to_DWORD, to_int, signed, unsigned. change (32 - 1) with 31.
  destruct (Z.ltb_spec (z mod 2 ^ 32) (2 ^ 31)).
  - apply Z.mod_mod. lia.
  - rewrite <- (Z.mod_add _ 1 (2 ^ 32)) by lia.
    replace (z mod 2 ^ 32 - 2 ^ 32 + 1 * 2 ^ 32) with (z mod 2 ^ 32) by lia.
    apply Z.mod_mod. lia.
Qed.

Lemma to_int_congruence a b : to_DWORD a = to_DWORD b -> to_int a = to_int b.
Proof. unfold to_DWORD, to_int, signed. intros ->. reflexivity. Qed.

(** Incrementing a wrapped counter is incrementing modulo 2^32. *)
Lemma to_int_succ z : to_int (to_int z + 1) = to_int (z + 1).
Proof.
  assert (Heq : to_DWORD (to_int z + 1) = to_DWORD (z + 1)).
  { unfold to_DWORD, unsigned. rewrite Z.add_mod by lia.
    change ((to_int z) mod 2 ^ 32) with (to_DWORD (to_int z)).
    rewrite to_DWORD_to_int. unfold to_DWORD, unsigned.
    rewrite <- Z.add_mod by lia. reflexivity. }
  apply to_int_congruence, Heq.
Qed.

Lemma urem_range a b r : 0 < b -> urem a b = Some r -> 0 <= r < b.
Proof.
  unfold urem. intros Hb. destruct (Z.eqb_spec b 0); [lia |].
  intros [= <-]. apply Z.mod_pos_bound, Hb.
Qed.

Lemma urem_defined a b : b <> 0 -> urem a b = Some (a mod b).
Proof. unfold urem. intros Hb. destruct (Z.eqb_spec b 0); [lia | reflexivity]. Qed.

End Integers.

(** ** HRESULT *)

Section HResult.

Lemma low_word_disjoint x : Z.land (x mod 2 ^ 16) (Z.lor (Z.shiftl 7 16) 0x80000000) = 0.
Proof.
  apply Z.bits_inj'. intros n Hn. rewrite Z.land_spec, Z.bits_0.
  destruct (Z.lt_ge_cases n 16) as [Hlow | Hhigh].
  - change (Z.lor (Z.shiftl 7 16) 0x80000000) with (0x8007 * 2 ^ 16).
    rewrite (Z.mul_pow2_bits_low 0x8007 16 n) by lia. apply andb_false_r.
  - rewrite Z.mod_pow2_bits_high by lia. reflexivity.
Qed.

(** A Win32 error code other than 0 becomes a failure HRESULT. *)
Lemma FAILED_HRESULT_FROM_WIN32 x :
  to_LONG x <> 0 -> FAILED (HRESULT_FROM_WIN32 x) = true.
Proof.
  intros Hx. unfold FAILED, HRESULT_FROM_WIN32.
  destruct (Z.leb_spec (to_LONG x) 0) as [Hle | Hgt].
  - apply Z.ltb_lt. lia.
  - apply Z.ltb_lt.
    change 0xFFFF with (Z.ones 16). rewrite Z.land_ones by lia.
    rewrite <- Z.add_nocarry_lor by apply low_word_disjoint.
    pose proof (Z.mod_pos_bound x (2 ^ 16) ltac:(lia)) as Hlow.
    change (Z.lor (Z.shiftl 7 16) 0x80000000) with 0x80070000.
    unfold to_LONG, signed, unsigned. change (32 - 1) with 31.
    rewrite (Z.mod_small (x mod 2 ^ 16 + 0x80070000)) by lia.
    destruct (Z.ltb_spec (x mod 2 ^ 16 + 0x80070000) (2 ^ 31)); lia.
Qed.

Lemma FAILED_E_APPLICATION_EXITING : FAILED E_APPLICATION_EXITING = true.
Proof. reflexivity. Qed.

Lemma FAILED_ERROR_SERVER_DISABLED : FAILED (HRESULT_FROM_WIN32 ERROR_SERVER_DISABLED) = true.
Proof. reflexivity. Qed.

Lemma FAILED_ERROR_CREATE_FAILED : FAILED (HRESULT_FROM_WIN32 ERROR_CREATE_FAILED) = true.
Proof. reflexivity. Qed.

End HResult.

(** ** The slot walks *)

Section Walks.

Variable selected : SERVER_PROCESS -> bool.
Variable operation : SERVER_PROCESS -> Call.

Lemma set_list_call_twice (l l' : list Slot) cs cs' this :
  set_m_ppServerProcessList (Some l') (call cs' (set_m_ppServerProcessList (Some l) (call cs this)))
  = set_m_ppServerProcessList (Some l') (call (cs ++ cs') this).
Proof.
  unfold set_m_ppServerProcessList, call; simpl. rewrite app_assoc. reflexivity.
Qed.

Lemma set_list_call_nil this l :
  m_ppServerProcessList this = Some l ->
  set_m_ppServerProcessList (Some l) (call [] this) = this.
Proof.
  destruct this; simpl. intros ->.
  unfold set_m_ppServerProcessList, call; simpl. rewrite app_nil_r. reflexivity.
Qed.

Lemma walk_body_unallocated i this :
  m_ppServerProcessList this = None -> walk_body selected operation i this = Some this.
Proof. intros Hnull. unfold walk_body. rewrite Hnull. reflexivity. Qed.

Lemma walk_body_allocated i this list slot :
  m_ppServerProcessList this = Some list -> list !! i = Some slot ->
  walk_body selected operation i this
  = Some (match slot with
          | Some p =>
              if selected p then
                set_m_ppServerProcessList (Some (<[i := None]> list))
                  (call [CallDereferenceServerProcess p] (call [operation p] this))
              else this
          | None => this
          end).
Proof.
  intros Hlist Hslot. unfold walk_body. rewrite Hlist, Hslot. simpl.
  destruct slot as [p |]; [destruct (selected p) |]; reflexivity.
Qed.

(** Before the allocation a walk does nothing. *)
Lemma walk_unallocated n i this :
  m_ppServerProcessList this = None ->
  for_DWORD n i (walk_body selected operation) this = Some this.
Proof.
  intros Hnull. revert i. induction n as [| n IH]; intros i; cbn [for_DWORD]; [reflexivity |].
  rewrite walk_body_unallocated by exact Hnull. cbn [mbind option_bind]. apply IH.
Qed.

Lemma length_app_one (pre : list Slot) (slot : Slot) :
  length (pre ++ [slot]) = S (length pre).
Proof. rewrite length_app. simpl. lia. Qed.

(** The walk, from slot [length pre] to the end of the table. *)
Lemma walk_from suf : forall pre this,
  m_ppServerProcessList this = Some (pre ++ suf) ->
  for_DWORD (length suf) (length pre) (walk_body selected operation) this
  = Some (set_m_ppServerProcessList (Some (pre ++ (cleared selected <$> suf)))
            (call (suf ≫= calls_for selected operation) this)).
Proof.
  induction suf as [| slot suf IH]; intros pre this Hlist.
  - simpl. rewrite app_nil_r in *. rewrite set_list_call_nil; auto.
  - cbn [length for_DWORD].
    rewrite (walk_body_allocated _ this (pre ++ slot :: suf) slot) by
      (auto using list_lookup_middle).
    cbn [mbind option_bind].
    destruct slot as [p |]; [destruct (selected p) eqn:Hsel |].
    + rewrite <- (length_app_one pre None), IH.
      * cbn [fmap list_fmap cleared mbind list_bind calls_for]. rewrite Hsel.
        rewrite <- app_assoc. cbn [app].
        unfold set_m_ppServerProcessList, call; cbn. rewrite <- !app_assoc. reflexivity.
      * cbn. rewrite insert_app_r_alt by done.
        rewrite Nat.sub_diag. cbn. rewrite <- app_assoc. reflexivity.
    + rewrite <- (length_app_one pre (Some p)), IH.
      * cbn [fmap list_fmap cleared mbind list_bind calls_for]. rewrite Hsel.
        rewrite <- app_assoc. reflexivity.
      * rewrite <- app_assoc. exact Hlist.
    + rewrite <- (length_app_one pre None), IH.
      * cbn [fmap list_fmap cleared mbind list_bind calls_for].
        rewrite <- app_assoc. reflexivity.
      * rewrite <- app_assoc. exact Hlist.
Qed.

(** The whole walk over a table of [m_dwProcessesPerApplication] slots. *)
Lemma walk_all this list :
  m_ppServerProcessList this = Some list ->
  Z.of_nat (length list) = m_dwProcessesPerApplication this ->
  for_DWORD (Z.to_nat (m_dwProcessesPerApplication this)) 0
    (walk_body selected operation) this
  = Some (walked selected operation list this).
Proof.
  intros Hlist Hlen. rewrite <- Hlen, Nat2Z.id.
  apply (walk_from list [] this Hlist).
Qed.

Lemma walk_table_ok this :
  table_ok this ->
  for_DWORD (Z.to_nat (m_dwProcessesPerApplication this)) 0
    (walk_body selected operation) this
  = Some (match m_ppServerProcessList this with
          | Some list => walked selected operation list this
          | None => this
          end).
Proof.
  intros [_ Hok]. destruct (m_ppServerProcessList this) as [list |] eqn:Hlist.
  - apply walk_all; assumption.
  - apply walk_unallocated, Hlist.
Qed.

End Walks.

Lemma SendShutdownSignal_walk this :
  SendShutdownSignal this
  = for_DWORD (Z.to_nat (m_dwProcessesPerApplication this)) 0
      (walk_body any_worker CallSendSignal) this.
Proof. reflexivity. Qed.

Lemma ShutdownAllProcessesNoLock_walk this :
  ShutdownAllProcessesNoLock this
  = for_DWORD (Z.to_nat (m_dwProcessesPerApplication this)) 0
      (walk_body any_worker CallSendSignal) this.
Proof. reflexivity. Qed.

Lemma ShutdownProcessNoLock_walk p this :
  ShutdownProcessNoLock p this
  = for_DWORD (Z.to_nat (m_dwProcessesPerApplication this)) 0
      (walk_body (same_port p) CallStopProcess) this.
Proof. reflexivity. Qed.

(** ** The parts of [GetProcess] *)

Section GetProcessParts.

Lemma slot_at_inv this index slot :
  slot_at this index = Some slot ->
  exists list, m_ppServerProcessList this = Some list /\ 0 <= index /\
               list !! Z.to_nat index = Some slot.
Proof.
  unfold slot_at. destruct (m_ppServerProcessList this) as [list |]; [| discriminate].
  cbn. destruct (Z.ltb_spec index 0); [discriminate |]. intros Hslot.
  exists list. auto.
Qed.

Lemma slot_at_lookup this list index :
  m_ppServerProcessList this = Some list -> 0 <= index ->
  slot_at this index = list !! Z.to_nat index.
Proof.
  intros Hlist Hindex. unfold slot_at. rewrite Hlist. cbn.
  destruct (Z.ltb_spec index 0); [lia | reflexivity].
Qed.

Lemma store_slot_defined this list index slot :
  m_ppServerProcessList this = Some list -> 0 <= index ->
  (Z.to_nat index < length list)%nat ->
  store_slot index slot this
  = Some (set_m_ppServerProcessList (Some (<[Z.to_nat index := slot]> list)) this).
Proof.
  intros Hlist Hindex Hlt. unfold store_slot. rewrite Hlist. cbn.
  destruct (Z.ltb_spec index 0); [lia |].
  destruct (Z.leb_spec (Z.of_nat (length list)) index); [lia | reflexivity].
Qed.

Lemma table_ok_AllocateServerProcessList pConfig this :
  table_ok this -> table_ok (AllocateServerProcessList pConfig this).
Proof.
  intros Hok. unfold AllocateServerProcessList.
  destruct (serverProcessListReady this) eqn:Hready; cbn; [exact Hok |].
  split; cbn.
  - apply to_DWORD_range.
  - rewrite length_replicate. apply Z2Nat.id, to_DWORD_range.
Qed.

Lemma AllocateServerProcessList_allocated pConfig this :
  table_ok this ->
  exists list, m_ppServerProcessList (AllocateServerProcessList pConfig this) = Some list.
Proof.
  intros [_ Hok]. unfold AllocateServerProcessList.
  destruct (serverProcessListReady this) eqn:Hready; cbn; [| eauto].
  destruct (m_ppServerProcessList this) as [list |]; [eauto | congruence].
Qed.

Lemma table_ok_fetch_add this :
  table_ok this -> table_ok (fetch_add_m_dwRouteToProcessIndex this).
Proof. intros Hok. exact Hok. Qed.

Lemma table_ok_call cs this : table_ok this -> table_ok (call cs this).
Proof. intros Hok. exact Hok. Qed.

Lemma table_ok_walked selected operation this list :
  m_ppServerProcessList this = Some list ->
  table_ok this -> table_ok (walked selected operation list this).
Proof.
  intros Hlist [HK Hok]. rewrite Hlist in Hok. split; [exact HK |].
  cbn. rewrite length_fmap. exact Hok.
Qed.

Lemma RapidFailsPerMinuteExceeded_frame limit env this :
  let this' := (RapidFailsPerMinuteExceeded limit env this).2 in
  m_ppServerProcessList this' = m_ppServerProcessList this /\
  m_dwProcessesPerApplication this' = m_dwProcessesPerApplication this /\
  m_dwRouteToProcessIndex this' = m_dwRouteToProcessIndex this /\
  m_hNULHandle this' = m_hNULHandle this /\
  serverProcessListReady this' = serverProcessListReady this /\
  isStopping this' = isStopping this /\
  calls this' = calls this.
Proof.
  unfold RapidFailsPerMinuteExceeded. cbn.
  destruct (_ <=? _); cbn; auto 10.
Qed.

Lemma ShutdownProcessNoLock_table_ok p this :
  table_ok this ->
  ShutdownProcessNoLock p this
  = Some (match m_ppServerProcessList this with
          | Some list => walked (same_port p) CallStopProcess list this
          | None => this
          end).
Proof. intros Hok. rewrite ShutdownProcessNoLock_walk. apply walk_table_ok, Hok. Qed.

(** The creation block on an empty slot takes none of its undefined
    branches. *)
Lemma GetProcess_create_empty pConfig env i this list :
  m_ppServerProcessList this = Some list -> 0 <= i ->
  list !! Z.to_nat i = Some None ->
  GetProcess_create pConfig env i this
  = Some (create_in_empty_slot pConfig env i this).
Proof.
  intros Hlist Hi Hlook. unfold GetProcess_create, create_in_empty_slot.
  assert (Hrange : (Z.to_nat i < length list)%nat) by (eapply lookup_lt_Some; eauto).
  pose proof (RapidFailsPerMinuteExceeded_frame
                (to_LONG (QueryRapidFailsPerMinute pConfig)) env this) as Hframe.
  destruct (RapidFailsPerMinuteExceeded _ env this) as [exceeded d].
  cbn in Hframe. destruct Hframe as (Hd & _). rewrite Hlist in Hd.
  destruct exceeded; [reflexivity |].
  rewrite (slot_at_lookup d _ i Hd Hi), Hlook. cbn [mbind option_bind].
  destruct (FAILED (Initialize_result env)); [reflexivity |].
  destruct (FAILED (StartProcess_result env)); [reflexivity |].
  cbn [mbind option_bind].
  destruct (IsReady (started env)); [| reflexivity]. cbn [negb].
  rewrite (store_slot_defined _ list); cbn; auto.
  unfold slot_at; cbn.
  destruct (Z.ltb_spec i 0); [lia |].
  rewrite list_lookup_insert_eq by exact Hrange.
  cbn. unfold slots; cbn. rewrite Hd. reflexivity.
Qed.

(** On a well-formed table, [GetProcess] of a manager that is not stopping
    takes none of the undefined branches of its re-reads. *)
Lemma GetProcess_running_eq pConfig env this :
  table_ok this -> isStopping this = false ->
  GetProcess pConfig env this = GetProcess_running pConfig env this.
Proof.
  intros Hok Hrun. unfold GetProcess, GetProcess_running. rewrite Hrun. cbn [andb].
  pose proof (table_ok_AllocateServerProcessList pConfig this Hok) as Hoka.
  set (a := AllocateServerProcessList pConfig this) in *.
  destruct (RouteToProcessIndex a) as [i |]; [| reflexivity]. cbn [mbind option_bind].
  pose proof (table_ok_fetch_add a Hoka) as Hokb.
  set (b := fetch_add_m_dwRouteToProcessIndex a) in *.
  destruct (slot_at b i) as [slot |] eqn:Hslot; [| reflexivity]. cbn [mbind option_bind].
  destruct (occupied_and_ready slot) eqn:Hready; [reflexivity |]. cbn [negb].
  destruct (slot_at_inv _ _ _ Hslot) as (list & Hlist & Hi & Hlook).
  assert (Hrange : (Z.to_nat i < length list)%nat) by (eapply lookup_lt_Some; eauto).
  destruct slot as [p |]; cbn [mbind option_bind].
  - cbn in Hready. rewrite Hready. cbn [negb].
    rewrite ShutdownProcessNoLock_table_ok by exact Hokb.
    rewrite Hlist. cbn [mbind option_bind].
    unfold stop_not_ready, slots. rewrite Hlist. cbn [default].
    apply (GetProcess_create_empty _ _ _ _ (cleared (same_port p) <$> list));
      [reflexivity | exact Hi |].
    rewrite list_lookup_fmap, Hlook. cbn. unfold same_port. rewrite Z.eqb_refl.
    reflexivity.
  - apply (GetProcess_create_empty _ _ _ _ list); assumption.
Qed.

Lemma GetProcess_stopping pConfig env this :
  isStopping this = true ->
  GetProcess pConfig env this = Some (E_APPLICATION_EXITING, None, this).
Proof. intros Hstop. unfold GetProcess. rewrite Hstop. reflexivity. Qed.

End GetProcessParts.

(** ** Counting calls *)

Lemma count_app which cs cs' :
  count which (cs ++ cs') = (count which cs + count which cs')%nat.
Proof. unfold count. rewrite filter_app, length_app. reflexivity. Qed.

Lemma count_cons which c cs :
  count which (c :: cs) = ((if which c then 1 else 0) + count which cs)%nat.
Proof.
  unfold count. rewrite filter_cons.
  destruct (which c); destruct (decide _); cbn; congruence.
Qed.

Lemma count_nil which : count which [] = 0%nat.
Proof. reflexivity. Qed.

(** Counting calls in an explicit list. *)
Ltac count_calls :=
  repeat (rewrite count_app || rewrite count_cons || rewrite count_nil); cbn.

(** ** How the member functions change the manager *)

Section Evolution.

Lemma no_setup_app cs cs' : no_setup cs -> no_setup cs' -> no_setup (cs ++ cs').
Proof.
  unfold no_setup. intros [Ha Hb] [Hc Hd]. rewrite !count_app. lia.
Qed.

Lemma no_setup_nil : no_setup [].
Proof. split; reflexivity. Qed.

Lemma no_setup_calls_for selected operation (list : list Slot) :
  (forall p, is_CallNewArray (operation p) = false) ->
  (forall p, is_CallCreateFileW (operation p) = false) ->
  no_setup (list ≫= calls_for selected operation).
Proof.
  intros Hnew Hopen. induction list as [| slot list IH]; [apply no_setup_nil |].
  cbn [mbind list_bind]. apply no_setup_app; [| exact IH].
  destruct slot as [p |]; cbn; [| apply no_setup_nil].
  destruct (selected p); [| apply no_setup_nil].
  split; rewrite !count_cons; [rewrite Hnew | rewrite Hopen]; reflexivity.
Qed.

Lemma evolves_refl this : evolves [] this this.
Proof. unfold evolves. rewrite app_nil_r. auto 10. Qed.

Lemma evolves_trans cs cs' a b c :
  evolves cs a b -> evolves cs' b c -> evolves (cs ++ cs') a c.
Proof.
  unfold evolves. intros (H1 & H2 & H3 & H4 & H5 & H6 & H7) (G1 & G2 & G3 & G4 & G5 & G6 & G7).
  rewrite G1, G2, G3, G4, G5, G6, G7, H6, app_assoc. auto 10.
Qed.

Lemma evolves_call cs this : evolves cs this (call cs this).
Proof. unfold evolves. cbn. auto 10. Qed.

Lemma evolves_set_list this (list list' : list Slot) :
  m_ppServerProcessList this = Some list -> length list' = length list ->
  evolves [] this (set_m_ppServerProcessList (Some list') this).
Proof.
  intros Hlist Hlen. unfold evolves. cbn. rewrite Hlist, app_nil_r. cbn.
  rewrite Hlen. auto 10.
Qed.

Lemma evolves_fetch_add this : evolves [] this (fetch_add_m_dwRouteToProcessIndex this).
Proof. unfold evolves. cbn. rewrite app_nil_r. auto 10. Qed.

Lemma evolves_RapidFailsPerMinuteExceeded limit env this :
  evolves [] this (RapidFailsPerMinuteExceeded limit env this).2.
Proof.
  unfold evolves, RapidFailsPerMinuteExceeded. cbn.
  destruct (_ <=? _); cbn; rewrite app_nil_r; auto 10.
Qed.

Lemma evolves_walked selected operation this list :
  m_ppServerProcessList this = Some list ->
  evolves (list ≫= calls_for selected operation) this
    (walked selected operation list this).
Proof.
  intros Hlist. unfold evolves, walked. cbn. rewrite Hlist. cbn.
  rewrite length_fmap. auto 10.
Qed.

Lemma evolves_create_in_empty_slot pConfig env i this list :
  m_ppServerProcessList this = Some list ->
  exists cs, evolves cs this (create_in_empty_slot pConfig env i this).2 /\ no_setup cs.
Proof.
  intros Hlist. unfold create_in_empty_slot.
  pose proof (evolves_RapidFailsPerMinuteExceeded
                (to_LONG (QueryRapidFailsPerMinute pConfig)) env this) as Hd.
  destruct (RapidFailsPerMinuteExceeded _ env this) as [exceeded d]. cbn in Hd.
  assert (Hdl : exists list', m_ppServerProcessList d = Some list' /\
                              length list' = length list).
  { destruct Hd as (_ & _ & _ & _ & _ & _ & Hlen). rewrite Hlist in Hlen.
    destruct (m_ppServerProcessList d) as [list' |]; [| discriminate].
    exists list'. split; [reflexivity |]. cbn in Hlen. congruence. }
  destruct Hdl as (list' & Hd' & Hlen).
  destruct exceeded; cbn.
  { eexists. split; [eapply evolves_trans; [exact Hd | apply evolves_call] |].
    split; count_calls; reflexivity. }
  destruct (FAILED (Initialize_result env)); cbn.
  { eexists. split; [eapply evolves_trans; [exact Hd | apply evolves_call] |].
    split; count_calls; reflexivity. }
  destruct (FAILED (StartProcess_result env)); cbn.
  { eexists. split.
    - eapply evolves_trans; [exact Hd |].
      eapply evolves_trans; apply evolves_call.
    - split; count_calls; reflexivity. }
  destruct (IsReady (started env)); cbn.
  - eexists. split.
    + eapply evolves_trans; [exact Hd |].
      eapply evolves_trans; [apply evolves_call |].
      eapply evolves_trans; [apply evolves_call |].
      apply (evolves_set_list _ list'); [exact Hd' |].
      unfold slots; cbn. rewrite Hd'. cbn. apply length_insert.
    + split; count_calls; reflexivity.
  - eexists. split.
    + eapply evolves_trans; [exact Hd |].
      eapply evolves_trans; apply evolves_call.
    + split; count_calls; reflexivity.
Qed.

Lemma is_CallNewArray_CallStopProcess p : is_CallNewArray (CallStopProcess p) = false.
Proof. reflexivity. Qed.

Lemma is_CallCreateFileW_CallStopProcess p : is_CallCreateFileW (CallStopProcess p) = false.
Proof. reflexivity. Qed.

Lemma is_CallNewArray_CallSendSignal p : is_CallNewArray (CallSendSignal p) = false.
Proof. reflexivity. Qed.

Lemma is_CallCreateFileW_CallSendSignal p : is_CallCreateFileW (CallSendSignal p) = false.
Proof. reflexivity. Qed.

(** A call of [GetProcess] that is not refused for stopping: beyond the
    lazy allocation it keeps the table in place. *)
Lemma GetProcess_evolves pConfig env this hr out this' :
  table_ok this -> isStopping this = false ->
  GetProcess pConfig env this = Some (hr, out, this') ->
  exists cs, evolves cs (AllocateServerProcessList pConfig this) this' /\ no_setup cs.
Proof.
  intros Hok Hrun. rewrite GetProcess_running_eq by assumption.
  unfold GetProcess_running.
  pose proof (table_ok_AllocateServerProcessList pConfig this Hok) as Hoka.
  set (a := AllocateServerProcessList pConfig this) in *.
  destruct (RouteToProcessIndex a) as [i |]; [| discriminate]. cbn [mbind option_bind].
  pose proof (evolves_fetch_add a) as Hb.
  set (b := fetch_add_m_dwRouteToProcessIndex a) in *.
  destruct (slot_at b i) as [slot |] eqn:Hslot; [| discriminate]. cbn [mbind option_bind].
  destruct (slot_at_inv _ _ _ Hslot) as (list & Hlist & Hi & Hlook).
  destruct (occupied_and_ready slot).
  { intros [= <- <- <-]. exists []. split; [exact Hb | apply no_setup_nil]. }
  destruct slot as [p |].
  - unfold stop_not_ready, slots. rewrite Hlist. cbn [default].
    pose proof (evolves_walked (same_port p) CallStopProcess b list Hlist) as Hc.
    destruct (evolves_create_in_empty_slot pConfig env i
                (walked (same_port p) CallStopProcess list b)
                (cleared (same_port p) <$> list) eq_refl) as (cs & Hcs & Hno).
    intros [= Heq]. rewrite Heq in Hcs. cbn in Hcs.
    eexists. split.
    + eapply evolves_trans; [exact Hb |]. eapply evolves_trans; [exact Hc | exact Hcs].
    + apply no_setup_app; [apply no_setup_nil |].
      apply no_setup_app; [| exact Hno].
      apply no_setup_calls_for; reflexivity.
  - destruct (evolves_create_in_empty_slot pConfig env i b list Hlist) as (cs & Hcs & Hno).
    intros [= Heq]. rewrite Heq in Hcs. cbn in Hcs.
    eexists. split.
    + eapply evolves_trans; [exact Hb | exact Hcs].
    + apply no_setup_app; [apply no_setup_nil | exact Hno].
Qed.

Lemma table_ok_evolves cs this this' :
  evolves cs this this' -> table_ok this -> table_ok this'.
Proof.
  intros (HK & Hready & _ & _ & _ & _ & Hlen) [Hdw Hok]. split.
  - rewrite HK. exact Hdw.
  - rewrite HK, Hready.
    destruct (m_ppServerProcessList this) as [list |],
             (m_ppServerProcessList this') as [list' |]; try discriminate.
    + injection Hlen as Hlen. rewrite Hlen. exact Hok.
    + exact Hok.
Qed.

Lemma allocated_once_evolves cs this this' :
  evolves cs this this' -> no_setup cs -> allocated_once this -> allocated_once this'.
Proof.
  intros (_ & Hready & _ & _ & _ & Hcalls & _) [Hno _]. unfold allocated_once.
  rewrite Hcalls, Hready, count_app, Hno. lia.
Qed.

Lemma sink_opened_once_evolves cs this this' :
  evolves cs this this' -> no_setup cs -> sink_opened_once this -> sink_opened_once this'.
Proof.
  intros (_ & _ & _ & Hhandle & _ & Hcalls & _) [_ Hno]. unfold sink_opened_once.
  rewrite Hcalls, Hhandle, count_app, Hno. lia.
Qed.

End Evolution.

(** ** The invariant of the reachable states *)

Section Invariant.

Lemma invariant_ctor garbage wsaStartupDone :
  invariant (PROCESS_MANAGER_ctor garbage wsaStartupDone).
Proof.
  split; [| split; [| split]].
  - split; [unfold is_DWORD; cbn; lia | reflexivity].
  - intros _. apply Forall_nil_2.
  - reflexivity.
  - reflexivity.
Qed.

Lemma all_empty_cleared selected (list : list Slot) :
  Forall (fun slot : Slot => slot = None) list ->
  Forall (fun slot : Slot => slot = None) (cleared selected <$> list).
Proof.
  intros Hall. apply Forall_fmap. eapply Forall_impl; [exact Hall |].
  intros slot ->. reflexivity.
Qed.

Lemma all_cleared (list : list Slot) :
  Forall (fun slot : Slot => slot = None) (cleared any_worker <$> list).
Proof.
  apply Forall_fmap, Forall_forall. intros [p |] _; reflexivity.
Qed.

(** Preservation along [evolves], given what happens to the slots. *)
Lemma invariant_evolves cs this this' :
  evolves cs this this' -> no_setup cs ->
  (isStopping this = true -> all_empty this -> all_empty this') ->
  invariant this -> invariant this'.
Proof.
  intros Hev Hno Hslots (Hok & Hstop & Halloc & Hsink).
  split; [| split; [| split]].
  - eapply table_ok_evolves; eauto.
  - intros Hstopping. destruct Hev as (_ & _ & Heq & _). rewrite Heq in Hstopping. auto.
  - eapply allocated_once_evolves; eauto.
  - eapply sink_opened_once_evolves; eauto.
Qed.

Lemma invariant_AllocateServerProcessList pConfig this :
  invariant this -> invariant (AllocateServerProcessList pConfig this).
Proof.
  intros (Hok & Hstop & Halloc & Hsink).
  split; [apply table_ok_AllocateServerProcessList, Hok |].
  unfold AllocateServerProcessList, stopped_empty, allocated_once, sink_opened_once in *.
  destruct (serverProcessListReady this) eqn:Hready; cbn.
  - rewrite Hready. auto.
  - split; [| split].
    + intros _. unfold all_empty, slots; cbn. apply Forall_replicate. reflexivity.
    + count_calls. rewrite Halloc. reflexivity.
    + count_calls. rewrite Hsink. lia.
Qed.

(** [Initialize] case by case. *)
Lemma Initialize_cases env this :
  Initialize env this
  = if negb (isWSAStartupDone this) && negb (WSAStartup env =? 0) then
      (HRESULT_FROM_WIN32 (WSAStartup env), call [CallWSAStartup] this)
    else
      let started_up :=
        if isWSAStartupDone this then this
        else set_isWSAStartupDone true (call [CallWSAStartup] this) in
      let this' := set_m_rapidFailTickStart (GetTickCount64 env) started_up in
      match m_hNULHandle this with
      | nullptr =>
          (match CreateFileW env with
           | Opened _ => S_OK
           | OpenFailed lastError => HRESULT_FROM_WIN32 lastError
           end,
           set_m_hNULHandle (handle_of (CreateFileW env)) (call [CallCreateFileW] this'))
      | _ => (S_OK, this')
      end.
Proof.
  unfold Initialize.
  destruct (isWSAStartupDone this); cbn [negb andb];
    [| destruct (WSAStartup env =? 0); cbn [negb andb]]; try reflexivity;
    cbn; destruct (m_hNULHandle this); try reflexivity;
    destruct (CreateFileW env); reflexivity.
Qed.

Lemma invariant_Initialize env this :
  invariant this -> invariant (Initialize env this).2.
Proof.
  intros (Hok & Hstop & Halloc & Hsink). rewrite Initialize_cases.
  unfold invariant, stopped_empty, allocated_once, sink_opened_once, all_empty, slots in *.
  destruct (isWSAStartupDone this); cbn [negb andb];
    [| destruct (WSAStartup env =? 0); cbn [negb andb]];
    cbn [snd]; destruct (m_hNULHandle this) eqn:Hhandle;
    try destruct (CreateFileW env);
    cbn in *; rewrite ?Hhandle;
    (split; [exact Hok | split; [exact Hstop | split]]);
    count_calls; rewrite ?Halloc, ?Hsink; cbn; lia.
Qed.

Lemma invariant_walk selected operation this :
  (forall p, is_CallNewArray (operation p) = false) ->
  (forall p, is_CallCreateFileW (operation p) = false) ->
  invariant this ->
  exists this',
    for_DWORD (Z.to_nat (m_dwProcessesPerApplication this)) 0
      (walk_body selected operation) this = Some this' /\
    invariant this' /\ isStopping this' = isStopping this /\
    (selected = any_worker -> all_empty this').
Proof.
  intros Hnew Hopen Hinv. pose proof Hinv as (Hok & _).
  rewrite walk_table_ok by exact Hok.
  destruct (m_ppServerProcessList this) as [list |] eqn:Hlist.
  - eexists. split; [reflexivity |]. split; [| split].
    + eapply invariant_evolves; [apply evolves_walked, Hlist | | | exact Hinv].
      * apply no_setup_calls_for; assumption.
      * intros _. unfold all_empty, slots. rewrite Hlist. cbn.
        apply all_empty_cleared.
    + reflexivity.
    + intros ->. unfold all_empty, slots. cbn. apply all_cleared.
  - exists this. split; [reflexivity |]. split; [exact Hinv |]. split; [reflexivity |].
    intros _. unfold all_empty, slots. rewrite Hlist. apply Forall_nil_2.
Qed.

Lemma invariant_set_isStopping this :
  invariant this -> all_empty this -> invariant (set_isStopping true this).
Proof.
  intros (Hok & Hstop & Halloc & Hsink) Hall.
  split; [exact Hok |]. split; [intros _; exact Hall |]. split; assumption.
Qed.

Lemma invariant_Shutdown this :
  invariant this ->
  exists this', Shutdown this = Some this' /\ invariant this' /\
                isStopping this' = true /\ all_empty this'.
Proof.
  intros Hinv. unfold Shutdown.
  destruct (isStopping this) eqn:Hstopping; cbn [negb].
  - exists (set_isStopping true this).
    destruct Hinv as (Hok & Hstop & Halloc & Hsink).
    split; [reflexivity |]. split; [| split; [reflexivity | apply (Hstop Hstopping)]].
    split; [exact Hok |]. split; [intros _; apply (Hstop Hstopping) |]. split; assumption.
  - unfold ShutdownAllProcesses. rewrite ShutdownAllProcessesNoLock_walk.
    pose proof Hinv as (Hok & Hstop & Halloc & Hsink).
    assert (Hok' : table_ok (set_isStopping true this)) by exact Hok.
    rewrite walk_table_ok by exact Hok'. cbn.
    destruct (m_ppServerProcessList this) as [list |] eqn:Hlist.
    + eexists. split; [reflexivity |].
      assert (Hall : all_empty (walked any_worker CallSendSignal list (set_isStopping true this))).
      { unfold all_empty, slots. cbn. apply all_cleared. }
      split; [| split; [reflexivity | exact Hall]].
      split; [| split; [intros _; exact Hall | split]].
      * eapply table_ok_evolves; [apply evolves_walked; exact Hlist | exact Hok'].
      * eapply allocated_once_evolves;
          [apply (evolves_walked _ _ (set_isStopping true this)); exact Hlist | | exact Halloc].
        apply no_setup_calls_for; reflexivity.
      * eapply sink_opened_once_evolves;
          [apply (evolves_walked _ _ (set_isStopping true this)); exact Hlist | | exact Hsink].
        apply no_setup_calls_for; reflexivity.
    + eexists. split; [reflexivity |].
      assert (Hall : all_empty (set_isStopping true this)).
      { unfold all_empty, slots. cbn. rewrite Hlist. apply Forall_nil_2. }
      split; [| split; [reflexivity | exact Hall]].
      split; [exact Hok |]. split; [intros _; exact Hall |]. split; assumption.
Qed.

Lemma invariant_worker_changes i ready this :
  invariant this -> invariant (worker_changes i ready this).
Proof.
  intros Hinv. unfold worker_changes.
  destruct (m_ppServerProcessList this) as [list |] eqn:Hlist; [| exact Hinv].
  destruct (list !! i) as [[p |] |] eqn:Hslot; try exact Hinv.
  eapply invariant_evolves; [| apply no_setup_nil | | exact Hinv].
  - apply (evolves_set_list _ list); [exact Hlist | apply length_insert].
  - intros _ Hall. exfalso. unfold all_empty, slots in Hall. rewrite Hlist in Hall. cbn in Hall.
    rewrite Forall_lookup in Hall. specialize (Hall _ _ Hslot). discriminate.
Qed.

Lemma invariant_GetProcess pConfig env this hr out this' :
  invariant this -> GetProcess pConfig env this = Some (hr, out, this') ->
  invariant this' /\ isStopping this' = isStopping this.
Proof.
  intros Hinv Hcall. destruct (isStopping this) eqn:Hstopping.
  - rewrite GetProcess_stopping in Hcall by exact Hstopping.
    injection Hcall as _ _ <-. auto.
  - pose proof Hinv as (Hok & _).
    destruct (GetProcess_evolves _ _ _ _ _ _ Hok Hstopping Hcall) as (cs & Hev & Hno).
    assert (Hrun : isStopping (AllocateServerProcessList pConfig this) = false).
    { unfold AllocateServerProcessList.
      destruct (serverProcessListReady this); cbn; exact Hstopping. }
    split.
    + eapply invariant_evolves; [exact Hev | exact Hno | |
                                 apply invariant_AllocateServerProcessList, Hinv].
      rewrite Hrun. discriminate.
    + destruct Hev as (_ & _ & Heq & _). rewrite Heq. exact Hrun.
Qed.

Theorem invariant_step op this this' :
  invariant this -> step op this = Some this' -> invariant this'.
Proof.
  intros Hinv. destruct op; cbn [step].
  - intros [= <-]. apply invariant_Initialize, Hinv.
  - destruct (GetProcess pConfig env this) as [[[hr out] after] |] eqn:Hcall; [| discriminate].
    cbn. intros [= <-]. eapply invariant_GetProcess; eauto.
  - rewrite SendShutdownSignal_walk.
    destruct (invariant_walk any_worker CallSendSignal this) as (after & -> & Hafter & _);
      auto. intros [= <-]. exact Hafter.
  - unfold ShutdownProcess. rewrite ShutdownProcessNoLock_walk.
    destruct (invariant_walk (same_port pServerProcess) CallStopProcess this)
      as (after & -> & Hafter & _); auto. intros [= <-]. exact Hafter.
  - unfold ShutdownAllProcesses. rewrite ShutdownAllProcessesNoLock_walk.
    destruct (invariant_walk any_worker CallSendSignal this) as (after & -> & Hafter & _);
      auto. intros [= <-]. exact Hafter.
  - destruct (invariant_Shutdown this Hinv) as (after & -> & Hafter & _).
    intros [= <-]. exact Hafter.
  - intros [= <-]. exact Hinv.
  - intros [= <-]. exact Hinv.
  - intros [= <-]. apply invariant_worker_changes, Hinv.
Qed.

Theorem invariant_run ops : forall this this',
  invariant this -> run ops this = Some this' -> invariant this'.
Proof.
  induction ops as [| op ops IH]; intros this this' Hinv; cbn [run].
  - intros [= <-]. exact Hinv.
  - destruct (step op this) as [next |] eqn:Hstep; [| discriminate]. cbn.
    apply IH. eapply invariant_step; eauto.
Qed.

Theorem reachable_invariant this : reachable this -> invariant this.
Proof.
  intros (garbage & wsaStartupDone & ops & Hrun).
  eapply invariant_run; [apply invariant_ctor | exact Hrun].
Qed.

Lemma reachable_step op this this' :
  reachable this -> step op this = Some this' -> reachable this'.
Proof.
  intros (garbage & wsaStartupDone & ops & Hrun) Hstep.
  exists garbage, wsaStartupDone, (ops ++ [op]).
  revert Hrun. generalize (PROCESS_MANAGER_ctor garbage wsaStartupDone).
  induction ops as [| op' ops IH]; intros start; cbn [run app].
  - intros [= ->]. rewrite Hstep. reflexivity.
  - destruct (step op' start) as [next |]; [| discriminate]. cbn. apply IH.
Qed.

End Invariant.

(** ** Stopping *)

Section Stopping.

Lemma for_DWORD_preserves (P : PROCESS_MANAGER -> Prop) body :
  (forall i this this', body i this = Some this' -> P this -> P this') ->
  forall n i this this', for_DWORD n i body this = Some this' -> P this -> P this'.
Proof.
  intros Hbody. induction n as [| n IH]; intros i this this'; cbn [for_DWORD].
  - intros [= <-]. auto.
  - destruct (body i this) as [next |] eqn:Hnext; [| discriminate]. cbn.
    intros Hrest HP. eapply IH; eauto.
Qed.

Lemma walk_body_isStopping selected operation i this this' :
  walk_body selected operation i this = Some this' ->
  isStopping this = true -> isStopping this' = true.
Proof.
  unfold walk_body. destruct (m_ppServerProcessList this) as [list |].
  - destruct (list !! i) as [[p |] |]; cbn; try discriminate.
    + destruct (selected p); intros [= <-]; auto.
    + intros [= <-]. auto.
  - intros [= <-]. auto.
Qed.

Lemma walk_isStopping selected operation n i this this' :
  for_DWORD n i (walk_body selected operation) this = Some this' ->
  isStopping this = true -> isStopping this' = true.
Proof.
  apply (for_DWORD_preserves (fun s => isStopping s = true)).
  apply walk_body_isStopping.
Qed.

Lemma Shutdown_isStopping this this' :
  Shutdown this = Some this' -> isStopping this' = true.
Proof.
  unfold Shutdown. destruct (isStopping this); cbn [negb].
  - intros [= <-]. reflexivity.
  - unfold ShutdownAllProcesses. rewrite ShutdownAllProcessesNoLock_walk.
    intros Hwalk. eapply walk_isStopping; [exact Hwalk | reflexivity].
Qed.

Lemma Initialize_isStopping env this :
  isStopping (Initialize env this).2 = isStopping this.
Proof.
  rewrite Initialize_cases.
  destruct (negb _ && negb _); [reflexivity |].
  destruct (isWSAStartupDone this), (m_hNULHandle this); reflexivity.
Qed.

Lemma worker_changes_isStopping i ready this :
  isStopping (worker_changes i ready this) = isStopping this.
Proof.
  unfold worker_changes. destruct (m_ppServerProcessList this) as [list |]; [| reflexivity].
  destruct (list !! i) as [[p |] |]; reflexivity.
Qed.

(** Nothing clears [isStopping]. *)
Lemma step_isStopping op this this' :
  step op this = Some this' -> isStopping this = true -> isStopping this' = true.
Proof.
  destruct op; cbn [step].
  - intros [= <-] Hstop. rewrite Initialize_isStopping. exact Hstop.
  - intros Hcall Hstop. rewrite GetProcess_stopping in Hcall by exact Hstop.
    cbn in Hcall. injection Hcall as <-. exact Hstop.
  - rewrite SendShutdownSignal_walk. apply walk_isStopping.
  - unfold ShutdownProcess. rewrite ShutdownProcessNoLock_walk. apply walk_isStopping.
  - unfold ShutdownAllProcesses. rewrite ShutdownAllProcessesNoLock_walk.
    apply walk_isStopping.
  - intros Hshut _. eapply Shutdown_isStopping, Hshut.
  - intros [= <-] Hstop. exact Hstop.
  - intros [= <-] Hstop. exact Hstop.
  - intros [= <-] Hstop. rewrite worker_changes_isStopping. exact Hstop.
Qed.

Lemma run_isStopping ops : forall this this',
  run ops this = Some this' -> isStopping this = true -> isStopping this' = true.
Proof.
  induction ops as [| op ops IH]; intros this this'; cbn [run].
  - intros [= <-]. auto.
  - destruct (step op this) as [next |] eqn:Hstep; [| discriminate]. cbn.
    intros Hrun Hstop. eapply IH; [exact Hrun |]. eapply step_isStopping; eauto.
Qed.

Lemma reachable_run ops : forall this this',
  reachable this -> run ops this = Some this' -> reachable this'.
Proof.
  induction ops as [| op ops IH]; intros this this' Hreach; cbn [run].
  - intros [= <-]. exact Hreach.
  - destruct (step op this) as [next |] eqn:Hstep; [| discriminate]. cbn.
    apply IH. eapply reachable_step; eauto.
Qed.

End Stopping.

(** ** Example managers are well formed *)

Import Examples.

(** Closed comparisons of integers. *)
Ltac by_computation := vm_compute; repeat split; first [reflexivity | discriminate].

Lemma table_ok_three_ready : table_ok three_ready.
Proof. split; [unfold is_DWORD; cbn; lia | reflexivity]. Defined.

Lemma table_ok_first_dead failures : table_ok (first_dead_with failures).
Proof. split; [unfold is_DWORD; cbn; lia | reflexivity]. Defined.

(** C3.  When [isStopping] is set on entry, [GetProcess] returns
    E_APPLICATION_EXITING, a failure code, and leaves the manager as it was:
    no slot is read or written, the cursor does not move and no collaborator
    is called.  In particular, after a [Shutdown()] that has returned, and
    whatever is called on the manager afterwards, every [GetProcess] fails
    in this way and so creates no worker. *)
Theorem GetProcess_application_exiting :
  FAILED E_APPLICATION_EXITING = true /\
  (forall pConfig env this,
      isStopping this = true ->
      GetProcess pConfig env this = Some (E_APPLICATION_EXITING, None, this)) /\
  (forall this stopped ops later pConfig env,
      Shutdown this = Some stopped ->
      run ops stopped = Some later ->
      GetProcess pConfig env later = Some (E_APPLICATION_EXITING, None, later)).
Proof.
  split; [reflexivity |]. split.
  - intros pConfig env this Hstop. apply GetProcess_stopping, Hstop.
  - intros this stopped ops later pConfig env Hshut Hrun.
    apply GetProcess_stopping. eapply run_isStopping; [exact Hrun |].
    eapply Shutdown_isStopping, Hshut.
Qed.

Lemma GetProcess_application_exiting_witness :
  isStopping one_stopped = true /\
  Shutdown one_ready = Some one_stopped /\
  run [OpInitialize (all_well 9 5000); OpGetProcess config (all_well 9 5000)] one_stopped
  = Some (set_m_rapidFailTickStart 9 one_stopped) /\
  GetProcess config (all_well 10 5001) one_stopped
  = Some (E_APPLICATION_EXITING, None, one_stopped) /\
  GetProcess config (all_well 10 5001) (set_m_rapidFailTickStart 9 one_stopped)
  = Some (E_APPLICATION_EXITING, None, set_m_rapidFailTickStart 9 one_stopped).
Proof.
  assert (Hstop : isStopping one_stopped = true) by reflexivity.
  assert (Hshut : Shutdown one_ready = Some one_stopped) by reflexivity.
  assert (Hrun : run [OpInitialize (all_well 9 5000); OpGetProcess config (all_well 9 5000)]
                   one_stopped = Some (set_m_rapidFailTickStart 9 one_stopped))
    by reflexivity.
  destruct GetProcess_application_exiting as (_ & Hentry & Hafter).
  split; [exact Hstop |]. split; [exact Hshut |]. split; [exact Hrun |]. split.
  - exact (Hentry config (all_well 10 5001) one_stopped Hstop).
  - exact (Hafter one_ready one_stopped _ _ config (all_well 10 5001) Hshut Hrun).
Defined.

(** C8.  [Shutdown()] is idempotent.  The call that finds [isStopping]
    clear sets it and runs [ShutdownAllProcesses]; a call that finds it set
    changes nothing and calls no collaborator.  On every manager that can be
    reached, [Shutdown()] returns, leaves every slot empty, and from then on,
    whatever is called on the manager, the slots stay empty and a further
    [Shutdown()] is a no-operation: the slot walk has run once. *)
Theorem Shutdown_idempotent :
  (forall this,
      isStopping this = false ->
      Shutdown this = ShutdownAllProcesses (set_isStopping true this)) /\
  (forall this, isStopping this = true -> Shutdown this = Some this) /\
  (forall this,
      reachable this ->
      exists stopped,
        Shutdown this = Some stopped /\
        isStopping stopped = true /\
        all_empty stopped /\
        Shutdown stopped = Some stopped /\
        forall ops later,
          run ops stopped = Some later ->
          all_empty later /\ Shutdown later = Some later).
Proof.
  assert (Hagain : forall this, isStopping this = true -> Shutdown this = Some this).
  { intros this Hstop. unfold Shutdown. rewrite Hstop. cbn [negb].
    destruct this; cbn in *. subst. reflexivity. }
  split; [| split].
  - intros this Hrun. unfold Shutdown. rewrite Hrun. reflexivity.
  - exact Hagain.
  - intros this Hreach.
    destruct (invariant_Shutdown this (reachable_invariant this Hreach))
      as (stopped & Hshut & Hinv & Hstop & Hall).
    exists stopped. repeat split; auto.
    + destruct (invariant_run ops stopped later Hinv H) as (_ & Hempty & _).
      apply Hempty. eapply run_isStopping; eauto.
    + apply Hagain. eapply run_isStopping; eauto.
Qed.

Lemma Shutdown_idempotent_witness :
  reachable one_ready /\
  Shutdown one_ready = Some one_stopped /\
  Shutdown one_stopped = Some one_stopped /\
  exists stopped, Shutdown one_ready = Some stopped /\ all_empty stopped.
Proof.
  assert (Hreach : reachable one_ready).
  { exists 0, false, history_one_ready. reflexivity. }
  destruct Shutdown_idempotent as (Hfirst & Hlater & Hall).
  split; [exact Hreach |]. split; [| split].
  - rewrite (Hfirst one_ready eq_refl). reflexivity.
  - exact (Hlater one_stopped eq_refl).
  - destruct (Hall one_ready Hreach) as (stopped & Hshut & _ & Hempty & _).
    exists stopped. split; [exact Hshut | exact Hempty].
Defined.

Lemma evolves_slots_length cs this this' :
  evolves cs this this' -> length (slots this') = length (slots this).
Proof.
  intros (_ & _ & _ & _ & _ & _ & Hlen). unfold slots.
  destruct (m_ppServerProcessList this), (m_ppServerProcessList this');
    cbn in *; congruence.
Qed.

Lemma AllocateServerProcessList_ready pConfig this :
  serverProcessListReady this = true -> AllocateServerProcessList pConfig this = this.
Proof. intros Hready. unfold AllocateServerProcessList. rewrite Hready. reflexivity. Qed.

Lemma keeps_table_evolves cs this this' :
  serverProcessListReady this = true -> evolves cs this this' -> no_setup cs ->
  keeps_table this this'.
Proof.
  intros Hready Hev [Hno _]. pose proof (evolves_slots_length _ _ _ Hev) as Hlen.
  destruct Hev as (HK & Hr & _ & _ & _ & Hcalls & _).
  unfold keeps_table. rewrite Hr, Hcalls, count_app, Hno. auto with lia.
Qed.

Lemma keeps_table_walk selected operation this this' :
  (forall p, is_CallNewArray (operation p) = false) ->
  (forall p, is_CallCreateFileW (operation p) = false) ->
  table_ok this -> serverProcessListReady this = true ->
  for_DWORD (Z.to_nat (m_dwProcessesPerApplication this)) 0
    (walk_body selected operation) this = Some this' ->
  keeps_table this this'.
Proof.
  intros Hnew Hopen Hok Hready. rewrite walk_table_ok by exact Hok.
  destruct (m_ppServerProcessList this) as [list |] eqn:Hlist; intros [= <-].
  - eapply keeps_table_evolves; [exact Hready | apply evolves_walked, Hlist |].
    apply no_setup_calls_for; assumption.
  - eapply keeps_table_evolves; [exact Hready | apply evolves_refl | apply no_setup_nil].
Qed.

Lemma keeps_table_step op this this' :
  invariant this -> serverProcessListReady this = true ->
  step op this = Some this' -> keeps_table this this'.
Proof.
  intros Hinv Hready. pose proof Hinv as (Hok & _). destruct op; cbn [step].
  - intros [= <-]. rewrite Initialize_cases. unfold keeps_table, slots.
    destruct (negb _ && negb _); [cbn; count_calls; auto with lia |].
    destruct (isWSAStartupDone this), (m_hNULHandle this); cbn; count_calls; auto with lia.
  - destruct (GetProcess pConfig env this) as [[[hr out] after] |] eqn:Hcall; [| discriminate].
    cbn. intros [= <-]. destruct (isStopping this) eqn:Hstop.
    + rewrite GetProcess_stopping in Hcall by exact Hstop. injection Hcall as _ _ <-.
      unfold keeps_table. auto.
    + destruct (GetProcess_evolves _ _ _ _ _ _ Hok Hstop Hcall) as (cs & Hev & Hno).
      rewrite AllocateServerProcessList_ready in Hev by exact Hready.
      eapply keeps_table_evolves; eauto.
  - rewrite SendShutdownSignal_walk. apply keeps_table_walk; auto.
  - unfold ShutdownProcess. rewrite ShutdownProcessNoLock_walk. apply keeps_table_walk; auto.
  - unfold ShutdownAllProcesses. rewrite ShutdownAllProcessesNoLock_walk.
    apply keeps_table_walk; auto.
  - unfold Shutdown. destruct (isStopping this); cbn [negb].
    + intros [= <-]. unfold keeps_table. auto.
    + unfold ShutdownAllProcesses. rewrite ShutdownAllProcessesNoLock_walk.
      apply (keeps_table_walk any_worker CallSendSignal (set_isStopping true this)); auto.
  - intros [= <-]. unfold keeps_table. auto.
  - intros [= <-]. unfold keeps_table. auto.
  - intros [= <-]. unfold worker_changes.
    destruct (m_ppServerProcessList this) as [list |] eqn:Hlist; [| unfold keeps_table; auto].
    destruct (list !! i) as [[p |] |]; try (unfold keeps_table; auto; fail).
    eapply keeps_table_evolves; [exact Hready | | apply no_setup_nil].
    apply (evolves_set_list _ list); [exact Hlist | apply length_insert].
Qed.

(** C6.  The slot table is allocated at most once.  The allocation block of
    [GetProcess], entered with [serverProcessListReady] clear, reads
    [processesPerApplication] from the configuration of that call, allocates
    that many slots, all empty, and sets [serverProcessListReady]; so the
    first [GetProcess] of a manager (one that is not stopping) leaves a table
    of that length.  Once [serverProcessListReady] is set no operation calls
    [new SERVER_PROCESS*[...]] again or changes the length of the table or
    [m_dwProcessesPerApplication]; on every reachable manager that
    allocation has run at most once. *)
Theorem slot_table_allocated_once :
  (forall pConfig this,
      is_DWORD (QueryProcessesPerApplication pConfig) ->
      serverProcessListReady this = false ->
      let this' := AllocateServerProcessList pConfig this in
      m_dwProcessesPerApplication this' = QueryProcessesPerApplication pConfig /\
      m_ppServerProcessList this'
      = Some (replicate (Z.to_nat (QueryProcessesPerApplication pConfig)) None) /\
      serverProcessListReady this' = true /\
      calls this' = calls this ++ [CallNewArray (QueryProcessesPerApplication pConfig)]) /\
  (forall pConfig env this hr out this',
      is_DWORD (QueryProcessesPerApplication pConfig) ->
      reachable this ->
      serverProcessListReady this = false ->
      isStopping this = false ->
      GetProcess pConfig env this = Some (hr, out, this') ->
      serverProcessListReady this' = true /\
      m_dwProcessesPerApplication this' = QueryProcessesPerApplication pConfig /\
      length (slots this') = Z.to_nat (QueryProcessesPerApplication pConfig) /\
      count is_CallNewArray (calls this') = 1%nat) /\
  (forall op this this',
      reachable this ->
      serverProcessListReady this = true ->
      step op this = Some this' ->
      serverProcessListReady this' = true /\
      m_dwProcessesPerApplication this' = m_dwProcessesPerApplication this /\
      length (slots this') = length (slots this) /\
      count is_CallNewArray (calls this') = count is_CallNewArray (calls this)) /\
  (forall this, reachable this -> (count is_CallNewArray (calls this) <= 1)%nat).
Proof.
  assert (Hblock : forall pConfig this,
      is_DWORD (QueryProcessesPerApplication pConfig) ->
      serverProcessListReady this = false ->
      let this' := AllocateServerProcessList pConfig this in
      m_dwProcessesPerApplication this' = QueryProcessesPerApplication pConfig /\
      m_ppServerProcessList this'
      = Some (replicate (Z.to_nat (QueryProcessesPerApplication pConfig)) None) /\
      serverProcessListReady this' = true /\
      calls this' = calls this ++ [CallNewArray (QueryProcessesPerApplication pConfig)]).
  { intros pConfig this HK Hready. unfold AllocateServerProcessList. rewrite Hready.
    cbn. rewrite to_DWORD_small by exact HK. auto. }
  split; [exact Hblock |]. split; [| split].
  - intros pConfig env this hr out this' HK Hreach Hready Hrun Hcall.
    pose proof (reachable_invariant this Hreach) as Hinv.
    pose proof Hinv as (Hok & _ & Halloc & _).
    destruct (GetProcess_evolves _ _ _ _ _ _ Hok Hrun Hcall) as (cs & Hev & Hno).
    destruct (Hblock pConfig this HK Hready) as (Ha & Hb & Hc & Hd).
    pose proof (evolves_slots_length _ _ _ Hev) as Hlen.
    destruct Hev as (HK' & Hr & _ & _ & _ & Hcalls & _). destruct Hno as [Hno _].
    rewrite Hr, HK', Hlen, Hcalls, Hd. unfold slots. rewrite Hb. cbn [default id].
    rewrite length_replicate. unfold allocated_once in Halloc. rewrite Hready in Halloc.
    count_calls. rewrite Halloc, Hno. auto.
  - intros op this this' Hreach Hready Hstep.
    apply (keeps_table_step op this this' (reachable_invariant this Hreach) Hready Hstep).
  - intros this Hreach. destruct (reachable_invariant this Hreach) as (_ & _ & Halloc & _).
    unfold allocated_once in Halloc. rewrite Halloc.
    destruct (serverProcessListReady this); lia.
Qed.

Lemma slot_table_allocated_once_witness :
  is_DWORD (QueryProcessesPerApplication config) /\
  reachable fresh /\
  reachable one_ready /\
  m_ppServerProcessList (AllocateServerProcessList config fresh) = Some [None; None; None] /\
  length (slots one_ready) = 3%nat /\
  (count is_CallNewArray (calls one_ready) <= 1)%nat /\
  exists this', step OpShutdown one_ready = Some this' /\ length (slots this') = 3%nat.
Proof.
  assert (HK : is_DWORD (QueryProcessesPerApplication config)) by (unfold is_DWORD; cbn; lia).
  assert (Hfresh : reachable fresh) by (exists 0, false, []; reflexivity).
  assert (Hreach : reachable one_ready).
  { exists 0, false, history_one_ready. reflexivity. }
  destruct slot_table_allocated_once as (Hblock & Hfirst & Hlater & Honce).
  split; [exact HK |]. split; [exact Hfresh |]. split; [exact Hreach |]. split; [| split; [| split]].
  - destruct (Hblock config fresh HK eq_refl) as (_ & Hlist & _). exact Hlist.
  - assert (Hcall : GetProcess config (all_well 5 5000) (Initialize (all_well 0 5000) fresh).2
                    = Some (S_OK, Some (worker 5000 true), one_ready)) by reflexivity.
    assert (Hinit : reachable (Initialize (all_well 0 5000) fresh).2).
    { exists 0, false, [OpInitialize (all_well 0 5000)]. reflexivity. }
    destruct (Hfirst config (all_well 5 5000) _ _ _ _ HK Hinit eq_refl eq_refl Hcall)
      as (_ & _ & Hlen & _).
    exact Hlen.
  - exact (Honce one_ready Hreach).
  - exists one_stopped. split; [reflexivity |].
    destruct (Hlater OpShutdown one_ready one_stopped Hreach eq_refl eq_refl)
      as (_ & _ & Hlen & _).
    exact Hlen.
Defined.

Lemma to_LONG_int_nonzero z : is_int z -> z <> 0 -> to_LONG z <> 0.
Proof. intros Hz Hne. rewrite to_LONG_small by exact Hz. exact Hne. Qed.

Lemma to_LONG_DWORD_nonzero z : is_DWORD z -> z <> 0 -> to_LONG z <> 0.
Proof.
  unfold is_DWORD, to_LONG, signed, unsigned. intros Hz Hne. change (32 - 1) with 31.
  rewrite Z.mod_small by exact Hz. destruct (Z.ltb_spec z (2 ^ 31)); lia.
Qed.

(** C10.  [Initialize()] opens the discard sink at most once on a manager:
    on every reachable manager [CreateFileW] has been called at most once,
    a call that finds [m_hNULHandle] other than null does not call it, and a
    call that gets past the Winsock startup leaves [m_hNULHandle] other than
    null whether the open succeeded or failed.  [Initialize()] returns a
    failure code when the Winsock startup it performs fails and when the
    open of the sink it performs fails; every call that gets past the
    startup sets the start of the rapid-fail window to the current tick
    count, and a call that fails at the startup leaves it as it was. *)
Theorem Initialize_sink_and_window :
  (forall this, reachable this -> (count is_CallCreateFileW (calls this) <= 1)%nat) /\
  (forall env this,
      m_hNULHandle this <> nullptr ->
      calls (Initialize env this).2
      = calls this ++ (if isWSAStartupDone this then [] else [CallWSAStartup]) /\
      m_hNULHandle (Initialize env this).2 = m_hNULHandle this) /\
  (forall env this,
      isWSAStartupDone this = true \/ WSAStartup env = 0 ->
      m_hNULHandle (Initialize env this).2 <> nullptr /\
      m_rapidFailTickStart (Initialize env this).2 = GetTickCount64 env) /\
  (forall env this,
      isWSAStartupDone this = false ->
      is_int (WSAStartup env) ->
      WSAStartup env <> 0 ->
      FAILED (Initialize env this).1 = true /\
      (Initialize env this).2 = call [CallWSAStartup] this) /\
  (forall env this lastError,
      isWSAStartupDone this = true \/ WSAStartup env = 0 ->
      m_hNULHandle this = nullptr ->
      CreateFileW env = OpenFailed lastError ->
      is_DWORD lastError ->
      lastError <> 0 ->
      FAILED (Initialize env this).1 = true /\
      m_hNULHandle (Initialize env this).2 = INVALID_HANDLE_VALUE).
Proof.
  split; [| split; [| split; [| split]]].
  - intros this Hreach. destruct (reachable_invariant this Hreach) as (_ & _ & _ & Hsink).
    unfold sink_opened_once in Hsink. rewrite Hsink.
    destruct (is_nullptr (m_hNULHandle this)); lia.
  - intros env this Hhandle. rewrite Initialize_cases.
    destruct (isWSAStartupDone this); cbn [negb andb];
      [| destruct (WSAStartup env =? 0); cbn [negb andb]];
      destruct (m_hNULHandle this) eqn:Hh; try congruence; cbn;
      rewrite ?app_nil_r; auto.
  - intros env this Hpast. rewrite Initialize_cases.
    assert (Hcond : negb (isWSAStartupDone this) && negb (WSAStartup env =? 0) = false).
    { destruct Hpast as [-> | ->]; [reflexivity |]. cbn. apply andb_false_r. }
    rewrite Hcond.
    destruct (m_hNULHandle this) eqn:Hh; destruct (isWSAStartupDone this); cbn;
      rewrite ?Hh; (split; [try destruct (CreateFileW env); discriminate | reflexivity]).
  - intros env this Hdone Hint Hne. rewrite Initialize_cases, Hdone.
    destruct (Z.eqb_spec (WSAStartup env) 0); [contradiction |]. cbn.
    split; [| reflexivity].
    apply FAILED_HRESULT_FROM_WIN32, to_LONG_int_nonzero; assumption.
  - intros env this lastError Hpast Hh Hfail Hrange Hne. rewrite Initialize_cases.
    assert (Hcond : negb (isWSAStartupDone this) && negb (WSAStartup env =? 0) = false).
    { destruct Hpast as [-> | ->]; [reflexivity |]. cbn. apply andb_false_r. }
    rewrite Hcond, Hh, Hfail. cbn [fst snd]. split; [| reflexivity].
    apply FAILED_HRESULT_FROM_WIN32, to_LONG_DWORD_nonzero; assumption.
Qed.

Lemma Initialize_sink_and_window_witness :
  reachable one_ready /\
  (count is_CallCreateFileW (calls one_ready) <= 1)%nat /\
  m_hNULHandle (Initialize no_sink one_ready).2 = OpenHandle 1 /\
  m_rapidFailTickStart (Initialize (all_well 42 5000) fresh).2 = 42 /\
  FAILED (Initialize no_winsock fresh).1 = true /\
  FAILED (Initialize no_sink fresh).1 = true.
Proof.
  assert (Hreach : reachable one_ready).
  { exists 0, false, history_one_ready. reflexivity. }
  destruct Initialize_sink_and_window as (Honce & Hkept & Hpast & Hwinsock & Hsink).
  split; [exact Hreach |]. split; [exact (Honce one_ready Hreach) |]. split; [| split; [| split]].
  - assert (Hopen : m_hNULHandle one_ready <> nullptr) by discriminate.
    destruct (Hkept no_sink one_ready Hopen) as (_ & Hhandle). exact Hhandle.
  - assert (Hok : isWSAStartupDone fresh = true \/ WSAStartup (all_well 42 5000) = 0)
      by (right; reflexivity).
    destruct (Hpast (all_well 42 5000) fresh Hok) as (_ & Hstart). exact Hstart.
  - assert (Hint : is_int (WSAStartup no_winsock)) by (unfold is_int; cbn; lia).
    assert (Hne : WSAStartup no_winsock <> 0) by discriminate.
    destruct (Hwinsock no_winsock fresh eq_refl Hint Hne) as (Hfailed & _). exact Hfailed.
  - assert (Hok : isWSAStartupDone fresh = true \/ WSAStartup no_sink = 0)
      by (right; reflexivity).
    assert (Hrange : is_DWORD 5) by (unfold is_DWORD; lia).
    assert (Hne : 5 <> 0) by discriminate.
    destruct (Hsink no_sink fresh 5 Hok eq_refl eq_refl Hrange Hne) as (Hfailed & _).
    exact Hfailed.
Defined.

Lemma walked_no_match selected operation (list : list Slot) this :
  m_ppServerProcessList this = Some list ->
  (forall p, Some p ∈ list -> selected p = false) ->
  walked selected operation list this = this.
Proof.
  intros Hlist Hnone. unfold walked.
  assert (Hsame : cleared selected <$> list = list /\
                  list ≫= calls_for selected operation = []).
  { clear Hlist. induction list as [| slot list IH]; [split; reflexivity |].
    destruct IH as [IH1 IH2].
    { intros p Hp. apply Hnone. right. exact Hp. }
    cbn [fmap list_fmap mbind list_bind]. change (list_fmap _ _ (cleared selected) list) with (cleared selected <$> list).
    change (list_bind _ _ (calls_for selected operation) list) with (list ≫= calls_for selected operation).
    rewrite IH1, IH2.
    destruct slot as [p |]; cbn; [| split; reflexivity].
    rewrite (Hnone p) by left. split; reflexivity. }
  destruct Hsame as [-> ->]. apply set_list_call_nil, Hlist.
Qed.

(** C7.  [ShutdownProcess(handle)], on a table of
    [m_dwProcessesPerApplication] slots, stops, releases and empties the
    slots whose worker has the port of [handle], in slot order, and changes
    nothing else: every other slot keeps its contents, and the manager
    differs only by those slots and those calls.  When no slot holds a
    worker with that port the manager is unchanged. *)
Theorem ShutdownProcess_clears_matching_slots pServerProcess this :
  table_ok this ->
  exists this',
    ShutdownProcess pServerProcess this = Some this' /\
    this' = match m_ppServerProcessList this with
            | Some list => walked (same_port pServerProcess) CallStopProcess list this
            | None => this
            end /\
    (forall i p, slots this !! i = Some (Some p) ->
       GetPort p = GetPort pServerProcess -> slots this' !! i = Some None) /\
    (forall i p, slots this !! i = Some (Some p) ->
       GetPort p <> GetPort pServerProcess -> slots this' !! i = Some (Some p)) /\
    (forall i, slots this !! i = Some None -> slots this' !! i = Some None) /\
    length (slots this') = length (slots this) /\
    calls this'
    = calls this ++
      (slots this ≫= fun slot : Slot =>
         match slot with
         | Some p =>
             if GetPort p =? GetPort pServerProcess
             then [CallStopProcess p; CallDereferenceServerProcess p] else []
         | None => []
         end) /\
    ((forall p, Some p ∈ slots this -> GetPort p <> GetPort pServerProcess) ->
     this' = this).
Proof.
  intros Hok. unfold ShutdownProcess. rewrite ShutdownProcessNoLock_table_ok by exact Hok.
  eexists. split; [reflexivity |]. split; [reflexivity |].
  unfold slots. destruct (m_ppServerProcessList this) as [list |] eqn:Hlist; cbn [default].
  - cbn. repeat split.
    + intros i p Hslot Hport. rewrite list_lookup_fmap, Hslot. cbn.
      unfold same_port. rewrite Hport, Z.eqb_refl. reflexivity.
    + intros i p Hslot Hport. rewrite list_lookup_fmap, Hslot. cbn.
      unfold same_port. destruct (Z.eqb_spec (GetPort p) (GetPort pServerProcess));
        [contradiction | reflexivity].
    + intros i Hslot. rewrite list_lookup_fmap, Hslot. reflexivity.
    + apply length_fmap.
    + intros Hnone. apply walked_no_match; [exact Hlist |].
      intros p Hp. unfold same_port. apply Z.eqb_neq, Hnone, Hp.
  - rewrite Hlist. cbn. rewrite app_nil_r. repeat split; auto.
    all: intros i; rewrite lookup_nil; discriminate.
Qed.

Lemma ShutdownProcess_clears_matching_slots_witness :
  table_ok three_ready /\
  exists this',
    ShutdownProcess (worker 5001 false) three_ready = Some this' /\
    slots this' = [Some (worker 5000 true); None; Some (worker 5002 true)] /\
    calls this' = [CallStopProcess (worker 5001 true);
                   CallDereferenceServerProcess (worker 5001 true)].
Proof.
  split; [exact table_ok_three_ready |].
  destruct (ShutdownProcess_clears_matching_slots (worker 5001 false) three_ready
              table_ok_three_ready) as (this' & Hcall & Heq & _).
  exists this'. split; [exact Hcall |]. rewrite Heq. split; reflexivity.
Defined.

(** C9, as the code has it.  [SendShutdownSignal] and [ShutdownAllProcesses]
    are the same walk with the same operation: on every manager they give
    the same result, and on a table of [m_dwProcessesPerApplication] slots
    each calls [SendSignal] and then [DereferenceServerProcess] on the worker
    of every occupied slot, in slot order, empties every slot, and calls
    [StopProcess] on no worker. *)
Theorem SendShutdownSignal_and_ShutdownAllProcesses_agree :
  (forall this, SendShutdownSignal this = ShutdownAllProcesses this) /\
  (forall this,
      table_ok this ->
      exists this',
        ShutdownAllProcesses this = Some this' /\
        SendShutdownSignal this = Some this' /\
        all_empty this' /\
        length (slots this') = length (slots this) /\
        calls this'
        = calls this ++
          (slots this ≫= fun slot : Slot =>
             match slot with
             | Some p => [CallSendSignal p; CallDereferenceServerProcess p]
             | None => []
             end) /\
        count is_CallStopProcess (calls this') = count is_CallStopProcess (calls this)).
Proof.
  split; [reflexivity |].
  intros this Hok. unfold ShutdownAllProcesses.
  rewrite SendShutdownSignal_walk, ShutdownAllProcessesNoLock_walk.
  rewrite walk_table_ok by exact Hok.
  eexists. split; [reflexivity |]. split; [reflexivity |].
  unfold all_empty, slots.
  destruct (m_ppServerProcessList this) as [list |] eqn:Hlist; cbn [default].
  - cbn. split; [apply all_cleared |]. split; [apply length_fmap |]. split; [reflexivity |].
    rewrite count_app.
    assert (Hnone : count is_CallStopProcess (list ≫= calls_for any_worker CallSendSignal) = 0%nat).
    { clear. induction list as [| slot list IH]; [reflexivity |].
      cbn [mbind list_bind]. rewrite count_app.
      change (list_bind _ _ (calls_for any_worker CallSendSignal) list)
        with (list ≫= calls_for any_worker CallSendSignal).
      rewrite IH. destruct slot as [p |]; cbn; count_calls; reflexivity. }
    rewrite Hnone. lia.
  - rewrite Hlist. cbn. rewrite app_nil_r. split; [apply Forall_nil_2 | auto].
Qed.

Lemma SendShutdownSignal_and_ShutdownAllProcesses_agree_witness :
  table_ok three_ready /\
  exists this',
    ShutdownAllProcesses three_ready = Some this' /\
    SendShutdownSignal three_ready = Some this' /\
    all_empty this'.
Proof.
  split; [exact table_ok_three_ready |].
  destruct SendShutdownSignal_and_ShutdownAllProcesses_agree as (_ & Hwalk).
  destruct (Hwalk three_ready table_ok_three_ready) as (this' & Hall & Hsignal & Hempty & _).
  exists this'. auto.
Defined.

(** C9 as stated fails: on the table [three_ready], [ShutdownAllProcesses]
    ends in the very state in which [SendShutdownSignal] ends, having called
    [SendSignal] on each worker and [StopProcess] on none. *)
Lemma ShutdownAllProcesses_sends_signal :
  ShutdownAllProcesses three_ready = Some three_signalled /\
  SendShutdownSignal three_ready = Some three_signalled /\
  calls three_signalled
  = [CallSendSignal (worker 5000 true); CallDereferenceServerProcess (worker 5000 true);
     CallSendSignal (worker 5001 true); CallDereferenceServerProcess (worker 5001 true);
     CallSendSignal (worker 5002 true); CallDereferenceServerProcess (worker 5002 true)] /\
  count is_CallStopProcess (calls three_signalled) = 0%nat.
Proof. repeat split. Qed.

Lemma RouteToProcessIndex_range this :
  0 < m_dwProcessesPerApplication this <= 2 ^ 31 ->
  exists i,
    RouteToProcessIndex this = Some i /\
    0 <= i < m_dwProcessesPerApplication this /\
    i = to_DWORD (m_dwRouteToProcessIndex this) mod m_dwProcessesPerApplication this.
Proof.
  intros HK. unfold RouteToProcessIndex. rewrite urem_defined by lia. cbn.
  pose proof (Z.mod_pos_bound (to_DWORD (m_dwRouteToProcessIndex this))
                (m_dwProcessesPerApplication this) ltac:(lia)) as Hr.
  eexists. split; [reflexivity |].
  rewrite to_int_small by (unfold is_int; lia). auto.
Qed.

Lemma slot_at_in_range this i :
  table_ok this -> serverProcessListReady this = true ->
  0 <= i < m_dwProcessesPerApplication this ->
  exists slot, slot_at this i = Some slot /\ slots this !! Z.to_nat i = Some slot.
Proof.
  intros [_ Hok] Hready Hi. unfold slots.
  destruct (m_ppServerProcessList this) as [list |] eqn:Hlist; [| congruence].
  rewrite (slot_at_lookup this list i Hlist) by lia. cbn.
  destruct (lookup_lt_is_Some_2 list (Z.to_nat i)) as [slot Hslot]; [lia |].
  exists slot. auto.
Qed.

Lemma serverProcessListReady_AllocateServerProcessList pConfig this :
  serverProcessListReady (AllocateServerProcessList pConfig this) = true.
Proof.
  unfold AllocateServerProcessList.
  destruct (serverProcessListReady this) eqn:Hready; [exact Hready | reflexivity].
Qed.

(** C5, as the code has it.  Whatever the value of the cursor
    [m_dwRouteToProcessIndex], also after it has wrapped to a negative
    [int], the index computed on line 114
    lies in [0, m_dwProcessesPerApplication), for a table of at least one
    and at most 2^31 slots; and on such a table [GetProcess] is defined:
    none of its reads and writes of [m_ppServerProcessList] is outside the
    array. *)
Theorem processIndex_in_bounds :
  (forall this,
      0 < m_dwProcessesPerApplication this <= 2 ^ 31 ->
      exists i,
        RouteToProcessIndex this = Some i /\
        0 <= i < m_dwProcessesPerApplication this) /\
  (forall pConfig env this,
      table_ok this ->
      0 < m_dwProcessesPerApplication (AllocateServerProcessList pConfig this) <= 2 ^ 31 ->
      exists i slot result,
        RouteToProcessIndex (AllocateServerProcessList pConfig this) = Some i /\
        0 <= i < Z.of_nat (length (slots (AllocateServerProcessList pConfig this))) /\
        slot_at (AllocateServerProcessList pConfig this) i = Some slot /\
        GetProcess pConfig env this = Some result).
Proof.
  split.
  - intros this HK. destruct (RouteToProcessIndex_range this HK) as (i & Hi & Hrange & _).
    eauto.
  - intros pConfig env this Hok HK.
    pose proof (table_ok_AllocateServerProcessList pConfig this Hok) as Hoka.
    pose proof (serverProcessListReady_AllocateServerProcessList pConfig this) as Hready.
    destruct (RouteToProcessIndex_range _ HK) as (i & Hi & Hrange & _).
    destruct (slot_at_in_range _ i Hoka Hready Hrange) as (slot & Hslot & Hlook).
    assert (Hlen : 0 <= i < Z.of_nat (length (slots (AllocateServerProcessList pConfig this)))).
    { apply lookup_lt_Some in Hlook. lia. }
    destruct (isStopping this) eqn:Hstop.
    + exists i, slot. eexists. repeat split; try lia; eauto.
      apply GetProcess_stopping, Hstop.
    + exists i, slot.
      rewrite GetProcess_running_eq by assumption. unfold GetProcess_running.
      rewrite Hi. cbn [mbind option_bind].
      assert (Hslot' : slot_at (fetch_add_m_dwRouteToProcessIndex
                                  (AllocateServerProcessList pConfig this)) i = Some slot)
        by exact Hslot.
      rewrite Hslot'. cbn [mbind option_bind].
      destruct (occupied_and_ready slot); [eexists; repeat split; try lia; eauto |].
      destruct slot; eexists; repeat split; try lia; eauto.
Qed.

Lemma processIndex_in_bounds_witness :
  0 < m_dwProcessesPerApplication (set_m_dwRouteToProcessIndex (- 2 ^ 31) three_ready)
  <= 2 ^ 31 /\
  table_ok fresh /\
  RouteToProcessIndex (set_m_dwRouteToProcessIndex (- 2 ^ 31) three_ready) = Some 2 /\
  exists result, GetProcess config (all_well 5 5000) fresh = Some result.
Proof.
  assert (HK : 0 < m_dwProcessesPerApplication
                     (set_m_dwRouteToProcessIndex (- 2 ^ 31) three_ready) <= 2 ^ 31)
    by by_computation.
  assert (Hok : table_ok fresh) by (split; [unfold is_DWORD; cbn; lia | reflexivity]).
  assert (HK' : 0 < m_dwProcessesPerApplication (AllocateServerProcessList config fresh)
                <= 2 ^ 31) by by_computation.
  destruct processIndex_in_bounds as (Hindex & Hdefined).
  split; [exact HK |]. split; [exact Hok |]. split.
  - destruct (Hindex _ HK) as (i & Hi & _). reflexivity.
  - destruct (Hdefined config (all_well 5 5000) fresh Hok HK') as (i & slot & result & _ & _ & _ & Hcall).
    exists result. exact Hcall.
Defined.

(** C5 as stated fails outside 1 <= K <= 2^31.  With
    [processesPerApplication] = 0 the first [GetProcess] of a new manager
    allocates a table of no slots and takes the remainder of the cursor by 0:
    there is no index, and the call is undefined.  With 2^32 - 1 slots and
    the cursor at -2, the remainder 2^32 - 2 is stored into the [int]
    [processIndex] as -2, which is below the array. *)
Lemma processIndex_outside_table :
  (let allocated := AllocateServerProcessList (mkREQUESTHANDLER_CONFIG 0 10) fresh in
   table_ok allocated /\
   m_dwProcessesPerApplication allocated = 0 /\
   slots allocated = [] /\
   RouteToProcessIndex allocated = None /\
   GetProcess (mkREQUESTHANDLER_CONFIG 0 10) (all_well 5 5000) fresh = None) /\
  (let wide :=
     set_m_dwProcessesPerApplication (2 ^ 32 - 1) (set_m_dwRouteToProcessIndex (- 2) fresh) in
   is_DWORD (m_dwProcessesPerApplication wide) /\
   RouteToProcessIndex wide = Some (- 2) /\
   ~ (0 <= - 2 < m_dwProcessesPerApplication wide) /\
   forall array, slot_at (set_m_ppServerProcessList (Some array) wide) (- 2) = None).
Proof.
  split.
  - cbv zeta. split; [split; [vm_compute; split; [discriminate | reflexivity] | reflexivity] |].
    repeat split.
  - cbv zeta. split; [vm_compute; split; [discriminate | reflexivity] |]. split; [reflexivity |].
    split; [lia | reflexivity].
Qed.

(** ** Round robin *)

Section RoundRobin.

Variable inputs : N -> REQUESTHANDLER_CONFIG * Environment.
Variable this : PROCESS_MANAGER.
Variable list : list Slot.

Hypothesis table : table_ok this.
Hypothesis allocated : m_ppServerProcessList this = Some list.
Hypothesis ready : serverProcessListReady this = true.
Hypothesis running : isStopping this = false.
Hypothesis all_ready : Forall (fun slot => occupied_and_ready slot = true) list.
Hypothesis slot_count : 0 < m_dwProcessesPerApplication this <= 2 ^ 31.

Local Abbreviation K := (m_dwProcessesPerApplication this).

(** The manager when the cursor has been incremented [n] times. *)
Local Abbreviation after n :=
  (set_m_dwRouteToProcessIndex (to_int (m_dwRouteToProcessIndex this + n)) this).

Lemma after_index n :
  RouteToProcessIndex (after n)
  = Some (to_DWORD (m_dwRouteToProcessIndex this + n) mod K).
Proof.
  destruct (RouteToProcessIndex_range (after n) slot_count) as (i & Hi & _ & Heq).
  rewrite Hi, Heq. cbn. rewrite to_DWORD_to_int. reflexivity.
Qed.

(** One call on a table of ready workers: the worker of the visited slot
    is returned and only the cursor moves. *)
Lemma GetProcess_after pConfig env n :
  exists p,
    list !! Z.to_nat (to_DWORD (m_dwRouteToProcessIndex this + n) mod K) = Some (Some p) /\
    IsReady p = true /\
    GetProcess pConfig env (after n) = Some (S_OK, Some p, after (n + 1)).
Proof.
  pose proof (Z.mod_pos_bound (to_DWORD (m_dwRouteToProcessIndex this + n)) K
                ltac:(lia)) as Hrange.
  set (i := to_DWORD (m_dwRouteToProcessIndex this + n) mod K) in *.
  assert (Hlen : Z.of_nat (length list) = K).
  { destruct table as [_ Hok]. rewrite allocated in Hok. exact Hok. }
  destruct (lookup_lt_is_Some_2 list (Z.to_nat i)) as [slot Hslot]; [lia |].
  pose proof (proj1 (Forall_lookup _ _) all_ready _ _ Hslot) as Hready.
  destruct slot as [p |]; [| discriminate]. cbn in Hready.
  exists p. split; [exact Hslot |]. split; [exact Hready |].
  rewrite GetProcess_running_eq by (assumption || exact table).
  unfold GetProcess_running.
  rewrite AllocateServerProcessList_ready by exact ready.
  rewrite after_index. fold i. cbn [mbind option_bind].
  rewrite (slot_at_lookup _ list i) by (exact allocated || lia).
  rewrite Hslot. cbn [mbind option_bind occupied_and_ready]. rewrite Hready.
  unfold fetch_add_m_dwRouteToProcessIndex, set_m_dwRouteToProcessIndex. cbn.
  rewrite to_int_succ, Z.add_assoc. reflexivity.
Qed.

Lemma after_0 : is_int (m_dwRouteToProcessIndex this) -> after 0 = this.
Proof.
  intros Hint. rewrite Z.add_0_r, to_int_small by exact Hint.
  destruct this; reflexivity.
Qed.

(** [n] calls move the cursor [n] times and change nothing else. *)
Lemma GetProcess_seq_after n :
  is_int (m_dwRouteToProcessIndex this) ->
  GetProcess_seq inputs this n = Some (after (Z.of_N n)).
Proof.
  intros Hint. unfold GetProcess_seq. induction n as [| n IH] using N.peano_ind.
  - rewrite N.peano_rect_base. cbn. rewrite after_0 by exact Hint. reflexivity.
  - rewrite N.peano_rect_succ, IH. cbn [mbind option_bind].
    destruct (GetProcess_after (inputs n).1 (inputs n).2 (Z.of_N n)) as (p & _ & _ & ->).
    cbn. rewrite N2Z.inj_succ. reflexivity.
Qed.

(** The slot that call number [n] visits. *)
Lemma visited_after n :
  is_int (m_dwRouteToProcessIndex this) ->
  visited inputs this n
  = Some (to_DWORD (m_dwRouteToProcessIndex this + Z.of_N n) mod K).
Proof.
  intros Hint. unfold visited. rewrite GetProcess_seq_after by exact Hint.
  cbn [mbind option_bind].
  rewrite AllocateServerProcessList_ready by exact ready.
  apply after_index.
Qed.

End RoundRobin.

(** C4, as the code has it.  On a table of K ready workers, 1 <= K <= 2^31,
    and from a cursor at 0, [n] sequential calls of [GetProcess] move the
    cursor [n] times, by one each and wrapping as an [int], and change
    nothing else; call number [n] (from 0) visits slot (n mod 2^32) mod K and
    returns the ready worker of that slot.  For n < 2^32, before the cursor
    has gone once round the 32-bit integers, that slot is n mod K: the slots
    are visited in the cyclic order 0, 1, ..., K-1, 0, 1, ... *)
Theorem round_robin (inputs : N -> REQUESTHANDLER_CONFIG * Environment)
    (this : PROCESS_MANAGER) (list : list Slot) (n : N) :
  table_ok this ->
  m_ppServerProcessList this = Some list ->
  serverProcessListReady this = true ->
  isStopping this = false ->
  Forall (fun slot => occupied_and_ready slot = true) list ->
  0 < m_dwProcessesPerApplication this <= 2 ^ 31 ->
  m_dwRouteToProcessIndex this = 0 ->
  let K := m_dwProcessesPerApplication this in
  let before := set_m_dwRouteToProcessIndex (to_int (Z.of_N n)) this in
  let after := set_m_dwRouteToProcessIndex (to_int (Z.of_N n + 1)) this in
  GetProcess_seq inputs this n = Some before /\
  visited inputs this n = Some ((Z.of_N n mod 2 ^ 32) mod K) /\
  (Z.of_N n < 2 ^ 32 -> visited inputs this n = Some (Z.of_N n mod K)) /\
  (Z.of_N n < 2 ^ 31 -> m_dwRouteToProcessIndex before = Z.of_N n) /\
  exists p,
    list !! Z.to_nat ((Z.of_N n mod 2 ^ 32) mod K) = Some (Some p) /\
    IsReady p = true /\
    GetProcess (inputs n).1 (inputs n).2 before = Some (S_OK, Some p, after).
Proof.
  intros Hok Hlist Hready Hrun Hall HK Hcursor K before after.
  assert (Hint : is_int (m_dwRouteToProcessIndex this)).
  { rewrite Hcursor. unfold is_int. lia. }
  pose proof (GetProcess_seq_after inputs this list Hok Hlist Hready Hrun Hall HK n Hint) as Hseq.
  pose proof (visited_after inputs this list Hok Hlist Hready Hrun Hall HK n Hint) as Hvis.
  destruct (GetProcess_after this list Hok Hlist Hready Hrun Hall HK
              (inputs n).1 (inputs n).2 (Z.of_N n)) as (p & Hslot & Hp & Hcall).
  rewrite Hcursor in *. cbn [Z.add] in *.
  split; [exact Hseq |]. split; [exact Hvis |]. split; [| split].
  - intros Hsmall. rewrite Hvis. unfold to_DWORD, unsigned.
    rewrite (Z.mod_small (Z.of_N n)) by lia. reflexivity.
  - intros Hsmall. unfold before. cbn. apply to_int_small. unfold is_int. lia.
  - exists p. auto.
Qed.

Lemma round_robin_witness :
  table_ok three_ready /\
  visited same_inputs three_ready 4 = Some 1 /\
  GetProcess_seq same_inputs three_ready 4
  = Some (set_m_dwRouteToProcessIndex 4 three_ready).
Proof.
  assert (Hall : Forall (fun slot => occupied_and_ready slot = true)
                   [Some (worker 5000 true); Some (worker 5001 true); Some (worker 5002 true)])
    by (repeat constructor).
  assert (HK : 0 < m_dwProcessesPerApplication three_ready <= 2 ^ 31) by by_computation.
  destruct (round_robin same_inputs three_ready _ 4%N table_ok_three_ready eq_refl eq_refl
              eq_refl Hall HK eq_refl) as (Hseq & _ & Hvisited & _).
  split; [exact table_ok_three_ready |]. split.
  - exact (Hvisited eq_refl).
  - exact Hseq.
Defined.

(** C4 as stated fails once the cursor has gone round the 32-bit integers:
    on the three ready workers of [three_ready], the calls number 2^32 - 1
    and 2^32 both visit slot 0, where the cyclic order has slot
    2^32 mod 3 = 1 follow slot 0. *)
Lemma cursor_wrap_breaks_cycle :
  visited same_inputs three_ready 4294967295 = Some 0 /\
  visited same_inputs three_ready 4294967296 = Some 0 /\
  4294967296 mod 3 = 1.
Proof.
  assert (Hall : Forall (fun slot => occupied_and_ready slot = true)
                   [Some (worker 5000 true); Some (worker 5001 true); Some (worker 5002 true)])
    by (repeat constructor).
  assert (HK : 0 < m_dwProcessesPerApplication three_ready <= 2 ^ 31) by by_computation.
  assert (Hint : is_int (m_dwRouteToProcessIndex three_ready)) by (unfold is_int; cbn; lia).
  split; [| split; [| reflexivity]].
  - rewrite (visited_after same_inputs three_ready _ table_ok_three_ready eq_refl eq_refl
               eq_refl Hall HK 4294967295%N Hint). reflexivity.
  - rewrite (visited_after same_inputs three_ready _ table_ok_three_ready eq_refl eq_refl
               eq_refl Hall HK 4294967296%N Hint). reflexivity.
Qed.

(** ** Replacing a worker that is not ready *)

Section Replacement.

Variable pConfig : REQUESTHANDLER_CONFIG.
Variable env : Environment.
Variable this : PROCESS_MANAGER.
Variable i : Z.
Variable slot : Slot.

Hypothesis table : table_ok this.
Hypothesis ready : serverProcessListReady this = true.
Hypothesis running : isStopping this = false.
Hypothesis index : RouteToProcessIndex this = Some i.
Hypothesis visited_slot : slot_at this i = Some slot.
Hypothesis not_ready : occupied_and_ready slot = false.

Local Abbreviation gate := (at_gate this slot).

Lemma GetProcess_at_gate :
  GetProcess pConfig env this = Some (create_in_empty_slot pConfig env i gate).
Proof.
  rewrite GetProcess_running_eq by assumption. unfold GetProcess_running.
  rewrite AllocateServerProcessList_ready by exact ready.
  rewrite index. cbn [mbind option_bind].
  change (slot_at (fetch_add_m_dwRouteToProcessIndex this) i) with (slot_at this i).
  rewrite visited_slot. cbn [mbind option_bind]. rewrite not_ready.
  unfold at_gate. destruct slot; reflexivity.
Qed.

Lemma at_gate_evolves :
  exists cs, evolves cs this gate /\
             count is_CallMakeServerProcess cs = 0%nat /\
             count is_CallEventLogInfo cs = 0%nat.
Proof.
  destruct (slot_at_inv _ _ _ visited_slot) as (list & Hlist & Hi & Hlook).
  unfold at_gate. destruct slot as [p |].
  - unfold stop_not_ready, slots. cbn. rewrite Hlist. cbn.
    eexists. split.
    + eapply evolves_trans; [apply evolves_fetch_add |].
      apply evolves_walked. exact Hlist.
    + cbn [app]. clear. induction list as [| s list IH]; [split; reflexivity |].
      cbn [mbind list_bind]. rewrite !count_app.
      change (list_bind _ _ (calls_for (same_port p) CallStopProcess) list)
        with (list ≫= calls_for (same_port p) CallStopProcess).
      destruct IH as [-> ->].
      destruct s as [q |]; cbn; [destruct (same_port p q) |];
        count_calls; split; reflexivity.
  - exists []. split; [apply evolves_fetch_add | split; reflexivity].
Qed.

Lemma at_gate_slot_empty :
  exists list, m_ppServerProcessList gate = Some list /\ 0 <= i /\
               list !! Z.to_nat i = Some None.
Proof.
  destruct (slot_at_inv _ _ _ visited_slot) as (list & Hlist & Hi & Hlook).
  unfold at_gate. destruct slot as [p |].
  - unfold stop_not_ready, slots. cbn. rewrite Hlist. cbn. eexists.
    split; [reflexivity |]. split; [exact Hi |].
    rewrite list_lookup_fmap, Hlook. cbn. unfold same_port. rewrite Z.eqb_refl.
    reflexivity.
  - exists list. cbn. auto.
Qed.




End Replacement.




(** ** The rapid-fail gate *)

Lemma RapidFailsPerMinuteExceeded_cases limit env this :
  RapidFailsPerMinuteExceeded limit env this
  = if ONE_MINUTE_IN_MILLISECONDS
         <=? to_uint64 (GetTickCount64 env - m_rapidFailTickStart this)
    then (limit <? 0,
          set_m_rapidFailTickStart (GetTickCount64 env) (set_m_cRapidFailCount 0 this))
    else (limit <? m_cRapidFailCount this, this).
Proof.
  unfold RapidFailsPerMinuteExceeded. destruct (_ <=? _); reflexivity.
Qed.

Lemma failures_recorded (n : nat) this :
  is_int (m_cRapidFailCount this) ->
  m_cRapidFailCount (Nat.iter n IncrementRapidFailCount this)
  = to_LONG (m_cRapidFailCount this + Z.of_nat n).
Proof.
  intros Hint. induction n as [| n IH].
  - cbn [Nat.iter Z.of_nat]. rewrite Z.add_0_r, to_LONG_small by exact Hint. reflexivity.
  - rewrite Nat.iter_succ.
    change (m_cRapidFailCount (IncrementRapidFailCount ?s))
      with (to_LONG (m_cRapidFailCount s + 1)).
    rewrite IH. change to_LONG with to_int. rewrite to_int_succ. f_equal. lia.
Qed.

Lemma count_after_failures n this :
  0 <= n ->
  0 <= m_cRapidFailCount this ->
  m_cRapidFailCount this + n < 2 ^ 31 ->
  m_cRapidFailCount (Z.iter n IncrementRapidFailCount this) = m_cRapidFailCount this + n.
Proof.
  intros Hn Hc Hsum. rewrite iter_nat_of_Z by exact Hn.
  change (nat_rect (fun _ => PROCESS_MANAGER) this (fun _ => IncrementRapidFailCount)
            (Z.abs_nat n))
    with (Nat.iter (Z.abs_nat n) IncrementRapidFailCount this).
  rewrite failures_recorded by (unfold is_int; lia).
  rewrite Zabs2Nat.id_abs, Z.abs_eq by exact Hn.
  apply to_LONG_small. unfold is_int. lia.
Qed.

(** C2.  [RapidFailsPerMinuteExceeded(limit)] first sets the failure count
    to 0 and the window start to the current tick count when the current
    tick count minus the window start (a subtraction of uint64_t, the plain
    difference when the start is not after the current tick count) is at
    least 60000, and then returns whether the count is greater than the
    limit.  So with [rapidFailsPerMinute = R], when R+1 failures have been
    recorded and the window has not elapsed, a [GetProcess] that reaches the
    creation of a worker (its slot is empty or holds a worker that is not
    ready) logs the event with R, fails with
    HRESULT_FROM_WIN32(ERROR_SERVER_DISABLED) and creates no worker; and when
    the window has elapsed such a [GetProcess] resets the count and the
    window, logs nothing and creates a worker. *)
Theorem rapid_fail_gate :
  (forall limit env this,
      RapidFailsPerMinuteExceeded limit env this
      = if 60000 <=? to_uint64 (GetTickCount64 env - m_rapidFailTickStart this)
        then (limit <? 0,
              set_m_rapidFailTickStart (GetTickCount64 env) (set_m_cRapidFailCount 0 this))
        else (limit <? m_cRapidFailCount this, this)) /\
  (forall now start,
      0 <= start <= now -> now < 2 ^ 64 -> to_uint64 (now - start) = now - start) /\
  (forall pConfig env before this i slot,
      let R := QueryRapidFailsPerMinute pConfig in
      0 <= R ->
      0 <= m_cRapidFailCount before ->
      m_cRapidFailCount before + (R + 1) < 2 ^ 31 ->
      this = Z.iter (R + 1) IncrementRapidFailCount before ->
      to_uint64 (GetTickCount64 env - m_rapidFailTickStart this) < 60000 ->
      table_ok this ->
      serverProcessListReady this = true ->
      isStopping this = false ->
      RouteToProcessIndex this = Some i ->
      slot_at this i = Some slot ->
      occupied_and_ready slot = false ->
      exists cs this',
        GetProcess pConfig env this
        = Some (HRESULT_FROM_WIN32 ERROR_SERVER_DISABLED, None, this') /\
        FAILED (HRESULT_FROM_WIN32 ERROR_SERVER_DISABLED) = true /\
        calls this' = calls this ++ cs ++ [CallEventLogInfo R] /\
        count is_CallMakeServerProcess cs = 0%nat /\
        slot_at this' i = Some None) /\
  (forall pConfig env this i slot,
      let R := QueryRapidFailsPerMinute pConfig in
      0 <= R < 2 ^ 31 ->
      60000 <= to_uint64 (GetTickCount64 env - m_rapidFailTickStart this) ->
      table_ok this ->
      serverProcessListReady this = true ->
      isStopping this = false ->
      RouteToProcessIndex this = Some i ->
      slot_at this i = Some slot ->
      occupied_and_ready slot = false ->
      exists hr out this',
        GetProcess pConfig env this = Some (hr, out, this') /\
        m_cRapidFailCount this' = 0 /\
        m_rapidFailTickStart this' = GetTickCount64 env /\
        count is_CallEventLogInfo (calls this') = count is_CallEventLogInfo (calls this) /\
        count is_CallMakeServerProcess (calls this')
        = S (count is_CallMakeServerProcess (calls this)) /\
        (FAILED (Initialize_result env) = false ->
         FAILED (StartProcess_result env) = false ->
         IsReady (started env) = true ->
         hr = S_OK /\ out = Some (started env) /\
         slot_at this' i = Some (Some (started env)))).
Proof.
  split; [exact RapidFailsPerMinuteExceeded_cases |]. split; [| split].
  - intros now start Horder Hnow. apply unsigned_small. lia.
  - intros pConfig env before this i slot R HR Hcount Hsum Hthis Hwindow
           Hok Hready Hrun Hindex Hslot Hnot.
    assert (Hrecorded : m_cRapidFailCount this = m_cRapidFailCount before + (R + 1)).
    { rewrite Hthis. apply count_after_failures; lia. }
    rewrite (GetProcess_at_gate pConfig env this i slot) by assumption.
    destruct (at_gate_evolves this i slot Hslot Hnot) as (cs & Hev & Hmake & _).
    destruct (at_gate_slot_empty this i slot Hslot Hnot) as (array & Harray & Hi & Hlook).
    assert (Hcnt : m_cRapidFailCount (at_gate this slot) = m_cRapidFailCount this).
    { unfold at_gate. destruct slot; reflexivity. }
    assert (Hstart : m_rapidFailTickStart (at_gate this slot) = m_rapidFailTickStart this).
    { unfold at_gate. destruct slot; reflexivity. }
    unfold create_in_empty_slot. rewrite RapidFailsPerMinuteExceeded_cases.
    rewrite Hstart, Hcnt.
    destruct (Z.leb_spec ONE_MINUTE_IN_MILLISECONDS
                (to_uint64 (GetTickCount64 env - m_rapidFailTickStart this)))
      as [Hge | _]; [unfold ONE_MINUTE_IN_MILLISECONDS in Hge; lia |].
    assert (Hexceeded : (to_LONG R <? m_cRapidFailCount this) = true).
    { apply Z.ltb_lt. rewrite to_LONG_small by (unfold is_int; lia). lia. }
    fold R. rewrite Hexceeded.
    exists cs. eexists. split; [reflexivity |]. split; [reflexivity |].
    destruct Hev as (_ & _ & _ & _ & _ & Hcalls & _).
    split; [cbn; rewrite Hcalls, <- app_assoc; reflexivity |].
    split; [exact Hmake |].
    rewrite (slot_at_lookup _ array) by (exact Harray || exact Hi). exact Hlook.
  - intros pConfig env this i slot R HR Hwindow Hok Hready Hrun Hindex Hslot Hnot.
    rewrite (GetProcess_at_gate pConfig env this i slot) by assumption.
    destruct (at_gate_evolves this i slot Hslot Hnot) as (cs & Hev & Hmake & Hlog).
    destruct (at_gate_slot_empty this i slot Hslot Hnot) as (array & Harray & Hi & Hlook).
    assert (Hstart : m_rapidFailTickStart (at_gate this slot) = m_rapidFailTickStart this).
    { unfold at_gate. destruct slot; reflexivity. }
    assert (Hrange : (Z.to_nat i < length array)%nat) by (eapply lookup_lt_Some; eauto).
    unfold create_in_empty_slot. rewrite RapidFailsPerMinuteExceeded_cases.
    rewrite Hstart.
    destruct (Z.leb_spec ONE_MINUTE_IN_MILLISECONDS
                (to_uint64 (GetTickCount64 env - m_rapidFailTickStart this)))
      as [_ | Hlt]; [| unfold ONE_MINUTE_IN_MILLISECONDS in Hlt; lia].
    assert (Hopen : (to_LONG R <? 0) = false).
    { apply Z.ltb_ge. rewrite to_LONG_small by (unfold is_int; lia). lia. }
    fold R. rewrite Hopen.
    destruct Hev as (_ & _ & _ & _ & _ & Hcalls & _).
    destruct (FAILED (Initialize_result env)) eqn:Hinit;
      [| destruct (FAILED (StartProcess_result env)) eqn:Hstartup;
         [| destruct (IsReady (started env)) eqn:Hup]];
      cbn [negb]; eexists; eexists; eexists; (split; [reflexivity |]);
      cbn; rewrite Hcalls; count_calls; rewrite ?Hmake, ?Hlog;
      repeat split; try lia; try discriminate.
    rewrite Harray. cbn [default].
    destruct (Z.ltb_spec i 0); [lia |]. apply list_lookup_insert_eq, Hrange.
Qed.

Lemma rapid_fail_gate_witness :
  table_ok first_dead_failing /\
  first_dead_failing = Z.iter (10 + 1) IncrementRapidFailCount first_dead /\
  to_uint64 (GetTickCount64 (all_well 10 5003) - m_rapidFailTickStart first_dead_failing)
  < 60000 /\
  60000 <= to_uint64 (GetTickCount64 (all_well 70000 5003)
                      - m_rapidFailTickStart first_dead_failing) /\
  (exists cs this',
      GetProcess config (all_well 10 5003) first_dead_failing
      = Some (HRESULT_FROM_WIN32 ERROR_SERVER_DISABLED, None, this') /\
      calls this' = calls first_dead_failing ++ cs ++ [CallEventLogInfo 10]) /\
  (exists this',
      GetProcess config (all_well 70000 5003) first_dead_failing
      = Some (S_OK, Some (worker 5003 true), this') /\
      m_cRapidFailCount this' = 0).
Proof.
  assert (Hiter : first_dead_failing = Z.iter (10 + 1) IncrementRapidFailCount first_dead)
    by reflexivity.
  assert (Hin : to_uint64 (GetTickCount64 (all_well 10 5003)
                           - m_rapidFailTickStart first_dead_failing) < 60000)
    by reflexivity.
  assert (Hout : 60000 <= to_uint64 (GetTickCount64 (all_well 70000 5003)
                                     - m_rapidFailTickStart first_dead_failing))
    by discriminate.
  destruct rapid_fail_gate as (_ & _ & Hclosed & Hopen).
  split; [exact (table_ok_first_dead 11) |]. split; [exact Hiter |].
  split; [exact Hin |]. split; [exact Hout |]. split.
  - assert (HR : 0 <= QueryRapidFailsPerMinute config) by discriminate.
    assert (Hcount : 0 <= m_cRapidFailCount first_dead) by discriminate.
    assert (Hsum : m_cRapidFailCount first_dead + (QueryRapidFailsPerMinute config + 1) < 2 ^ 31)
      by reflexivity.
    destruct (Hclosed config (all_well 10 5003) first_dead first_dead_failing 0
                (Some (worker 5000 false)) HR Hcount Hsum Hiter Hin (table_ok_first_dead 11)
                eq_refl eq_refl eq_refl eq_refl eq_refl)
      as (cs & this' & Hcall & _ & Hcalls & _).
    exists cs, this'. split; [exact Hcall | exact Hcalls].
  - assert (HR : 0 <= QueryRapidFailsPerMinute config < 2 ^ 31) by by_computation.
    destruct (Hopen config (all_well 70000 5003) first_dead_failing 0
                (Some (worker 5000 false)) HR Hout (table_ok_first_dead 11)
                eq_refl eq_refl eq_refl eq_refl eq_refl)
      as (hr & out & this' & Hcall & Hcount & _ & _ & _ & Hup).
    destruct (Hup eq_refl eq_refl eq_refl) as (-> & -> & _).
    exists this'. split; [exact Hcall | exact Hcount].
Defined.

(** * Further properties of the code *)

(** ** Reference counting *)

Lemma set_m_cRefs_twice a b this : set_m_cRefs a (set_m_cRefs b this) = set_m_cRefs a this.
Proof. reflexivity. Qed.

Lemma set_m_cRefs_same this : set_m_cRefs (m_cRefs this) this = this.
Proof. destruct this; reflexivity. Qed.

Lemma owners_held ops : forall this,
  0 < m_cRefs this ->
  m_cRefs this + Z.of_nat (length ops) < 2 ^ 31 ->
  all_held ops (m_cRefs this) = true ->
  owners ops this
  = if references ops (m_cRefs this) =? 0 then Deleted []
    else Alive (set_m_cRefs (references ops (m_cRefs this)) this).
Proof.
  induction ops as [| op ops IH]; intros this Hpos Hmax Hheld.
  - cbn. destruct (Z.eqb_spec (m_cRefs this) 0); [lia |].
    rewrite set_m_cRefs_same. reflexivity.
  - cbn [length] in Hmax. cbn [all_held] in Hheld. destruct op.
    + apply andb_true_iff in Hheld as [_ Hheld]. cbn [owners references].
      assert (Hrefs : m_cRefs (ReferenceProcessManager this) = m_cRefs this + 1).
      { cbn. apply to_LONG_small. unfold is_int. lia. }
      rewrite IH; rewrite ?Hrefs; try lia; [| exact Hheld].
      unfold ReferenceProcessManager. rewrite set_m_cRefs_twice. reflexivity.
    + apply andb_true_iff in Hheld as [_ Hheld]. cbn [owners references].
      assert (Hrefs : m_cRefs (DereferenceProcessManager this).1 = m_cRefs this - 1).
      { cbn. apply to_LONG_small. unfold is_int. lia. }
      assert (Hdel : (DereferenceProcessManager this).2 = (m_cRefs this - 1 =? 0)).
      { unfold DereferenceProcessManager. cbn [snd]. cbn [m_cRefs set_m_cRefs].
        rewrite to_LONG_small by (unfold is_int; lia). reflexivity. }
      rewrite Hdel. destruct (Z.eqb_spec (m_cRefs this - 1) 0) as [Hlast | Hmore].
      * destruct ops as [| op ops]; [cbn; rewrite Hlast; reflexivity |].
        exfalso. rewrite Hlast in Hheld. destruct op; discriminate.
      * rewrite IH; rewrite ?Hrefs; try lia; [| exact Hheld].
        unfold DereferenceProcessManager. cbn [fst]. rewrite set_m_cRefs_twice.
        reflexivity.
Qed.

Lemma owners_not_held ops : forall this,
  0 < m_cRefs this ->
  m_cRefs this + Z.of_nat (length ops) < 2 ^ 31 ->
  all_held ops (m_cRefs this) = false ->
  exists pending, pending <> [] /\ owners ops this = Deleted pending.
Proof.
  induction ops as [| op ops IH]; intros this Hpos Hmax Hheld; [discriminate |].
  cbn [length] in Hmax. cbn [all_held] in Hheld.
  assert (Hnow : (0 <? m_cRefs this) = true) by (apply Z.ltb_lt; exact Hpos).
  destruct op; rewrite Hnow in Hheld; cbn [andb] in Hheld; cbn [owners].
  - assert (Hrefs : m_cRefs (ReferenceProcessManager this) = m_cRefs this + 1).
    { cbn. apply to_LONG_small. unfold is_int. lia. }
    apply IH; rewrite ?Hrefs; try lia. exact Hheld.
  - assert (Hrefs : m_cRefs (DereferenceProcessManager this).1 = m_cRefs this - 1).
    { cbn. apply to_LONG_small. unfold is_int. lia. }
    assert (Hdel : (DereferenceProcessManager this).2 = (m_cRefs this - 1 =? 0)).
    { unfold DereferenceProcessManager. cbn [snd]. cbn [m_cRefs set_m_cRefs].
      rewrite to_LONG_small by (unfold is_int; lia). reflexivity. }
    rewrite Hdel. destruct (Z.eqb_spec (m_cRefs this - 1) 0) as [Hlast | Hmore].
    + exists ops. split; [| reflexivity].
      destruct ops; [rewrite Hlast in Hheld; discriminate | discriminate].
    + apply IH; rewrite ?Hrefs; try lia. exact Hheld.
Qed.

(** X1.  The manager is deleted by the [DereferenceProcessManager] that
    releases the last reference, and by no other.  From a positive count
    (the constructor leaves 1), and as long as the count does not overflow:
    when every operation is made while a reference is held, the manager is
    alive with the references acquired minus those released, or has just
    been deleted by the last operation when that number is 0; and when some
    operation is made with no reference held, the manager has been deleted
    with that operation still to come. *)
Theorem reference_count_governs_lifetime ops this :
  0 < m_cRefs this ->
  m_cRefs this + Z.of_nat (length ops) < 2 ^ 31 ->
  (all_held ops (m_cRefs this) = true ->
   owners ops this
   = if references ops (m_cRefs this) =? 0 then Deleted []
     else Alive (set_m_cRefs (references ops (m_cRefs this)) this)) /\
  (all_held ops (m_cRefs this) = false ->
   exists pending, pending <> [] /\ owners ops this = Deleted pending).
Proof.
  intros Hpos Hmax. split.
  - apply owners_held; assumption.
  - apply owners_not_held; assumption.
Qed.

Lemma reference_count_governs_lifetime_witness :
  owners [Acquire; Acquire; Release; Release] fresh = Alive fresh /\
  owners [Acquire; Release; Release] fresh = Deleted [] /\
  exists pending,
    pending <> [] /\ owners [Release; Acquire; Release] fresh = Deleted pending.
Proof.
  assert (Hpos : 0 < m_cRefs fresh) by reflexivity.
  split; [| split].
  - assert (Hmax : m_cRefs fresh + Z.of_nat (length [Acquire; Acquire; Release; Release])
                   < 2 ^ 31) by reflexivity.
    destruct (reference_count_governs_lifetime _ fresh Hpos Hmax) as (Hheld & _).
    exact (Hheld eq_refl).
  - assert (Hmax : m_cRefs fresh + Z.of_nat (length [Acquire; Release; Release])
                   < 2 ^ 31) by reflexivity.
    destruct (reference_count_governs_lifetime _ fresh Hpos Hmax) as (Hheld & _).
    exact (Hheld eq_refl).
  - assert (Hmax : m_cRefs fresh + Z.of_nat (length [Release; Acquire; Release])
                   < 2 ^ 31) by reflexivity.
    destruct (reference_count_governs_lifetime _ fresh Hpos Hmax) as (_ & Hlost).
    exact (Hlost eq_refl).
Defined.

(** ** Recording failures *)

Lemma recorded_failures (n : nat) this :
  is_int (m_cRapidFailCount this) ->
  Nat.iter n IncrementRapidFailCount this
  = set_m_cRapidFailCount (to_LONG (m_cRapidFailCount this + Z.of_nat n)) this.
Proof.
  intros Hint. induction n as [| n IH].
  - cbn [Nat.iter Z.of_nat]. rewrite Z.add_0_r, to_LONG_small by exact Hint.
    destruct this; reflexivity.
  - rewrite Nat.iter_succ, IH. unfold IncrementRapidFailCount. cbn.
    change to_LONG with to_int. rewrite to_int_succ.
    replace (m_cRapidFailCount this + Z.of_nat n + 1)
      with (m_cRapidFailCount this + Z.pos (Pos.of_succ_nat n)) by lia.
    reflexivity.
Qed.

Lemma failures_as_count n this :
  0 <= n ->
  is_int (m_cRapidFailCount this) ->
  Z.iter n IncrementRapidFailCount this
  = set_m_cRapidFailCount (to_LONG (m_cRapidFailCount this + n)) this.
Proof.
  intros Hn Hint. rewrite iter_nat_of_Z by exact Hn.
  change (nat_rect (fun _ => PROCESS_MANAGER) this (fun _ => IncrementRapidFailCount)
            (Z.abs_nat n))
    with (Nat.iter (Z.abs_nat n) IncrementRapidFailCount this).
  rewrite recorded_failures by exact Hint.
  rewrite Zabs2Nat.id_abs, Z.abs_eq by exact Hn. reflexivity.
Qed.

(** X2.  The rapid-fail limit is a strict threshold on the failures of the
    current window.  After [n] calls of [IncrementRapidFailCount] on a count
    of [c >= 0] (the count not overflowing), a
    [RapidFailsPerMinuteExceeded(limit)] made before 60000 ms have passed
    since the window start answers whether [c + n > limit], and changes
    nothing: [limit] failures are tolerated, the next one closes the gate. *)
Theorem rapid_fail_threshold limit env this n :
  0 <= n ->
  0 <= m_cRapidFailCount this ->
  m_cRapidFailCount this + n < 2 ^ 31 ->
  to_uint64 (GetTickCount64 env - m_rapidFailTickStart this) < 60000 ->
  let recorded := Z.iter n IncrementRapidFailCount this in
  m_cRapidFailCount recorded = m_cRapidFailCount this + n /\
  RapidFailsPerMinuteExceeded limit env recorded
  = (limit <? m_cRapidFailCount this + n, recorded).
Proof.
  intros Hn Hc Hsum Hwindow recorded. unfold recorded.
  rewrite failures_as_count by (assumption || unfold is_int; lia).
  rewrite to_LONG_small by (unfold is_int; lia).
  split; [reflexivity |].
  rewrite RapidFailsPerMinuteExceeded_cases. cbn [m_rapidFailTickStart set_m_cRapidFailCount].
  destruct (Z.leb_spec ONE_MINUTE_IN_MILLISECONDS
              (to_uint64 (GetTickCount64 env - m_rapidFailTickStart this)))
    as [Hge | _]; [unfold ONE_MINUTE_IN_MILLISECONDS in Hge; lia |].
  reflexivity.
Qed.

Lemma rapid_fail_threshold_witness :
  (RapidFailsPerMinuteExceeded 10 (all_well 59999 5000)
     (Z.iter 10 IncrementRapidFailCount first_dead)).1 = false /\
  (RapidFailsPerMinuteExceeded 10 (all_well 59999 5000)
     (Z.iter 11 IncrementRapidFailCount first_dead)).1 = true.
Proof.
  assert (Hc : 0 <= m_cRapidFailCount first_dead) by by_computation.
  assert (Hwindow : to_uint64 (GetTickCount64 (all_well 59999 5000)
                               - m_rapidFailTickStart first_dead) < 60000)
    by reflexivity.
  split.
  - assert (Hn : 0 <= 10) by by_computation.
    assert (Hsum : m_cRapidFailCount first_dead + 10 < 2 ^ 31) by reflexivity.
    destruct (rapid_fail_threshold 10 (all_well 59999 5000) first_dead 10 Hn Hc Hsum Hwindow)
      as (_ & ->). reflexivity.
  - assert (Hn : 0 <= 11) by by_computation.
    assert (Hsum : m_cRapidFailCount first_dead + 11 < 2 ^ 31) by reflexivity.
    destruct (rapid_fail_threshold 10 (all_well 59999 5000) first_dead 11 Hn Hc Hsum Hwindow)
      as (_ & ->). reflexivity.
Defined.

(** X3.  The window rolls forward only when it is queried.  A
    [RapidFailsPerMinuteExceeded(limit)] made 60000 ms or more after the
    window start forgets every failure recorded so far, however recently:
    whatever number of [IncrementRapidFailCount] came before it, it leaves
    the count at 0 and the window start at the current tick count, and it
    answers [false] for a limit that is not negative.  A second query on the
    same tick changes nothing more and gives the same answer. *)
Theorem rapid_fail_window_rolls_on_query limit env this n :
  0 <= n ->
  is_int (m_cRapidFailCount this) ->
  60000 <= to_uint64 (GetTickCount64 env - m_rapidFailTickStart this) ->
  let recorded := Z.iter n IncrementRapidFailCount this in
  let rolled :=
    set_m_rapidFailTickStart (GetTickCount64 env) (set_m_cRapidFailCount 0 this) in
  RapidFailsPerMinuteExceeded limit env recorded = (limit <? 0, rolled) /\
  RapidFailsPerMinuteExceeded limit env rolled = (limit <? 0, rolled) /\
  (0 <= limit -> (RapidFailsPerMinuteExceeded limit env recorded).1 = false).
Proof.
  intros Hn Hint Hwindow recorded rolled.
  assert (Hfirst : RapidFailsPerMinuteExceeded limit env recorded = (limit <? 0, rolled)).
  { unfold recorded. rewrite failures_as_count by assumption.
    rewrite RapidFailsPerMinuteExceeded_cases.
    cbn [m_rapidFailTickStart set_m_cRapidFailCount].
    destruct (Z.leb_spec ONE_MINUTE_IN_MILLISECONDS
                (to_uint64 (GetTickCount64 env - m_rapidFailTickStart this)))
      as [_ | Hlt]; [| unfold ONE_MINUTE_IN_MILLISECONDS in Hlt; lia].
    reflexivity. }
  split; [exact Hfirst |]. split.
  - rewrite RapidFailsPerMinuteExceeded_cases. unfold rolled.
    cbn [m_rapidFailTickStart set_m_rapidFailTickStart].
    rewrite Z.sub_diag. cbn. reflexivity.
  - intros Hlimit. rewrite Hfirst. cbn. apply Z.ltb_ge, Hlimit.
Qed.

Lemma rapid_fail_window_rolls_on_query_witness :
  RapidFailsPerMinuteExceeded 10 (all_well 60000 5000)
    (Z.iter 500 IncrementRapidFailCount first_dead)
  = (false, set_m_rapidFailTickStart 60000 first_dead).
Proof.
  assert (Hn : 0 <= 500) by by_computation.
  assert (Hint : is_int (m_cRapidFailCount first_dead)) by by_computation.
  assert (Hwindow : 60000 <= to_uint64 (GetTickCount64 (all_well 60000 5000)
                                        - m_rapidFailTickStart first_dead))
    by by_computation.
  destruct (rapid_fail_window_rolls_on_query 10 (all_well 60000 5000) first_dead 500
              Hn Hint Hwindow) as (Hfirst & _).
  exact Hfirst.
Defined.

(** ** More of [GetProcess] *)

Lemma AllocateServerProcessList_idempotent pConfig this :
  AllocateServerProcessList pConfig (AllocateServerProcessList pConfig this)
  = AllocateServerProcessList pConfig this.
Proof.
  apply AllocateServerProcessList_ready, serverProcessListReady_AllocateServerProcessList.
Qed.

Lemma isStopping_AllocateServerProcessList pConfig this :
  isStopping (AllocateServerProcessList pConfig this) = isStopping this.
Proof.
  unfold AllocateServerProcessList. destruct (serverProcessListReady this); reflexivity.
Qed.

(** A call on a manager that is not stopping is a call on the manager with
    its table allocated. *)
Lemma GetProcess_allocated pConfig env this :
  isStopping this = false ->
  GetProcess pConfig env this
  = GetProcess pConfig env (AllocateServerProcessList pConfig this).
Proof.
  intros Hrun. unfold GetProcess.
  rewrite isStopping_AllocateServerProcessList, Hrun, AllocateServerProcessList_idempotent.
  reflexivity.
Qed.

(** The outcome of the creation block on an empty slot. *)
Lemma create_in_empty_slot_outcome pConfig env i this :
  let result := create_in_empty_slot pConfig env i this in
  m_dwRouteToProcessIndex result.2 = m_dwRouteToProcessIndex this /\
  (m_cRapidFailCount result.2 = m_cRapidFailCount this \/ m_cRapidFailCount result.2 = 0) /\
  ((result.1.1 = S_OK /\ result.1.2 = Some (started env) /\ IsReady (started env) = true /\
    m_ppServerProcessList result.2
    = Some (<[Z.to_nat i := Some (started env)]> (slots this)) /\
    calls result.2 = calls this ++ [CallMakeServerProcess; CallInitialize; CallStartProcess])
   \/
   (FAILED result.1.1 = true /\ result.1.2 = None /\
    m_ppServerProcessList result.2 = m_ppServerProcessList this)).
Proof.
  unfold create_in_empty_slot. rewrite RapidFailsPerMinuteExceeded_cases.
  destruct (_ <=? _); cbn [fst snd];
    (destruct (_ <? _); cbn [fst snd];
     [split; [reflexivity |]; split; [auto |]; right; auto |]);
    (destruct (FAILED (Initialize_result env)) eqn:Hinit;
     [split; [reflexivity |]; split; [auto |]; right; auto |]);
    (destruct (FAILED (StartProcess_result env)) eqn:Hstart;
     [split; [reflexivity |]; split; [auto |]; right; auto |]);
    (destruct (IsReady (started env)) eqn:Hup; cbn [negb fst snd];
     [| split; [reflexivity |]; split; [auto |]; right; auto]);
    (split; [reflexivity |]; split; [auto |]; left);
    repeat split; cbn; rewrite <- app_assoc; reflexivity.
Qed.

(** Every call of [GetProcess] that returns, on a manager that is not
    stopping, took the fast path or the creation block. *)
Lemma GetProcess_paths pConfig env this result :
  table_ok this -> isStopping this = false ->
  GetProcess pConfig env this = Some result ->
  let allocated := AllocateServerProcessList pConfig this in
  exists i slot,
    RouteToProcessIndex allocated = Some i /\
    slot_at allocated i = Some slot /\
    result = if occupied_and_ready slot
             then (S_OK, slot, fetch_add_m_dwRouteToProcessIndex allocated)
             else create_in_empty_slot pConfig env i (at_gate allocated slot).
Proof.
  intros Hok Hrun. rewrite GetProcess_running_eq by assumption. unfold GetProcess_running.
  cbn zeta. set (allocated := AllocateServerProcessList pConfig this).
  destruct (RouteToProcessIndex allocated) as [i |]; [| discriminate]. cbn [mbind option_bind].
  change (slot_at (fetch_add_m_dwRouteToProcessIndex allocated) i) with (slot_at allocated i).
  destruct (slot_at allocated i) as [slot |] eqn:Hslot; [| discriminate].
  cbn [mbind option_bind].
  intros Hresult. exists i, slot. split; [reflexivity |]. split; [exact Hslot |].
  destruct (occupied_and_ready slot); [congruence |].
  unfold at_gate. destruct slot; congruence.
Qed.

(** X4.  The fast path.  When the slot that the cursor selects holds a
    worker that reports ready, [GetProcess] returns S_OK and that worker and
    only moves the cursor: it calls no collaborator, creates nothing, and
    consults neither the configuration nor the clock (the rapid-fail window
    is not touched, whatever its state). *)
Theorem GetProcess_returns_ready_worker pConfig env this i p :
  table_ok this ->
  serverProcessListReady this = true ->
  isStopping this = false ->
  RouteToProcessIndex this = Some i ->
  slot_at this i = Some (Some p) ->
  IsReady p = true ->
  GetProcess pConfig env this
  = Some (S_OK, Some p,
          set_m_dwRouteToProcessIndex (to_int (m_dwRouteToProcessIndex this + 1)) this).
Proof.
  intros Hok Hready Hrun Hindex Hslot Hp.
  rewrite GetProcess_running_eq by assumption. unfold GetProcess_running.
  rewrite AllocateServerProcessList_ready by exact Hready.
  rewrite Hindex. cbn [mbind option_bind].
  change (slot_at (fetch_add_m_dwRouteToProcessIndex this) i) with (slot_at this i).
  rewrite Hslot. cbn [mbind option_bind occupied_and_ready]. rewrite Hp. reflexivity.
Qed.

Lemma GetProcess_returns_ready_worker_witness :
  table_ok one_ready /\
  GetProcess config no_winsock (set_m_dwRouteToProcessIndex 3 (Z.iter 50 IncrementRapidFailCount one_ready))
  = Some (S_OK, Some (worker 5000 true),
          set_m_dwRouteToProcessIndex 4 (Z.iter 50 IncrementRapidFailCount one_ready)).
Proof.
  assert (Hok : table_ok one_ready) by (split; [by_computation | reflexivity]).
  split; [exact Hok |].
  exact (GetProcess_returns_ready_worker config no_winsock
           (set_m_dwRouteToProcessIndex 3 (Z.iter 50 IncrementRapidFailCount one_ready))
           0 (worker 5000 true) Hok eq_refl eq_refl eq_refl eq_refl eq_refl).
Defined.

(** X5.  What [GetProcess] returns.  On a table of
    [m_dwProcessesPerApplication] slots every call that returns gives either
    S_OK with a worker that reports ready and occupies, in the manager after
    the call, the slot that the cursor selected, or a failure code and no
    worker. *)
Theorem GetProcess_returns_ready_or_fails pConfig env this hr out this' :
  table_ok this ->
  GetProcess pConfig env this = Some (hr, out, this') ->
  (hr = S_OK /\
   exists i p,
     out = Some p /\ IsReady p = true /\
     RouteToProcessIndex (AllocateServerProcessList pConfig this) = Some i /\
     slot_at this' i = Some (Some p)) \/
  (FAILED hr = true /\ out = None).
Proof.
  intros Hok Hcall. destruct (isStopping this) eqn:Hrun.
  { rewrite GetProcess_stopping in Hcall by exact Hrun. injection Hcall as <- <- <-.
    right. split; reflexivity. }
  destruct (GetProcess_paths _ _ _ _ Hok Hrun Hcall) as (i & slot & Hindex & Hslot & Hresult).
  pose proof (table_ok_AllocateServerProcessList pConfig this Hok) as Hoka.
  set (allocated := AllocateServerProcessList pConfig this) in *.
  destruct (slot_at_inv _ _ _ Hslot) as (array & Harray & Hi & Hlook).
  destruct (occupied_and_ready slot) eqn:Hready.
  - injection Hresult as -> -> ->. left. split; [reflexivity |].
    destruct slot as [p |]; [| discriminate]. exists i, p. auto.
  - assert (Hgate : exists array', m_ppServerProcessList (at_gate allocated slot) = Some array' /\
                                  length array' = length array).
    { unfold at_gate. destruct slot as [p |].
      - unfold stop_not_ready, slots. cbn. rewrite Harray. cbn. eexists.
        split; [reflexivity | apply length_fmap].
      - exists array. auto. }
    destruct Hgate as (array' & Harray' & Hlen).
    pose proof (create_in_empty_slot_outcome pConfig env i (at_gate allocated slot))
      as (_ & _ & [Hdone | Hfail]).
    + destruct Hdone as (Hhr & Hout & Hup & Hlist & _).
      rewrite <- Hresult in *. cbn [fst snd] in *. left. split; [exact Hhr |].
      exists i, (started env). split; [exact Hout |]. split; [exact Hup |].
      split; [exact Hindex |].
      rewrite (slot_at_lookup _ _ i Hlist Hi). unfold slots. rewrite Harray'. cbn.
      apply list_lookup_insert_eq. apply lookup_lt_Some in Hlook. lia.
    + destruct Hfail as (Hhr & Hout & _). rewrite <- Hresult in *. cbn [fst snd] in *.
      right. auto.
Qed.

Lemma GetProcess_returns_ready_or_fails_witness :
  table_ok first_dead_failing /\
  GetProcess config (all_well 10 5003) first_dead_failing
  = Some (HRESULT_FROM_WIN32 ERROR_SERVER_DISABLED, None, first_dead_refused) /\
  FAILED (HRESULT_FROM_WIN32 ERROR_SERVER_DISABLED) = true.
Proof.
  assert (Hcall : GetProcess config (all_well 10 5003) first_dead_failing
                  = Some (HRESULT_FROM_WIN32 ERROR_SERVER_DISABLED, None, first_dead_refused))
    by reflexivity.
  split; [exact (table_ok_first_dead 11) |]. split; [exact Hcall |].
  destruct (GetProcess_returns_ready_or_fails _ _ _ _ _ _ (table_ok_first_dead 11) Hcall)
    as [(Hok & _) | (Hfailed & _)]; [discriminate Hok | exact Hfailed].
Defined.

(** A call that is not refused for stopping moves the cursor by one; and
    where, as in this embedding, the worker's [Initialize] and
    [StartProcess] do not act on the manager that they are handed, the
    rapid-fail count after the call is the count before it, or 0. *)
Lemma GetProcess_cursor_and_count pConfig env this hr out this' :
  table_ok this ->
  isStopping this = false ->
  GetProcess pConfig env this = Some (hr, out, this') ->
  m_dwRouteToProcessIndex this' = to_int (m_dwRouteToProcessIndex this + 1) /\
  (m_cRapidFailCount this' = m_cRapidFailCount this \/ m_cRapidFailCount this' = 0).
Proof.
  intros Hok Hrun Hcall. set (allocated := AllocateServerProcessList pConfig this).
  destruct (GetProcess_paths _ _ _ _ Hok Hrun Hcall) as (i & slot & _ & _ & Hresult).
  fold allocated in Hresult.
  assert (Hcursor : m_dwRouteToProcessIndex allocated = m_dwRouteToProcessIndex this).
  { unfold allocated, AllocateServerProcessList.
    destruct (serverProcessListReady this); reflexivity. }
  assert (Hcount : m_cRapidFailCount allocated = m_cRapidFailCount this).
  { unfold allocated, AllocateServerProcessList.
    destruct (serverProcessListReady this); reflexivity. }
  assert (Hgate : m_dwRouteToProcessIndex (at_gate allocated slot)
                  = to_int (m_dwRouteToProcessIndex this + 1) /\
                  m_cRapidFailCount (at_gate allocated slot) = m_cRapidFailCount this).
  { rewrite <- Hcursor, <- Hcount. unfold at_gate. destruct slot; split; reflexivity. }
  destruct Hgate as (Hgc & Hgn).
  destruct (occupied_and_ready slot) eqn:Hready.
  - injection Hresult as -> -> ->. cbn. rewrite Hcursor, Hcount. auto.
  - pose proof (create_in_empty_slot_outcome pConfig env i (at_gate allocated slot))
      as (Hc & Hn & _).
    rewrite <- Hresult in *. cbn [fst snd] in *.
    rewrite Hgc in Hc. rewrite Hgn in Hn. auto.
Qed.

(** X6.  What [GetProcess] leaves alone.  A call that is not refused for
    stopping moves the cursor by exactly one (wrapping as an [int]) whether
    it succeeds or fails, so the next call tries the next slot; it keeps the
    length of the table; and when it fails on a slot that was empty it
    leaves every slot as it was. *)
Theorem GetProcess_moves_cursor_only_forward pConfig env this hr out this' :
  table_ok this ->
  isStopping this = false ->
  GetProcess pConfig env this = Some (hr, out, this') ->
  let allocated := AllocateServerProcessList pConfig this in
  m_dwRouteToProcessIndex this' = to_int (m_dwRouteToProcessIndex this + 1) /\
  length (slots this') = length (slots allocated) /\
  (forall i,
      RouteToProcessIndex allocated = Some i ->
      slot_at allocated i = Some None ->
      FAILED hr = true ->
      slots this' = slots allocated).
Proof.
  intros Hok Hrun Hcall allocated.
  destruct (GetProcess_cursor_and_count _ _ _ _ _ _ Hok Hrun Hcall) as (Hcursor & _).
  split; [exact Hcursor |].
  destruct (GetProcess_evolves _ _ _ _ _ _ Hok Hrun Hcall) as (cs & Hev & _).
  split; [exact (evolves_slots_length _ _ _ Hev) |].
  intros j Hj Hempty Hfailed.
  destruct (GetProcess_paths _ _ _ _ Hok Hrun Hcall) as (i & slot & Hindex & Hslot & Hresult).
  fold allocated in Hindex, Hslot, Hresult.
  rewrite Hindex in Hj. injection Hj as <-.
  rewrite Hslot in Hempty. injection Hempty as ->. cbn [occupied_and_ready] in Hresult.
  pose proof (create_in_empty_slot_outcome pConfig env i (at_gate allocated None))
    as (_ & _ & Hcases).
  rewrite <- Hresult in Hcases. cbn [fst snd] in Hcases.
  destruct Hcases as [(Hhr & _) | (_ & _ & Hlist)].
  - rewrite Hhr in Hfailed. discriminate.
  - unfold slots. rewrite Hlist. reflexivity.
Qed.

(** The creation block, on an empty slot with the gate open and a worker
    that comes up ready. *)
Lemma create_on_empty_slot pConfig env this i :
  table_ok this ->
  isStopping this = false ->
  let allocated := AllocateServerProcessList pConfig this in
  RouteToProcessIndex allocated = Some i ->
  slot_at allocated i = Some None ->
  (RapidFailsPerMinuteExceeded (to_LONG (QueryRapidFailsPerMinute pConfig)) env
     (fetch_add_m_dwRouteToProcessIndex allocated)).1 = false ->
  FAILED (Initialize_result env) = false ->
  FAILED (StartProcess_result env) = false ->
  IsReady (started env) = true ->
  exists this',
    GetProcess pConfig env this = Some (S_OK, Some (started env), this') /\
    slots this' = <[Z.to_nat i := Some (started env)]> (slots allocated) /\
    calls this'
    = calls allocated ++ [CallMakeServerProcess; CallInitialize; CallStartProcess].
Proof.
  intros Hok Hrun allocated Hindex Hslot Hgate Hinit Hstart Hup.
  rewrite GetProcess_allocated by exact Hrun. fold allocated.
  pose proof (table_ok_AllocateServerProcessList pConfig this Hok) as Hoka.
  pose proof (serverProcessListReady_AllocateServerProcessList pConfig this) as Hready.
  pose proof (isStopping_AllocateServerProcessList pConfig this) as Hruna.
  rewrite Hrun in Hruna. fold allocated in Hoka, Hready, Hruna.
  rewrite (GetProcess_at_gate pConfig env allocated i None Hoka Hready Hruna Hindex Hslot
             eq_refl).
  unfold at_gate, create_in_empty_slot.
  pose proof (RapidFailsPerMinuteExceeded_frame
                (to_LONG (QueryRapidFailsPerMinute pConfig)) env
                (fetch_add_m_dwRouteToProcessIndex allocated)) as Hframe.
  destruct (RapidFailsPerMinuteExceeded _ env (fetch_add_m_dwRouteToProcessIndex allocated))
    as [exceeded d].
  cbn in Hframe, Hgate. destruct Hframe as (Hd & _ & _ & _ & _ & _ & Hcalls).
  subst exceeded. rewrite Hinit, Hstart, Hup. cbn [negb].
  eexists. split; [reflexivity |]. unfold slots. cbn. rewrite Hd, Hcalls, <- app_assoc.
  split; reflexivity.
Qed.

(** X7.  Workers are started on first use.  When the slot that the cursor
    selects is empty (as every slot is on the first call, which allocates the
    table), the rapid-fail gate is open, and [Initialize] and [StartProcess]
    of the new worker succeed and it reports ready, [GetProcess] returns it
    with S_OK after exactly one [make_unique], [Initialize] and
    [StartProcess], stores it in that slot and leaves every other slot as it
    was. *)
Theorem GetProcess_starts_worker_on_first_use pConfig env this i :
  table_ok this ->
  isStopping this = false ->
  let allocated := AllocateServerProcessList pConfig this in
  RouteToProcessIndex allocated = Some i ->
  slot_at allocated i = Some None ->
  (RapidFailsPerMinuteExceeded (to_LONG (QueryRapidFailsPerMinute pConfig)) env
     (fetch_add_m_dwRouteToProcessIndex allocated)).1 = false ->
  FAILED (Initialize_result env) = false ->
  FAILED (StartProcess_result env) = false ->
  IsReady (started env) = true ->
  exists this',
    GetProcess pConfig env this = Some (S_OK, Some (started env), this') /\
    slots this' = <[Z.to_nat i := Some (started env)]> (slots allocated) /\
    slot_at this' i = Some (Some (started env)) /\
    (forall j, j <> Z.to_nat i -> slots this' !! j = slots allocated !! j) /\
    calls this'
    = calls allocated ++ [CallMakeServerProcess; CallInitialize; CallStartProcess].
Proof.
  intros Hok Hrun allocated Hindex Hslot Hgate Hinit Hstart Hup.
  destruct (create_on_empty_slot pConfig env this i Hok Hrun Hindex Hslot Hgate Hinit Hstart Hup)
    as (this' & Hcall & Hslots & Hcalls).
  fold allocated in Hslots, Hcalls.
  destruct (slot_at_inv _ _ _ Hslot) as (array & Harray & Hi & Hlook).
  exists this'. split; [exact Hcall |]. split; [exact Hslots |]. split; [| split].
  - unfold slot_at. unfold slots in Hslots.
    destruct (m_ppServerProcessList this') as [array' |] eqn:Harray'; cbn in Hslots.
    + cbn. destruct (Z.ltb_spec i 0); [lia |]. rewrite Hslots.
      apply list_lookup_insert_eq. rewrite Harray. cbn. eapply lookup_lt_Some, Hlook.
    + exfalso. rewrite Harray in Hslots. cbn in Hslots.
      apply lookup_lt_Some in Hlook. apply (f_equal length) in Hslots.
      rewrite length_insert in Hslots. cbn in Hslots. lia.
  - intros j Hj. rewrite Hslots. apply list_lookup_insert_ne. congruence.
  - exact Hcalls.
Qed.

Lemma GetProcess_starts_worker_on_first_use_witness :
  table_ok fresh /\
  exists this',
    GetProcess config (all_well 5 5000) fresh = Some (S_OK, Some (worker 5000 true), this') /\
    slots this' = [Some (worker 5000 true); None; None] /\
    calls this'
    = [CallNewArray 3; CallMakeServerProcess; CallInitialize; CallStartProcess].
Proof.
  assert (Hok : table_ok fresh) by (split; [by_computation | reflexivity]).
  split; [exact Hok |].
  destruct (GetProcess_starts_worker_on_first_use config (all_well 5 5000) fresh 0 Hok
              eq_refl eq_refl eq_refl eq_refl eq_refl eq_refl eq_refl)
    as (this' & Hcall & Hslots & _ & _ & Hcalls).
  exists this'. split; [exact Hcall |]. split; [exact Hslots | exact Hcalls].
Defined.

Lemma GetProcess_moves_cursor_only_forward_witness :
  table_ok first_dead_failing /\
  m_dwRouteToProcessIndex first_dead_refused = m_dwRouteToProcessIndex first_dead_failing + 1 /\
  length (slots first_dead_refused) = length (slots first_dead_failing).
Proof.
  assert (Hcall : GetProcess config (all_well 10 5003) first_dead_failing
                  = Some (HRESULT_FROM_WIN32 ERROR_SERVER_DISABLED, None, first_dead_refused))
    by reflexivity.
  destruct (GetProcess_moves_cursor_only_forward _ _ _ _ _ _ (table_ok_first_dead 11)
              eq_refl Hcall) as (Hcursor & Hlength & _).
  split; [exact (table_ok_first_dead 11) |]. split; [exact Hcursor | exact Hlength].
Defined.

(** ** The walks again *)

Lemma walk_result selected operation this :
  table_ok this ->
  exists after,
    for_DWORD (Z.to_nat (m_dwProcessesPerApplication this)) 0
      (walk_body selected operation) this = Some after /\
    table_ok after /\
    isStopping after = isStopping this /\
    serverProcessListReady after = serverProcessListReady this /\
    m_dwProcessesPerApplication after = m_dwProcessesPerApplication this /\
    slots after = cleared selected <$> slots this.
Proof.
  intros Hok. rewrite walk_table_ok by exact Hok. eexists. split; [reflexivity |].
  unfold slots. destruct (m_ppServerProcessList this) as [array |] eqn:Harray.
  - split; [apply table_ok_walked; assumption |]. cbn. auto.
  - rewrite Harray. cbn. auto.
Qed.

Lemma walk_nothing_selected selected operation this :
  table_ok this ->
  (forall p, Some p ∈ slots this -> selected p = false) ->
  for_DWORD (Z.to_nat (m_dwProcessesPerApplication this)) 0
    (walk_body selected operation) this = Some this.
Proof.
  intros Hok Hnone. rewrite walk_table_ok by exact Hok. unfold slots in Hnone.
  destruct (m_ppServerProcessList this) as [array |] eqn:Harray; [| reflexivity].
  f_equal. apply walked_no_match; assumption.
Qed.

Lemma cleared_not_selected selected (array : list Slot) p :
  Some p ∈ cleared selected <$> array -> selected p = false.
Proof.
  intros Hin. apply list_elem_of_fmap in Hin as (slot & Heq & _).
  destruct slot as [q |]; cbn in Heq; [| discriminate].
  destruct (selected q) eqn:Hsel; [discriminate |]. congruence.
Qed.

Lemma cleared_all_empty (array : list Slot) p :
  Some p ∈ cleared any_worker <$> array -> False.
Proof. intros Hin. apply cleared_not_selected in Hin. discriminate. Qed.

(** X8.  The shutdown walks are idempotent.  On a table of
    [m_dwProcessesPerApplication] slots, a second [ShutdownProcess] of the
    same worker changes nothing and calls no collaborator, and after a
    [SendShutdownSignal] (or a [ShutdownAllProcesses]) each of
    [SendShutdownSignal], [ShutdownAllProcesses] and [ShutdownProcess] of
    any worker changes nothing and calls no collaborator: a slot that is
    already empty is passed over. *)
Theorem shutdown_walks_idempotent this :
  table_ok this ->
  (exists after,
      SendShutdownSignal this = Some after /\
      ShutdownAllProcesses this = Some after /\
      SendShutdownSignal after = Some after /\
      ShutdownAllProcesses after = Some after /\
      forall p, ShutdownProcess p after = Some after) /\
  (forall p, exists after,
      ShutdownProcess p this = Some after /\
      ShutdownProcess p after = Some after).
Proof.
  intros Hok. split.
  - destruct (walk_result any_worker CallSendSignal this Hok)
      as (after & Hwalk & Hoka & _ & _ & _ & Hslots).
    exists after. unfold ShutdownAllProcesses, ShutdownProcess.
    rewrite SendShutdownSignal_walk, ShutdownAllProcessesNoLock_walk, Hwalk.
    split; [reflexivity |]. split; [reflexivity |].
    assert (Hempty : forall selected p, Some p ∈ slots after -> selected p = false).
    { intros selected p Hin. rewrite Hslots in Hin. destruct (cleared_all_empty _ _ Hin). }
    split; [| split].
    + rewrite SendShutdownSignal_walk. apply walk_nothing_selected; auto.
    + rewrite ShutdownAllProcessesNoLock_walk. apply walk_nothing_selected; auto.
    + intros p. rewrite ShutdownProcessNoLock_walk. apply walk_nothing_selected; auto.
  - intros p.
    destruct (walk_result (same_port p) CallStopProcess this Hok)
      as (after & Hwalk & Hoka & _ & _ & _ & Hslots).
    exists after. unfold ShutdownProcess. rewrite !ShutdownProcessNoLock_walk, Hwalk.
    split; [reflexivity |]. apply walk_nothing_selected; [exact Hoka |].
    intros q Hin. rewrite Hslots in Hin. eapply cleared_not_selected, Hin.
Qed.

Lemma shutdown_walks_idempotent_witness :
  table_ok three_ready /\
  SendShutdownSignal three_signalled = Some three_signalled /\
  exists after,
    ShutdownProcess (worker 5001 true) three_ready = Some after /\
    ShutdownProcess (worker 5001 true) after = Some after.
Proof.
  destruct (shutdown_walks_idempotent three_ready table_ok_three_ready) as (Hall & Hone).
  split; [exact table_ok_three_ready |]. split.
  - destruct Hall as (after & Hfirst & _ & Hagain & _).
    assert (Hafter : after = three_signalled).
    { assert (Hcomputed : SendShutdownSignal three_ready = Some three_signalled) by reflexivity.
      rewrite Hcomputed in Hfirst. injection Hfirst as <-. reflexivity. }
    rewrite Hafter in Hagain. exact Hagain.
  - exact (Hone (worker 5001 true)).
Defined.

(** X9.  Emptying the pool does not disable it.  [SendShutdownSignal],
    [ShutdownAllProcesses] and [ShutdownProcess] leave [isStopping] as it
    was (only [Shutdown] sets it); so on a manager that is not stopping, the
    [GetProcess] that follows a [ShutdownAllProcesses] finds its slot empty
    and, the rapid-fail gate being open and the new worker coming up ready,
    starts a new worker in it and returns it with S_OK. *)
Theorem pool_restarts_after_ShutdownAllProcesses pConfig env this :
  table_ok this ->
  serverProcessListReady this = true ->
  0 < m_dwProcessesPerApplication this <= 2 ^ 31 ->
  exists emptied i,
    ShutdownAllProcesses this = Some emptied /\
    SendShutdownSignal this = Some emptied /\
    isStopping emptied = isStopping this /\
    (forall p after, ShutdownProcess p this = Some after ->
                     isStopping after = isStopping this) /\
    all_empty emptied /\
    RouteToProcessIndex emptied = Some i /\
    (isStopping this = false ->
     (RapidFailsPerMinuteExceeded (to_LONG (QueryRapidFailsPerMinute pConfig)) env
        (fetch_add_m_dwRouteToProcessIndex emptied)).1 = false ->
     FAILED (Initialize_result env) = false ->
     FAILED (StartProcess_result env) = false ->
     IsReady (started env) = true ->
     exists this',
       GetProcess pConfig env emptied = Some (S_OK, Some (started env), this') /\
       slots this' = <[Z.to_nat i := Some (started env)]> (slots emptied)).
Proof.
  intros Hok Hready HK.
  destruct (walk_result any_worker CallSendSignal this Hok)
    as (emptied & Hwalk & Hoke & Hstop & Hreadye & HKe & Hslots).
  assert (HK' : 0 < m_dwProcessesPerApplication emptied <= 2 ^ 31) by (rewrite HKe; exact HK).
  destruct (RouteToProcessIndex_range emptied HK') as (i & Hindex & Hrange & _).
  rewrite Hready in Hreadye.
  destruct (slot_at_in_range emptied i Hoke Hreadye Hrange) as (slot & Hslot & Hlook).
  assert (Hnone : slot = None).
  { rewrite Hslots, list_lookup_fmap in Hlook.
    destruct (slots this !! Z.to_nat i) as [[p |] |]; cbn in Hlook; congruence. }
  subst slot.
  exists emptied, i. unfold ShutdownAllProcesses.
  rewrite SendShutdownSignal_walk, ShutdownAllProcessesNoLock_walk, Hwalk.
  split; [reflexivity |]. split; [reflexivity |]. split; [exact Hstop |]. split; [| split; [| split]].
  - intros p after. unfold ShutdownProcess. rewrite ShutdownProcessNoLock_walk.
    destruct (walk_result (same_port p) CallStopProcess this Hok) as (after' & -> & _ & Hs & _).
    intros [= <-]. exact Hs.
  - unfold all_empty. rewrite Hslots. apply all_cleared.
  - exact Hindex.
  - intros Hrun Hgate Hinit Hstart Hup. rewrite <- Hstop in Hrun.
    pose proof (AllocateServerProcessList_ready pConfig emptied Hreadye) as Halloc.
    destruct (create_on_empty_slot pConfig env emptied i Hoke Hrun) as (this' & Hcall & Hs & _);
      rewrite ?Halloc; try assumption.
    exists this'. rewrite Halloc in Hs. auto.
Qed.

Lemma pool_restarts_after_ShutdownAllProcesses_witness :
  table_ok three_ready /\
  exists this',
    GetProcess config (all_well 5 6000) three_signalled
    = Some (S_OK, Some (worker 6000 true), this') /\
    slots this' = [Some (worker 6000 true); None; None].
Proof.
  assert (HK : 0 < m_dwProcessesPerApplication three_ready <= 2 ^ 31) by by_computation.
  split; [exact table_ok_three_ready |].
  destruct (pool_restarts_after_ShutdownAllProcesses config (all_well 5 6000) three_ready
              table_ok_three_ready eq_refl HK)
    as (emptied & i & Hall & _ & _ & _ & _ & Hindex & Hrestart).
  assert (Hemptied : emptied = three_signalled).
  { assert (Hcomputed : ShutdownAllProcesses three_ready = Some three_signalled) by reflexivity.
    rewrite Hcomputed in Hall. injection Hall as <-. reflexivity. }
  subst emptied.
  assert (Hi : i = 0).
  { assert (Hcomputed : RouteToProcessIndex three_signalled = Some 0) by reflexivity.
    rewrite Hcomputed in Hindex. injection Hindex as <-. reflexivity. }
  subst i.
  destruct (Hrestart eq_refl eq_refl eq_refl eq_refl eq_refl) as (this' & Hcall & Hslots).
  exists this'. split; [exact Hcall | exact Hslots].
Defined.

(** ** More of [Initialize] *)

(** X10.  After an [Initialize()] that got past the Winsock startup, every
    further [Initialize()] returns S_OK, calls no collaborator and changes
    only the start of the rapid-fail window.  This is so also when the first
    call failed to open the discard sink: the failure is reported once, the
    open is not retried, and [QueryNULHandle()] keeps answering
    INVALID_HANDLE_VALUE. *)
Theorem Initialize_again env env' this :
  isWSAStartupDone this = true \/ WSAStartup env = 0 ->
  let first := Initialize env this in
  Initialize env' first.2
  = (S_OK, set_m_rapidFailTickStart (GetTickCount64 env') first.2) /\
  (forall lastError,
      m_hNULHandle this = nullptr ->
      CreateFileW env = OpenFailed lastError ->
      QueryNULHandle first.2 = INVALID_HANDLE_VALUE /\
      QueryNULHandle (Initialize env' first.2).2 = INVALID_HANDLE_VALUE).
Proof.
  intros Hpast first.
  assert (Hcond : negb (isWSAStartupDone this) && negb (WSAStartup env =? 0) = false).
  { destruct Hpast as [-> | ->]; [reflexivity |]. cbn. apply andb_false_r. }
  assert (Hfirst : isWSAStartupDone first.2 = true /\ m_hNULHandle first.2 <> nullptr).
  { unfold first. rewrite Initialize_cases, Hcond.
    destruct Hpast as [Hdone | Hzero].
    - rewrite Hdone. destruct (m_hNULHandle this) eqn:Hh; cbn; rewrite ?Hh, ?Hdone;
        (split; [reflexivity |]); try discriminate.
      destruct (CreateFileW env); discriminate.
    - destruct (isWSAStartupDone this) eqn:Hdone;
        destruct (m_hNULHandle this) eqn:Hh; cbn; rewrite ?Hh, ?Hdone;
        (split; [reflexivity |]); try discriminate;
        destruct (CreateFileW env); discriminate. }
  destruct Hfirst as (Hdone & Hhandle).
  assert (Hsecond : Initialize env' first.2
                    = (S_OK, set_m_rapidFailTickStart (GetTickCount64 env') first.2)).
  { rewrite Initialize_cases, Hdone. cbn [negb andb].
    destruct (m_hNULHandle first.2); [contradiction | reflexivity | reflexivity]. }
  split; [exact Hsecond |].
  intros lastError Hnull Hfail. rewrite Hsecond. cbn [snd].
  unfold QueryNULHandle. cbn [m_hNULHandle set_m_rapidFailTickStart].
  assert (Hinvalid : m_hNULHandle first.2 = INVALID_HANDLE_VALUE).
  { unfold first. rewrite Initialize_cases, Hcond, Hnull, Hfail. reflexivity. }
  auto.
Qed.

Lemma Initialize_again_witness :
  FAILED (Initialize no_sink fresh).1 = true /\
  Initialize (all_well 9 5000) (Initialize no_sink fresh).2
  = (S_OK, set_m_rapidFailTickStart 9 (Initialize no_sink fresh).2) /\
  QueryNULHandle (Initialize (all_well 9 5000) (Initialize no_sink fresh).2).2
  = INVALID_HANDLE_VALUE.
Proof.
  assert (Hpast : isWSAStartupDone fresh = true \/ WSAStartup no_sink = 0)
    by (right; reflexivity).
  destruct (Initialize_again no_sink (all_well 9 5000) fresh Hpast) as (Hagain & Hsink).
  destruct (Hsink 5 eq_refl eq_refl) as (_ & Hhandle).
  split; [reflexivity |]. split; [exact Hagain | exact Hhandle].
Defined.

(** ** The calls of the member functions *)

Section Trace.

Variable P : list Call -> Prop.

Hypothesis P_nil : P [].
Hypothesis P_app : forall cs cs', P cs -> P cs' -> P (cs ++ cs').
Hypothesis P_new : forall n, P [CallNewArray n].
Hypothesis P_stop : forall p, P [CallStopProcess p; CallDereferenceServerProcess p].
Hypothesis P_signal : forall p, P [CallSendSignal p; CallDereferenceServerProcess p].
Hypothesis P_log : forall n, P [CallEventLogInfo n].
Hypothesis P_attempt : P [CallMakeServerProcess; CallInitialize].
Hypothesis P_start : P [CallStartProcess].

Lemma trace_calls_for selected operation (array : list Slot) :
  (forall p, P [operation p; CallDereferenceServerProcess p]) ->
  P (array ≫= calls_for selected operation).
Proof.
  intros Hop. induction array as [| slot array IH]; [exact P_nil |].
  rewrite bind_cons. apply P_app; [| exact IH].
  destruct slot as [p |]; cbn; [destruct (selected p) |]; auto.
Qed.

Lemma trace_walk selected operation this this' :
  (forall p, P [operation p; CallDereferenceServerProcess p]) ->
  table_ok this ->
  for_DWORD (Z.to_nat (m_dwProcessesPerApplication this)) 0
    (walk_body selected operation) this = Some this' ->
  exists cs, calls this' = calls this ++ cs /\ P cs.
Proof.
  intros Hop Hok. rewrite walk_table_ok by exact Hok.
  destruct (m_ppServerProcessList this) as [array |]; intros [= <-].
  - eexists. split; [reflexivity |]. apply trace_calls_for, Hop.
  - exists []. rewrite app_nil_r. auto.
Qed.

Lemma trace_create pConfig env i this :
  exists cs,
    calls (create_in_empty_slot pConfig env i this).2 = calls this ++ cs /\ P cs.
Proof.
  unfold create_in_empty_slot. rewrite RapidFailsPerMinuteExceeded_cases.
  destruct (_ <=? _);
    (destruct (_ <? _); [eexists; split; [reflexivity | apply P_log] |]);
    (destruct (FAILED (Initialize_result env));
     [eexists; split; [reflexivity | apply P_attempt] |]);
    (destruct (FAILED (StartProcess_result env));
     [eexists; split; [cbn; rewrite <- app_assoc; reflexivity | apply P_app; auto] |]);
    destruct (IsReady (started env)); cbn [negb];
    (eexists; split; [cbn; rewrite <- app_assoc; reflexivity | apply P_app; auto]).
Qed.

Lemma trace_AllocateServerProcessList pConfig this :
  exists cs, calls (AllocateServerProcessList pConfig this) = calls this ++ cs /\ P cs.
Proof.
  unfold AllocateServerProcessList. destruct (serverProcessListReady this); cbn.
  - exists []. rewrite app_nil_r. auto.
  - eexists. split; [reflexivity | apply P_new].
Qed.

Lemma trace_GetProcess pConfig env this result :
  table_ok this ->
  GetProcess pConfig env this = Some result ->
  exists cs, calls result.2 = calls this ++ cs /\ P cs.
Proof.
  intros Hok Hcall. destruct (isStopping this) eqn:Hrun.
  { rewrite GetProcess_stopping in Hcall by exact Hrun. injection Hcall as <-.
    exists []. cbn. rewrite app_nil_r. auto. }
  destruct (GetProcess_paths _ _ _ _ Hok Hrun Hcall) as (i & slot & Hindex & Hslot & ->).
  destruct (trace_AllocateServerProcessList pConfig this) as (cs0 & Hcs0 & HP0).
  set (allocated := AllocateServerProcessList pConfig this) in *.
  destruct (occupied_and_ready slot).
  - exists cs0. auto.
  - destruct (slot_at_inv _ _ _ Hslot) as (array & Harray & _).
    assert (Hgate : exists cs1, calls (at_gate allocated slot) = calls allocated ++ cs1 /\ P cs1).
    { unfold at_gate. destruct slot as [p |].
      - unfold stop_not_ready, slots. cbn. rewrite Harray. cbn. eexists.
        split; [reflexivity | apply trace_calls_for, P_stop].
      - exists []. cbn. rewrite app_nil_r. auto. }
    destruct Hgate as (cs1 & Hcs1 & HP1).
    destruct (trace_create pConfig env i (at_gate allocated slot)) as (cs2 & Hcs2 & HP2).
    exists (cs0 ++ cs1 ++ cs2). rewrite Hcs2, Hcs1, Hcs0, <- !app_assoc. auto.
Qed.

(** The calls of every operation but [Initialize]. *)
Lemma trace_step op this this' :
  table_ok this ->
  (forall env, op <> OpInitialize env) ->
  step op this = Some this' ->
  exists cs, calls this' = calls this ++ cs /\ P cs.
Proof.
  intros Hok Hop. destruct op; cbn [step].
  - destruct (Hop env eq_refl).
  - destruct (GetProcess pConfig env this) as [result |] eqn:Hcall; [| discriminate].
    cbn. intros [= <-]. eapply trace_GetProcess; eauto.
  - rewrite SendShutdownSignal_walk. apply trace_walk; auto.
  - unfold ShutdownProcess. rewrite ShutdownProcessNoLock_walk. apply trace_walk; auto.
  - unfold ShutdownAllProcesses. rewrite ShutdownAllProcessesNoLock_walk.
    apply trace_walk; auto.
  - unfold Shutdown. destruct (isStopping this); cbn [negb].
    + intros [= <-]. exists []. cbn. rewrite app_nil_r. auto.
    + unfold ShutdownAllProcesses. rewrite ShutdownAllProcessesNoLock_walk.
      apply (trace_walk any_worker CallSendSignal (set_isStopping true this)); auto.
  - intros [= <-]. exists []. cbn. rewrite app_nil_r. auto.
  - intros [= <-]. exists []. cbn. rewrite app_nil_r. auto.
  - intros [= <-]. exists []. unfold worker_changes.
    destruct (m_ppServerProcessList this) as [array |];
      [destruct (array !! i) as [[p |] |] |]; cbn; rewrite app_nil_r; auto.
Qed.

End Trace.

Lemma step_isWSAStartupDone op this this' :
  invariant this -> step op this = Some this' ->
  isWSAStartupDone this = true -> isWSAStartupDone this' = true.
Proof.
  intros Hinv. pose proof Hinv as (Hok & _). destruct op; cbn [step].
  - intros [= <-] Hdone. rewrite Initialize_cases, Hdone. cbn [negb andb].
    destruct (m_hNULHandle this); exact Hdone.
  - destruct (GetProcess pConfig env this) as [[[hr out] after] |] eqn:Hcall; [| discriminate].
    cbn. intros [= <-] Hdone. destruct (isStopping this) eqn:Hstop.
    + rewrite GetProcess_stopping in Hcall by exact Hstop. injection Hcall as _ _ <-.
      exact Hdone.
    + destruct (GetProcess_evolves _ _ _ _ _ _ Hok Hstop Hcall)
        as (cs & (_ & _ & _ & _ & Heq & _) & _).
      rewrite Heq. unfold AllocateServerProcessList.
      destruct (serverProcessListReady this); exact Hdone.
  - rewrite SendShutdownSignal_walk, walk_table_ok by exact Hok.
    destruct (m_ppServerProcessList this); intros [= <-]; auto.
  - unfold ShutdownProcess. rewrite ShutdownProcessNoLock_walk, walk_table_ok by exact Hok.
    destruct (m_ppServerProcessList this); intros [= <-]; auto.
  - unfold ShutdownAllProcesses.
    rewrite ShutdownAllProcessesNoLock_walk, walk_table_ok by exact Hok.
    destruct (m_ppServerProcessList this); intros [= <-]; auto.
  - unfold Shutdown. destruct (isStopping this); cbn [negb].
    + intros [= <-]. auto.
    + unfold ShutdownAllProcesses. rewrite ShutdownAllProcessesNoLock_walk.
      rewrite (walk_table_ok any_worker CallSendSignal (set_isStopping true this)) by exact Hok.
      cbn. destruct (m_ppServerProcessList this); intros [= <-]; auto.
  - intros [= <-]. auto.
  - intros [= <-]. auto.
  - intros [= <-]. unfold worker_changes.
    destruct (m_ppServerProcessList this) as [array |];
      [destruct (array !! i) as [[p |] |] |]; auto.
Qed.

Lemma step_no_WSAStartup op this this' :
  invariant this -> step op this = Some this' ->
  isWSAStartupDone this = true ->
  count is_CallWSAStartup (calls this') = count is_CallWSAStartup (calls this).
Proof.
  intros Hinv Hstep Hdone. pose proof Hinv as (Hok & _).
  assert (Hcase : (exists env, op = OpInitialize env) \/ forall env, op <> OpInitialize env).
  { destruct op; try (right; discriminate). left. eauto. }
  destruct Hcase as [(env & ->) | Hother].
  - cbn in Hstep. injection Hstep as <-. rewrite Initialize_cases, Hdone. cbn [negb andb].
    destruct (m_hNULHandle this); cbn; count_calls; lia.
  - destruct (trace_step (fun cs => count is_CallWSAStartup cs = 0%nat)) with
      (op := op) (this := this) (this' := this') as (cs & -> & Hnone); auto.
    + intros cs cs' Ha Hb. rewrite count_app. lia.
    + rewrite count_app, Hnone. lia.
Qed.

(** X11.  Winsock is started once per process, and a failed start is tried
    again.  An [Initialize()] whose [WSAStartup] fails leaves
    [isWSAStartupDone] clear, so the next [Initialize()] calls [WSAStartup]
    again; once [isWSAStartupDone] is set, no operation of the manager
    clears it or calls [WSAStartup] again. *)
Theorem WSAStartup_once_done :
  (forall env env' this,
      isWSAStartupDone this = false ->
      WSAStartup env <> 0 ->
      WSAStartup env' = 0 ->
      let failed := (Initialize env this).2 in
      isWSAStartupDone failed = false /\
      isWSAStartupDone (Initialize env' failed).2 = true /\
      count is_CallWSAStartup (calls (Initialize env' failed).2)
      = S (S (count is_CallWSAStartup (calls this)))) /\
  (forall this ops this',
      reachable this ->
      isWSAStartupDone this = true ->
      run ops this = Some this' ->
      isWSAStartupDone this' = true /\
      count is_CallWSAStartup (calls this') = count is_CallWSAStartup (calls this)).
Proof.
  split.
  - intros env env' this Hdone Hfail Hgood failed.
    assert (Hfailed : failed = call [CallWSAStartup] this).
    { unfold failed. rewrite Initialize_cases, Hdone.
      destruct (Z.eqb_spec (WSAStartup env) 0); [contradiction | reflexivity]. }
    rewrite Hfailed. split; [exact Hdone |].
    rewrite Initialize_cases. cbn [isWSAStartupDone call]. rewrite Hdone, Hgood.
    cbn [negb andb Z.eqb]. cbn [m_hNULHandle call].
    destruct (m_hNULHandle this); cbn; count_calls; split; (reflexivity || lia).
  - intros this ops this' Hreach. apply reachable_invariant in Hreach.
    revert this Hreach. induction ops as [| op ops IH]; intros this Hinv Hdone; cbn [run].
    + intros [= <-]. auto.
    + destruct (step op this) as [next |] eqn:Hstep; [| discriminate]. cbn.
      intros Hrun.
      destruct (IH next) as (Hdone' & Hcount); auto.
      * eapply invariant_step; eauto.
      * eapply step_isWSAStartupDone; eauto.
      * split; [exact Hdone' |]. rewrite Hcount. eapply step_no_WSAStartup; eauto.
Qed.

Lemma WSAStartup_once_done_witness :
  reachable one_ready /\
  isWSAStartupDone (Initialize no_winsock fresh).2 = false /\
  count is_CallWSAStartup (calls (Initialize (all_well 1 5000) (Initialize no_winsock fresh).2).2)
  = 2%nat /\
  count is_CallWSAStartup (calls one_stopped) = 1%nat.
Proof.
  assert (Hreach : reachable one_ready).
  { exists 0, false, history_one_ready. reflexivity. }
  destruct WSAStartup_once_done as (Hretry & Honce).
  assert (Hfail : WSAStartup no_winsock <> 0) by discriminate.
  destruct (Hretry no_winsock (all_well 1 5000) fresh eq_refl Hfail eq_refl)
    as (Hclear & _ & Htwice).
  assert (Hrun : run [OpShutdown] one_ready = Some one_stopped) by reflexivity.
  destruct (Honce one_ready [OpShutdown] one_stopped Hreach eq_refl Hrun) as (_ & Hcount).
  split; [exact Hreach |]. split; [exact Hclear |]. split; [exact Htwice | exact Hcount].
Defined.

(** ** Releasing workers *)

Lemma released_in_pairs_app cs cs' :
  released_in_pairs cs -> released_in_pairs cs' -> released_in_pairs (cs ++ cs').
Proof.
  intros Hcs Hcs'. induction Hcs; cbn [app]; auto using released_in_pairs.
Qed.

Lemma released_in_pairs_one c :
  parts_with_worker c = false -> released_in_pairs [c].
Proof. intros Hc. apply released_other; [exact Hc | apply released_nil]. Qed.

Lemma released_in_pairs_step op this this' :
  invariant this -> step op this = Some this' ->
  released_in_pairs (calls this) -> released_in_pairs (calls this').
Proof.
  intros Hinv Hstep Hpairs. pose proof Hinv as (Hok & _).
  assert (Hcase : (exists env, op = OpInitialize env) \/ forall env, op <> OpInitialize env).
  { destruct op; try (right; discriminate). left. eauto. }
  destruct Hcase as [(env & ->) | Hother].
  - cbn in Hstep. injection Hstep as <-. rewrite Initialize_cases.
    destruct (negb _ && negb _); cbn [snd].
    { apply released_in_pairs_app; [exact Hpairs |]. apply released_in_pairs_one. reflexivity. }
    destruct (isWSAStartupDone this), (m_hNULHandle this); cbn;
      repeat (apply released_in_pairs_app; [| apply released_in_pairs_one; reflexivity]);
      exact Hpairs.
  - assert (Hmore : exists cs, calls this' = calls this ++ cs /\ released_in_pairs cs).
    { apply (trace_step released_in_pairs) with (op := op);
        auto using released_in_pairs, released_in_pairs_app, released_in_pairs_one.
      all: repeat (apply released_other; [reflexivity |]); apply released_nil. }
    destruct Hmore as (cs & -> & Hcs). apply released_in_pairs_app; assumption.
Qed.

Lemma released_in_pairs_counts cs :
  released_in_pairs cs ->
  count is_CallDereferenceServerProcess cs
  = (count is_CallStopProcess cs + count is_CallSendSignal cs)%nat.
Proof.
  induction 1 as [| p cs _ IH | p cs _ IH | c cs Hc _ IH]; [reflexivity | | |].
  - count_calls. lia.
  - count_calls. lia.
  - rewrite !count_cons. unfold parts_with_worker in Hc.
    destruct (is_CallSendSignal c), (is_CallStopProcess c),
             (is_CallDereferenceServerProcess c); try discriminate; lia.
Qed.

Lemma released_in_pairs_followed cs :
  released_in_pairs cs ->
  forall before c after,
    cs = before ++ c :: after ->
    (forall p, c = CallStopProcess p \/ c = CallSendSignal p ->
               exists after', after = CallDereferenceServerProcess p :: after') /\
    (forall p, c = CallDereferenceServerProcess p ->
               exists before', before = before' ++ [CallStopProcess p] \/
                               before = before' ++ [CallSendSignal p]).
Proof.
  induction 1 as [| q cs Hcs IH | q cs Hcs IH | d cs Hd Hcs IH]; intros before c after Heq.
  - destruct before; discriminate.
  - destruct before as [| b0 [| b1 before]]; cbn in Heq.
    + injection Heq as <- <-. split.
      * intros p [[= <-] | [=]]. eauto.
      * intros p [=].
    + injection Heq as <- <- <-. split.
      * intros p [[=] | [=]].
      * intros p [= <-]. exists []. left. reflexivity.
    + injection Heq as <- <- Heq. destruct (IH _ _ _ Heq) as (Hnext & Hprev). split.
      * exact Hnext.
      * intros p Hc. destruct (Hprev p Hc) as (before' & [-> | ->]);
          exists (CallStopProcess q :: CallDereferenceServerProcess q :: before'); auto.
  - destruct before as [| b0 [| b1 before]]; cbn in Heq.
    + injection Heq as <- <-. split.
      * intros p [[=] | [= <-]]. eauto.
      * intros p [=].
    + injection Heq as <- <- <-. split.
      * intros p [[=] | [=]].
      * intros p [= <-]. exists []. right. reflexivity.
    + injection Heq as <- <- Heq. destruct (IH _ _ _ Heq) as (Hnext & Hprev). split.
      * exact Hnext.
      * intros p Hc. destruct (Hprev p Hc) as (before' & [-> | ->]);
          exists (CallSendSignal q :: CallDereferenceServerProcess q :: before'); auto.
  - destruct before as [| b0 before]; cbn in Heq.
    + injection Heq as <- <-. split.
      * intros p [-> | ->]; discriminate.
      * intros p ->. discriminate.
    + injection Heq as <- Heq. destruct (IH _ _ _ Heq) as (Hnext & Hprev). split.
      * exact Hnext.
      * intros p Hc. destruct (Hprev p Hc) as (before' & [-> | ->]);
          exists (d :: before'); auto.
Qed.

(** X12.  The manager gives up its reference to a worker exactly when it
    stops or signals it.  In the calls of every reachable manager, each
    [StopProcess] and each [SendSignal] on a worker is followed at once by
    [DereferenceServerProcess] on the same worker, each
    [DereferenceServerProcess] comes at once after a [StopProcess] or a
    [SendSignal] on the same worker, and so the releases are as many as the
    stops and signals together. *)
Theorem workers_released_when_stopped this :
  reachable this ->
  released_in_pairs (calls this) /\
  (forall before c after,
      calls this = before ++ c :: after ->
      (forall p, c = CallStopProcess p \/ c = CallSendSignal p ->
                 exists after', after = CallDereferenceServerProcess p :: after') /\
      (forall p, c = CallDereferenceServerProcess p ->
                 exists before', before = before' ++ [CallStopProcess p] \/
                                 before = before' ++ [CallSendSignal p])) /\
  count is_CallDereferenceServerProcess (calls this)
  = (count is_CallStopProcess (calls this) + count is_CallSendSignal (calls this))%nat.
Proof.
  intros (garbage & wsaStartupDone & ops & Hrun).
  assert (Hpairs : released_in_pairs (calls this)).
  { revert Hrun.
    assert (Hstart : released_in_pairs (calls (PROCESS_MANAGER_ctor garbage wsaStartupDone)))
      by apply released_nil.
    pose proof (invariant_ctor garbage wsaStartupDone) as Hinv.
    revert Hinv Hstart. generalize (PROCESS_MANAGER_ctor garbage wsaStartupDone).
    induction ops as [| op ops IH]; intros start Hinv Hstart; cbn [run].
    - intros [= <-]. exact Hstart.
    - destruct (step op start) as [next |] eqn:Hstep; [| discriminate]. cbn.
      apply IH; [eapply invariant_step; eauto | eapply released_in_pairs_step; eauto]. }
  split; [exact Hpairs |]. split.
  - apply released_in_pairs_followed, Hpairs.
  - apply released_in_pairs_counts, Hpairs.
Qed.

Lemma workers_released_when_stopped_witness :
  reachable first_dead_refused /\
  count is_CallDereferenceServerProcess (calls first_dead_refused) = 1%nat /\
  count is_CallStopProcess (calls first_dead_refused) = 1%nat.
Proof.
  assert (Hreach : reachable first_dead_refused).
  { exists 0, false,
      (history_first_dead_failing ++ [OpGetProcess config (all_well 10 5003)]).
    reflexivity. }
  destruct (workers_released_when_stopped first_dead_refused Hreach) as (_ & _ & Hcount).
  split; [exact Hreach |]. split; [exact Hcount | reflexivity].
Defined.

(** ** Workers created, held and released *)

Lemma held_in_app (array array' : list Slot) :
  held_in (array ++ array') = (held_in array + held_in array')%nat.
Proof. unfold held_in. rewrite filter_app, length_app. reflexivity. Qed.

Lemma held_in_cons (slot : Slot) (array : list Slot) :
  held_in (slot :: array)
  = ((match slot with Some _ => 1 | None => 0 end) + held_in array)%nat.
Proof.
  unfold held_in. rewrite filter_cons. destruct slot as [p |]; destruct (decide _) as [H | H].
  - reflexivity.
  - destruct H. eauto.
  - destruct H as [? [=]].
  - reflexivity.
Qed.

Lemma held_in_insert (array : list Slot) i (slot slot' : Slot) :
  array !! i = Some slot ->
  (held_in (<[i := slot']> array) + match slot with Some _ => 1 | None => 0 end
   = held_in array + match slot' with Some _ => 1 | None => 0 end)%nat.
Proof.
  intros Hlook. pose proof (lookup_lt_Some _ _ _ Hlook) as Hlt.
  rewrite insert_take_drop by exact Hlt.
  rewrite <- (take_drop_middle array i slot Hlook) at 3.
  rewrite !held_in_app, !held_in_cons. lia.
Qed.

Lemma held_in_replicate n : held_in (replicate n None) = 0%nat.
Proof.
  induction n as [| n IH]; [reflexivity |]. cbn [replicate]. rewrite held_in_cons, IH.
  reflexivity.
Qed.

Lemma held_in_walked selected operation (array : list Slot) :
  (forall p, is_CallDereferenceServerProcess (operation p) = false) ->
  (held_in (cleared selected <$> array)
   + count is_CallDereferenceServerProcess (array ≫= calls_for selected operation)
   = held_in array)%nat.
Proof.
  intros Hop. induction array as [| slot array IH]; [reflexivity |].
  rewrite fmap_cons, bind_cons, count_app, !held_in_cons.
  destruct slot as [p |]; cbn [cleared calls_for]; [destruct (selected p) |];
    count_calls; rewrite ?Hop; lia.
Qed.

Lemma no_make_in_walk selected operation (array : list Slot) :
  (forall p, is_CallMakeServerProcess (operation p) = false) ->
  count is_CallMakeServerProcess (array ≫= calls_for selected operation) = 0%nat.
Proof.
  intros Hop. induction array as [| slot array IH]; [reflexivity |].
  rewrite bind_cons, count_app, IH.
  destruct slot as [p |]; cbn [calls_for]; [destruct (selected p) |];
    count_calls; rewrite ?Hop; lia.
Qed.


Lemma accounted_walk selected operation this this' :
  (forall p, is_CallDereferenceServerProcess (operation p) = false) ->
  (forall p, is_CallMakeServerProcess (operation p) = false) ->
  table_ok this ->
  for_DWORD (Z.to_nat (m_dwProcessesPerApplication this)) 0
    (walk_body selected operation) this = Some this' ->
  (occupied this' + count is_CallDereferenceServerProcess (calls this')
   = occupied this + count is_CallDereferenceServerProcess (calls this))%nat /\
  count is_CallMakeServerProcess (calls this') = count is_CallMakeServerProcess (calls this).
Proof.
  intros Hderef Hmake Hok. rewrite walk_table_ok by exact Hok. unfold occupied, slots.
  destruct (m_ppServerProcessList this) as [array |] eqn:Harray; intros [= <-].
  - cbn. rewrite !count_app, no_make_in_walk by exact Hmake.
    pose proof (held_in_walked selected operation array Hderef). split; lia.
  - rewrite Harray. auto.
Qed.

Lemma accounted_AllocateServerProcessList pConfig this :
  accounted this -> accounted (AllocateServerProcessList pConfig this).
Proof.
  unfold accounted, AllocateServerProcessList, occupied, slots.
  destruct (serverProcessListReady this); cbn; [auto |].
  intros Hacc. rewrite held_in_replicate. count_calls. lia.
Qed.

Lemma accounted_GetProcess pConfig env this result :
  table_ok this ->
  GetProcess pConfig env this = Some result ->
  accounted this -> accounted result.2.
Proof.
  intros Hok Hcall Hacc. destruct (isStopping this) eqn:Hrun.
  { rewrite GetProcess_stopping in Hcall by exact Hrun. injection Hcall as <-. exact Hacc. }
  destruct (GetProcess_paths _ _ _ _ Hok Hrun Hcall) as (i & slot & Hindex & Hslot & ->).
  apply (accounted_AllocateServerProcessList pConfig) in Hacc.
  pose proof (table_ok_AllocateServerProcessList pConfig this Hok) as Hoka.
  set (allocated := AllocateServerProcessList pConfig this) in *.
  destruct (occupied_and_ready slot) eqn:Hready; [exact Hacc |].
  destruct (at_gate_slot_empty allocated i slot Hslot Hready) as (array & Harray & Hi & Hlook).
  assert (Hgate : accounted (at_gate allocated slot)).
  { unfold at_gate. destruct slot as [p |]; [| exact Hacc].
    unfold stop_not_ready.
    destruct (slot_at_inv _ _ _ Hslot) as (array0 & Harray0 & _).
    pose proof (accounted_walk (same_port p) CallStopProcess
                  (fetch_add_m_dwRouteToProcessIndex allocated)
                  (walked (same_port p) CallStopProcess array0
                     (fetch_add_m_dwRouteToProcessIndex allocated))) as Hwalk.
    unfold slots. cbn [m_ppServerProcessList fetch_add_m_dwRouteToProcessIndex
                       set_m_dwRouteToProcessIndex]. rewrite Harray0. cbn [default].
    destruct Hwalk as (Hheld & Hmade); auto.
    { rewrite walk_table_ok by exact Hoka. cbn. rewrite Harray0. reflexivity. }
    unfold accounted in *. cbn in Hheld, Hmade. unfold occupied, slots in *.
    cbn in *. rewrite Harray0 in *. cbn in *. lia. }
  pose proof (create_in_empty_slot_outcome pConfig env i (at_gate allocated slot))
    as (_ & _ & [Hdone | Hfail]).
  - destruct Hdone as (_ & _ & _ & Hlist & Hcalls).
    unfold accounted, occupied in *. unfold slots at 1. rewrite Hlist, Hcalls. cbn [default].
    unfold slots in Hgate |- *. rewrite Harray in *. cbn [default] in *.
    pose proof (held_in_insert array (Z.to_nat i) None (Some (started env)) Hlook) as Hmore.
    cbn beta iota in Hmore. unfold id in Hgate. count_calls. lia.
  - destruct Hfail as (_ & _ & Hlist).
    destruct (trace_create (fun cs => count is_CallDereferenceServerProcess cs = 0%nat))
      with (pConfig := pConfig) (env := env) (i := i) (this := at_gate allocated slot)
      as (cs & Hcalls & Hnone); try reflexivity.
    { intros cs cs' Ha Hb. rewrite count_app. lia. }
    unfold accounted, occupied, slots in *. rewrite Hlist, Hcalls, !count_app, Hnone. lia.
Qed.

Lemma accounted_step op this this' :
  invariant this -> step op this = Some this' -> accounted this -> accounted this'.
Proof.
  intros Hinv. pose proof Hinv as (Hok & _). destruct op; cbn [step].
  - intros [= <-]. unfold accounted, occupied, slots. rewrite Initialize_cases.
    destruct (negb _ && negb _); cbn [snd]; [cbn; count_calls; lia |].
    destruct (isWSAStartupDone this), (m_hNULHandle this); cbn; count_calls; lia.
  - destruct (GetProcess pConfig env this) as [result |] eqn:Hcall; [| discriminate].
    cbn. intros [= <-]. eapply accounted_GetProcess; eauto.
  - rewrite SendShutdownSignal_walk. intros Hwalk Hacc.
    destruct (accounted_walk any_worker CallSendSignal this this') as (Hheld & Hmade); auto.
    unfold accounted in *. lia.
  - unfold ShutdownProcess. rewrite ShutdownProcessNoLock_walk. intros Hwalk Hacc.
    destruct (accounted_walk (same_port pServerProcess) CallStopProcess this this')
      as (Hheld & Hmade); auto.
    unfold accounted in *. lia.
  - unfold ShutdownAllProcesses. rewrite ShutdownAllProcessesNoLock_walk. intros Hwalk Hacc.
    destruct (accounted_walk any_worker CallSendSignal this this') as (Hheld & Hmade); auto.
    unfold accounted in *. lia.
  - unfold Shutdown. destruct (isStopping this); cbn [negb].
    + intros [= <-]. auto.
    + unfold ShutdownAllProcesses. rewrite ShutdownAllProcessesNoLock_walk. intros Hwalk Hacc.
      destruct (accounted_walk any_worker CallSendSignal (set_isStopping true this) this')
        as (Hheld & Hmade); auto.
      unfold accounted in *. cbn in Hheld, Hmade. unfold occupied, slots in *. cbn in *. lia.
  - intros [= <-]. auto.
  - intros [= <-]. auto.
  - intros [= <-]. unfold worker_changes, accounted, occupied, slots.
    destruct (m_ppServerProcessList this) as [array |] eqn:Harray; [| rewrite Harray; auto].
    destruct (array !! i) as [[p |] |] eqn:Hlook; rewrite ?Harray; auto.
    cbn.
    pose proof (held_in_insert array i (Some p)
                  (Some (mkSERVER_PROCESS (GetPort p) ready)) Hlook).
    lia.
Qed.

(** X13.  The manager holds and releases only workers that it created.  On
    every reachable manager the workers in the slots and the
    [DereferenceServerProcess] calls made so far are together not more than
    the [make_unique<SERVER_PROCESS>] calls made so far: the manager never
    holds or releases more workers than [GetProcess] has created. *)
Theorem workers_held_and_released_were_created this :
  reachable this ->
  (occupied this + count is_CallDereferenceServerProcess (calls this)
   <= count is_CallMakeServerProcess (calls this))%nat.
Proof.
  intros (garbage & wsaStartupDone & ops & Hrun).
  change (accounted this). revert Hrun.
  assert (Hstart : accounted (PROCESS_MANAGER_ctor garbage wsaStartupDone)).
  { unfold accounted, occupied. cbn. rewrite !count_nil. reflexivity. }
  pose proof (invariant_ctor garbage wsaStartupDone) as Hinv.
  revert Hinv Hstart. generalize (PROCESS_MANAGER_ctor garbage wsaStartupDone).
  induction ops as [| op ops IH]; intros start Hinv Hstart; cbn [run].
  - intros [= <-]. exact Hstart.
  - destruct (step op start) as [next |] eqn:Hstep; [| discriminate]. cbn.
    apply IH; [eapply invariant_step; eauto | eapply accounted_step; eauto].
Qed.

Lemma workers_held_and_released_were_created_witness :
  reachable first_dead_refused /\
  occupied first_dead_refused = 2%nat /\
  (2 + count is_CallDereferenceServerProcess (calls first_dead_refused)
   <= count is_CallMakeServerProcess (calls first_dead_refused))%nat.
Proof.
  assert (Hreach : reachable first_dead_refused).
  { exists 0, false,
      (history_first_dead_failing ++ [OpGetProcess config (all_well 10 5003)]).
    reflexivity. }
  split; [exact Hreach |]. split; [reflexivity |].
  exact (workers_held_and_released_were_created first_dead_refused Hreach).
Defined.

(** X14.  No processes per application.  When the configuration of the
    first [GetProcess] of a manager gives [processesPerApplication] as 0,
    the call allocates a table of no slots and then takes the remainder of
    the cursor by 0: its behaviour is undefined.  Nothing in [GetProcess]
    guards against it; only a manager that is stopping returns, with
    E_APPLICATION_EXITING, before that remainder. *)
Theorem GetProcess_without_slots pConfig env this :
  to_DWORD (QueryProcessesPerApplication pConfig) = 0 ->
  serverProcessListReady this = false ->
  m_ppServerProcessList (AllocateServerProcessList pConfig this) = Some [] /\
  (isStopping this = false -> GetProcess pConfig env this = None) /\
  (isStopping this = true ->
   GetProcess pConfig env this = Some (E_APPLICATION_EXITING, None, this)).
Proof.
  intros Hzero Hready. split; [| split].
  - unfold AllocateServerProcessList. rewrite Hready. cbn. rewrite Hzero. reflexivity.
  - intros Hrun. unfold GetProcess. rewrite Hrun. cbn [andb].
    unfold RouteToProcessIndex, AllocateServerProcessList. rewrite Hready. cbn.
    rewrite Hzero. reflexivity.
  - apply GetProcess_stopping.
Qed.

Lemma GetProcess_without_slots_witness :
  GetProcess (mkREQUESTHANDLER_CONFIG 0 10) (all_well 5 5000) fresh = None.
Proof.
  destruct (GetProcess_without_slots (mkREQUESTHANDLER_CONFIG 0 10) (all_well 5 5000) fresh
              eq_refl eq_refl) as (_ & Hundefined & _).
  exact (Hundefined eq_refl).
Defined.

(** ** Filling the pool *)

Section Filling.

Variable inputs : N -> REQUESTHANDLER_CONFIG * Environment.
Variable this : PROCESS_MANAGER.

Hypothesis table : table_ok this.
Hypothesis ready : serverProcessListReady this = true.
Hypothesis running : isStopping this = false.
Hypothesis empty : all_empty this.
Hypothesis fresh_cursor : m_dwRouteToProcessIndex this = 0.
Hypothesis slot_count : 0 < m_dwProcessesPerApplication this <= 2 ^ 31.
Hypothesis tolerated : forall k,
  0 <= to_LONG (QueryRapidFailsPerMinute (inputs k).1) /\
  m_cRapidFailCount this <= to_LONG (QueryRapidFailsPerMinute (inputs k).1).
Hypothesis comes_up : forall k,
  FAILED (Initialize_result (inputs k).2) = false /\
  FAILED (StartProcess_result (inputs k).2) = false /\
  IsReady (started (inputs k).2) = true.

(** The workers that the calls number 0 to [n - 1] start. *)
Local Abbreviation workers n :=
  ((fun k : nat => Some (started (inputs (N.of_nat k)).2)) <$> seq 0 n).

Lemma fill_one that n :
  (Z.of_nat n < m_dwProcessesPerApplication this) ->
  table_ok that ->
  serverProcessListReady that = true ->
  isStopping that = false ->
  m_dwProcessesPerApplication that = m_dwProcessesPerApplication this ->
  m_dwRouteToProcessIndex that = to_int (Z.of_nat n) ->
  (m_cRapidFailCount that = m_cRapidFailCount this \/ m_cRapidFailCount that = 0) ->
  slots that
  = workers n ++ replicate (Z.to_nat (m_dwProcessesPerApplication this) - n) None ->
  exists next,
    GetProcess (inputs (N.of_nat n)).1 (inputs (N.of_nat n)).2 that
    = Some (S_OK, Some (started (inputs (N.of_nat n)).2), next) /\
    table_ok next /\
    serverProcessListReady next = true /\
    isStopping next = false /\
    m_dwProcessesPerApplication next = m_dwProcessesPerApplication this /\
    m_dwRouteToProcessIndex next = to_int (Z.of_nat (S n)) /\
    (m_cRapidFailCount next = m_cRapidFailCount this \/ m_cRapidFailCount next = 0) /\
    slots next
    = workers (S n) ++ replicate (Z.to_nat (m_dwProcessesPerApplication this) - S n) None.
Proof.
  intros Hn Hok Hready Hrun HK Hcursor Hcount Hslots.
  rewrite to_int_small in Hcursor by (unfold is_int; lia).
  set (pConfig := (inputs (N.of_nat n)).1). set (env := (inputs (N.of_nat n)).2).
  pose proof (AllocateServerProcessList_ready pConfig that Hready) as Halloc.
  assert (Hlen : length (workers n) = n) by (rewrite length_fmap, length_seq; reflexivity).
  assert (Hindex : RouteToProcessIndex that = Some (Z.of_nat n)).
  { destruct (RouteToProcessIndex_range that) as (i & Hi & _ & Heq); [rewrite HK; lia |].
    rewrite Hi, Heq, Hcursor, HK. f_equal.
    rewrite to_DWORD_small by (unfold is_DWORD; lia). apply Z.mod_small. lia. }
  assert (Hlook : slots that !! n = Some None).
  { rewrite Hslots, lookup_app_r by lia. rewrite Hlen, Nat.sub_diag.
    apply lookup_replicate_2. lia. }
  assert (Hslot : slot_at that (Z.of_nat n) = Some None).
  { unfold slots in Hlook. destruct (m_ppServerProcessList that) as [array |] eqn:Harray;
      [| cbn in Hlook; rewrite lookup_nil in Hlook; discriminate].
    rewrite (slot_at_lookup that array) by (assumption || lia). rewrite Nat2Z.id.
    exact Hlook. }
  assert (Hgate : (RapidFailsPerMinuteExceeded (to_LONG (QueryRapidFailsPerMinute pConfig)) env
                     (fetch_add_m_dwRouteToProcessIndex that)).1 = false).
  { destruct (tolerated (N.of_nat n)) as (Hlimit & Hbound). fold pConfig in Hlimit, Hbound.
    rewrite RapidFailsPerMinuteExceeded_cases. destruct (_ <=? _); cbn [fst];
      apply Z.ltb_ge; [lia |]. cbn. destruct Hcount as [-> | ->]; lia. }
  destruct (comes_up (N.of_nat n)) as (Hinit & Hstart & Hup). fold env in Hinit, Hstart, Hup.
  destruct (create_on_empty_slot pConfig env that (Z.of_nat n) Hok Hrun)
    as (next & Hcall & Hnext & _); rewrite ?Halloc; try assumption.
  rewrite Halloc in Hnext.
  destruct (GetProcess_evolves _ _ _ _ _ _ Hok Hrun Hcall) as (cs & Hev & _).
  rewrite Halloc in Hev.
  pose proof (table_ok_evolves _ _ _ Hev Hok) as Hokn.
  destruct (GetProcess_cursor_and_count _ _ _ _ _ _ Hok Hrun Hcall) as (Hc & Hn').
  destruct Hev as (HK' & Hr' & Hs' & _).
  exists next. split; [exact Hcall |]. split; [exact Hokn |].
  split; [congruence |]. split; [congruence |]. split; [congruence |].
  split; [| split].
  - rewrite Hc, Hcursor. f_equal. lia.
  - destruct Hn' as [-> | ->]; auto.
  - rewrite Hnext, Hslots, Nat2Z.id.
    rewrite insert_app_r_alt by lia. rewrite Hlen, Nat.sub_diag.
    rewrite seq_S, fmap_app. cbn [fmap list_fmap Nat.add]. rewrite <- app_assoc. f_equal.
    replace (Z.to_nat (m_dwProcessesPerApplication this) - n)%nat
      with (S (Z.to_nat (m_dwProcessesPerApplication this) - S n)) by lia.
    reflexivity.
Qed.

(** The first [n] calls on an empty table. *)
Lemma fill_first (n : nat) :
  Z.of_nat n <= m_dwProcessesPerApplication this ->
  exists that,
    GetProcess_seq inputs this (N.of_nat n) = Some that /\
    table_ok that /\
    serverProcessListReady that = true /\
    isStopping that = false /\
    m_dwProcessesPerApplication that = m_dwProcessesPerApplication this /\
    m_dwRouteToProcessIndex that = to_int (Z.of_nat n) /\
    (m_cRapidFailCount that = m_cRapidFailCount this \/ m_cRapidFailCount that = 0) /\
    slots that
    = workers n ++ replicate (Z.to_nat (m_dwProcessesPerApplication this) - n) None.
Proof.
  induction n as [| n IH]; intros Hn.
  - exists this. unfold GetProcess_seq. cbn [N.of_nat]. rewrite N.peano_rect_base.
    split; [reflexivity |]. split; [exact table |]. split; [exact ready |].
    split; [exact running |]. split; [reflexivity |]. split; [exact fresh_cursor |].
    split; [left; reflexivity |].
    cbn [seq fmap list_fmap app]. rewrite Nat.sub_0_r.
    destruct table as [_ Hlen]. unfold all_empty, slots in *.
    destruct (m_ppServerProcessList this) as [array |]; [| congruence]. cbn in *.
    symmetry. apply replicate_as_Forall. split; [lia |].
    eapply Forall_impl; [exact empty |]. cbn. auto.
  - destruct IH as (that & Hseq & Hok & Hready & Hrun & HK & Hcursor & Hcount & Hslots); [lia |].
    destruct (fill_one that n) as (next & Hcall & Hrest); try assumption; [lia |].
    exists next. split; [| exact Hrest].
    unfold GetProcess_seq in *. rewrite Nat2N.inj_succ, N.peano_rect_succ, Hseq.
    cbn [mbind option_bind]. rewrite Hcall. reflexivity.
Qed.

End Filling.

(** X15.  The first calls fill the pool.  On an allocated table of K empty
    slots (1 <= K <= 2^31) with the cursor at 0, when the recorded failures
    do not exceed the limit and every new worker comes up ready, the first
    [n <= K] calls of [GetProcess] start [n] workers, one per call, and store
    them in slots 0 to n - 1 in the order of the calls; after K calls every
    slot holds a ready worker and the cursor is at K (as an [int]), so the
    next call comes back to slot 0. *)
Theorem GetProcess_fills_the_pool (inputs : N -> REQUESTHANDLER_CONFIG * Environment)
    (this : PROCESS_MANAGER) (n : nat) :
  table_ok this ->
  serverProcessListReady this = true ->
  isStopping this = false ->
  all_empty this ->
  m_dwRouteToProcessIndex this = 0 ->
  0 < m_dwProcessesPerApplication this <= 2 ^ 31 ->
  (forall k,
      0 <= to_LONG (QueryRapidFailsPerMinute (inputs k).1) /\
      m_cRapidFailCount this <= to_LONG (QueryRapidFailsPerMinute (inputs k).1)) ->
  (forall k,
      FAILED (Initialize_result (inputs k).2) = false /\
      FAILED (StartProcess_result (inputs k).2) = false /\
      IsReady (started (inputs k).2) = true) ->
  Z.of_nat n <= m_dwProcessesPerApplication this ->
  exists that,
    GetProcess_seq inputs this (N.of_nat n) = Some that /\
    m_dwRouteToProcessIndex that = to_int (Z.of_nat n) /\
    slots that
    = ((fun k : nat => Some (started (inputs (N.of_nat k)).2)) <$> seq 0 n)
      ++ replicate (Z.to_nat (m_dwProcessesPerApplication this) - n) None /\
    occupied that = n /\
    (Z.of_nat n = m_dwProcessesPerApplication this ->
     Forall (fun slot => occupied_and_ready slot = true) (slots that) /\
     RouteToProcessIndex that = Some 0).
Proof.
  intros Hok Hready Hrun Hempty Hcursor HK Htol Hup Hn.
  destruct (fill_first inputs this Hok Hready Hrun Hempty Hcursor HK Htol Hup n Hn)
    as (that & Hseq & Hokt & _ & _ & HKt & Hc & _ & Hslots).
  exists that. split; [exact Hseq |]. split; [exact Hc |]. split; [exact Hslots |].
  split; [| intros Hfull; split].
  - unfold occupied. rewrite Hslots, held_in_app.
    assert (Hnone : forall m, held_in (replicate m None) = 0%nat) by apply held_in_replicate.
    rewrite Hnone, Nat.add_0_r. generalize 0%nat. clear.
    induction n as [| n IH]; intros start; [reflexivity |].
    cbn [seq fmap list_fmap]. rewrite held_in_cons. cbn. f_equal. apply IH.
  - rewrite Hslots. replace (Z.to_nat (m_dwProcessesPerApplication this) - n)%nat with 0%nat
      by lia.
    cbn [replicate]. rewrite app_nil_r. apply Forall_fmap, Forall_forall.
    intros k _. cbn. apply Hup.
  - destruct (RouteToProcessIndex_range that) as (i & Hi & _ & Heq); [rewrite HKt; lia |].
    rewrite Hi, Heq, Hc, HKt, to_DWORD_to_int, Hfull. f_equal.
    rewrite to_DWORD_small by (unfold is_DWORD; lia).
    apply Z.mod_same. lia.
Qed.

Lemma GetProcess_fills_the_pool_witness :
  table_ok three_signalled /\
  all_empty three_signalled /\
  exists that,
    GetProcess_seq same_inputs three_signalled 3 = Some that /\
    slots that = [Some (worker 6000 true); Some (worker 6000 true); Some (worker 6000 true)] /\
    occupied that = 3%nat.
Proof.
  assert (Hok : table_ok three_signalled) by (split; [by_computation | reflexivity]).
  assert (Hempty : all_empty three_signalled) by (repeat constructor).
  assert (HK : 0 < m_dwProcessesPerApplication three_signalled <= 2 ^ 31) by by_computation.
  assert (Htol : forall k,
             0 <= to_LONG (QueryRapidFailsPerMinute (same_inputs k).1) /\
             m_cRapidFailCount three_signalled
             <= to_LONG (QueryRapidFailsPerMinute (same_inputs k).1))
    by (intros k; by_computation).
  assert (Hup : forall k,
             FAILED (Initialize_result (same_inputs k).2) = false /\
             FAILED (StartProcess_result (same_inputs k).2) = false /\
             IsReady (started (same_inputs k).2) = true)
    by (intros k; repeat split).
  assert (Hn : Z.of_nat 3 <= m_dwProcessesPerApplication three_signalled) by by_computation.
  destruct (GetProcess_fills_the_pool same_inputs three_signalled 3 Hok eq_refl eq_refl
              Hempty eq_refl HK Htol Hup Hn) as (that & Hseq & _ & Hslots & Hheld & _).
  split; [exact Hok |]. split; [exact Hempty |].
  exists that. split; [exact Hseq |]. split; [exact Hslots | exact Hheld].
Defined.
